(** * Kheticulture: job lifecycle and application matching

    A shallow embedding of the job-editing, job-posting and re-application
    logic of the Kheticulture pages ([PostJobPage], [MyJobsPage], [JobCard])
    together with the properties the specification states about them, and
    of the sign-up form ([AuthPage]) and the notes and counters the pages
    render, with further properties read off the code.

    Conventions.
    - A JavaScript number is a [number]: NaN, the two infinities, or a finite
      value kept as an exact rational.  Every finite value met here is an
      amount typed into a form, a list length or a count of milliseconds, all
      far inside the range where doubles are exact; the sign of zero is never
      observed by the code and is not represented.  The elapsed hours, a
      quotient the code rounds, are kept exact: a statement about their
      ceiling is limited to the range where the rounded value has the same
      ceiling ([remaining_hours_stable]).
    - React state and [localStorage] are threaded explicitly: a handler maps
      the page (its state, the storage it reads and writes, the alerts shown
      so far) to the page after the handler has run.  Handlers run to
      completion one after another, promises included.
    - The built-ins the code calls ([parseFloat], [parseInt], [Date], number
      printing, [trim]) are the fields of a [Runtime]; every statement holds
      for whichever runtime is supplied. *)

From Stdlib Require Import ZArith QArith Qround List String Ascii Bool Lia DecimalString.
From Stdlib Require Import Lqa.
Import ListNotations.
Open Scope string_scope.

(** ** JavaScript numbers *)

Module JS.

Inductive number : Type :=
| NaN
| NegInfinity
| Infinity
| Num (q : Q).

Definition ofZ (z : Z) : number := Num (inject_Z z).
Definition ofNat (n : nat) : number := ofZ (Z.of_nat n).

(** The outcome of an IEEE comparison: [None] when an operand is NaN. *)
Definition compare (a b : number) : option comparison :=
  match a, b with
  | NaN, _ | _, NaN => None
  | NegInfinity, NegInfinity => Some Eq
  | NegInfinity, _ => Some Lt
  | _, NegInfinity => Some Gt
  | Infinity, Infinity => Some Eq
  | Infinity, _ => Some Gt
  | _, Infinity => Some Lt
  | Num x, Num y => Some (x ?= y)%Q
  end.

(** [a < b], [a <= b], [a > b], [a >= b], [a === b], [a !== b]. *)
Definition lt (a b : number) : bool :=
  match compare a b with Some Lt => true | _ => false end.
Definition le (a b : number) : bool :=
  match compare a b with Some Lt | Some Eq => true | _ => false end.
Definition gt (a b : number) : bool := lt b a.
Definition ge (a b : number) : bool := le b a.
Definition strictEq (a b : number) : bool :=
  match compare a b with Some Eq => true | _ => false end.
Definition strictNe (a b : number) : bool := negb (strictEq a b).

Definition isNaN (a : number) : bool :=
  match a with NaN => true | _ => false end.

(** [a - b]. *)
Definition sub (a b : number) : number :=
  match a, b with
  | NaN, _ | _, NaN => NaN
  | Infinity, Infinity | NegInfinity, NegInfinity => NaN
  | Infinity, _ | _, NegInfinity => Infinity
  | NegInfinity, _ | _, Infinity => NegInfinity
  | Num x, Num y => Num (x - y)
  end.

(** [a / c] for a positive literal [c]. *)
Definition divLit (a : number) (c : Q) : number :=
  match a with
  | Num x => Num (x / c)
  | other => other
  end.

(** [Math.ceil]. *)
Definition ceil (a : number) : number :=
  match a with
  | Num x => ofZ (Qceiling x)
  | other => other
  end.

(** The built-ins of the host that the pages call. *)
Class Runtime : Type := {
  parseFloat : string -> number;
  parseInt : string -> number;
  (** [new Date(s).getTime()]: milliseconds since the epoch, NaN for a
      string that is not a date. *)
  dateGetTime : string -> number;
  (** Number-to-string conversion ([toString], template literals). *)
  numberToString : number -> string;
  trim : string -> string
}.

(** A string in a boolean position: only the empty string is falsy. *)
Definition truthy (s : string) : bool :=
  match s with EmptyString => false | _ => true end.

End JS.

Import JS.

Module Math.
(** [Math.max(a, b)]: NaN when either argument is. *)
Definition max (a b : number) : number :=
  match a, b with
  | NaN, _ | _, NaN => NaN
  | _, _ => if lt a b then b else a
  end.
End Math.

(** ** String methods

    A character of a [string] stands for one UTF-16 code unit (the strings
    met here are ASCII: digits, dashes, passwords typed on a keyboard). *)

Module Text.

(** The first [n] characters, and what follows them. *)
Fixpoint take (n : nat) (s : string) : string :=
  match n, s with
  | S n', String c rest => String c (take n' rest)
  | _, _ => EmptyString
  end.

Fixpoint drop (n : nat) (s : string) : string :=
  match n, s with
  | S n', String _ rest => drop n' rest
  | _, _ => s
  end.

(** [s.slice(b, e)] and [s.slice(b)], for indices that are not negative. *)
Definition slice (b e : nat) (s : string) : string := take (e - b) (drop b s).
Definition sliceFrom (b : nat) (s : string) : string := drop b s.

(** [s.replace(/[^class]/g, '')]: the characters of the class, in order. *)
Fixpoint keep (class : ascii -> bool) (s : string) : string :=
  match s with
  | EmptyString => EmptyString
  | String c rest => if class c then String c (keep class rest) else keep class rest
  end.

(** [/[class]/.test(s)]: some character is in the class. *)
Fixpoint test (class : ascii -> bool) (s : string) : bool :=
  match s with
  | EmptyString => false
  | String c rest => class c || test class rest
  end.

Definition between (lo hi : nat) (c : ascii) : bool :=
  Nat.leb lo (nat_of_ascii c) && Nat.leb (nat_of_ascii c) hi.

(** The classes [\d], [A-Z], [a-z]. *)
Definition isDigit : ascii -> bool := between 48 57.
Definition isUpper : ascii -> bool := between 65 90.
Definition isLower : ascii -> bool := between 97 122.

End Text.


(** ** Records of the application ([types]) *)

Inductive UserType : Type := farmer | worker.

Module User.
Record t : Type := mk {
  id : string;
  name : string;
  userType : UserType
}.
End User.

(** ['open' | 'filled' | 'in-progress' | 'completed'] *)
Inductive JobStatus : Type := open | filled | in_progress | completed.

Inductive DurationType : Type := hours | days.

Module Job.
Record t : Type := mk {
  id : string;
  farmerId : string;
  farmerName : string;
  title : string;
  description : string;
  preferredDate : string;
  wage : number;
  duration : number;
  durationType : DurationType;
  location : string;
  requiredWorkers : number;
  (** Read as [job.acceptedWorkerIds?.length ?? 0]: the field may be
      absent. *)
  acceptedWorkerIds : option (list string);
  createdAt : string;
  status : JobStatus
}.

Definition acceptedCount (job : t) : nat :=
  match acceptedWorkerIds job with
  | Some ids => List.length ids
  | None => 0
  end.

Definition withStatus (s : JobStatus) (job : t) : t :=
  mk (id job) (farmerId job) (farmerName job) (title job) (description job)
     (preferredDate job) (wage job) (duration job) (durationType job)
     (location job) (requiredWorkers job) (acceptedWorkerIds job)
     (createdAt job) s.

(** The fields an edit writes: [{wage, requiredWorkers, status}]. *)
Record patch : Type := mkPatch {
  newWage : number;
  newRequiredWorkers : number;
  newStatus : JobStatus
}.

Definition merge (p : patch) (job : t) : t :=
  mk (id job) (farmerId job) (farmerName job) (title job) (description job)
     (preferredDate job) (newWage p) (duration job) (durationType job)
     (location job) (newRequiredWorkers p) (acceptedWorkerIds job)
     (createdAt job) (newStatus p).
End Job.

(** ['pending' | 'accepted' | 'rejected'] *)
Inductive ApplicationStatus : Type := pending | accepted | rejected.

Definition isAccepted (s : ApplicationStatus) : bool :=
  match s with accepted => true | _ => false end.
Definition isRejected (s : ApplicationStatus) : bool :=
  match s with rejected => true | _ => false end.
Definition isCompleted (s : JobStatus) : bool :=
  match s with completed => true | _ => false end.
Definition isOpen (s : JobStatus) : bool :=
  match s with open => true | _ => false end.

Module Application.
(** Modelled from the spec: the [Application] type declaration ([types] is
    not among the sources); the fields are those of section 3, with
    [rejectedAt] an optional ISO-8601 string as the pages read it. *)
Record t : Type := mk {
  id : string;
  jobId : string;
  workerId : string;
  status : ApplicationStatus;
  rejectedAt : option string
}.
End Application.

(** ** Persistence ([utils/storage]) *)

Module Storage.
(** The two [localStorage] entries, each a JSON array. *)
Record t : Type := mk {
  kheticulture_jobs : list Job.t;
  kheticulture_applications : list Application.t
}.

Definition setJobs (js : list Job.t) (s : t) : t :=
  mk js (kheticulture_applications s).
Definition setApplications (apps : list Application.t) (s : t) : t :=
  mk (kheticulture_jobs s) apps.
End Storage.

Module jobStorage.
(** Modelled from the spec: [jobStorage.getJobs] ([utils/storage] is not
    among the sources); [listJobs() -> Job[]] of section 6. *)
Definition getJobs (s : Storage.t) : list Job.t :=
  Storage.kheticulture_jobs s.

(** Modelled from the spec: [jobStorage.saveJob]; [putJob] of section 6,
    insert-or-replace of the whole record.  The store keeps the record as
    it is given; the JSON of [localStorage] does so for finite numbers
    ([keptByJSON]) and turns NaN into [null], which is outside [Job.t]. *)
Definition saveJob (job : Job.t) (s : Storage.t) : Storage.t :=
  let js := getJobs s in
  if existsb (fun j => Job.id j =? Job.id job) js
  then Storage.setJobs (map (fun j => if Job.id j =? Job.id job then job else j) js) s
  else Storage.setJobs (js ++ [job])%list s.

(** Modelled from the spec: [jobStorage.updateJob(id, fields)]; the record
    with that id is rewritten whole, the given fields replaced, and the
    write path enforces nothing of its own (section 4.1). *)
Definition updateJob (jobId : string) (p : Job.patch) (s : Storage.t) : Storage.t :=
  Storage.setJobs
    (map (fun j => if Job.id j =? jobId then Job.merge p j else j) (getJobs s)) s.
End jobStorage.

Module applicationStorage.
(** Modelled from the spec: [applicationStorage.getApplications];
    [listApplications() -> Application[]] of section 6. *)
Definition getApplications (s : Storage.t) : list Application.t :=
  Storage.kheticulture_applications s.
End applicationStorage.

(** ** Status recomputation ([utils/jobStatusManager]) *)

Module JobStatusManager.
(** Modelled from the spec: the per-job recompute of section 4.4
    ([utils/jobStatusManager] is not among the sources).  A completed job
    is left alone, an in-progress job is preserved, any other job becomes
    [filled] when [len(acceptedWorkerIds) >= requiredWorkers] and [open]
    otherwise. *)
Definition recompute (job : Job.t) : Job.t :=
  match Job.status job with
  | completed => job
  | in_progress => job
  | _ =>
      if ge (ofNat (Job.acceptedCount job)) (Job.requiredWorkers job)
      then Job.withStatus filled job
      else Job.withStatus open job
  end.

(** Modelled from the spec: the batch operation of section 4.4, which
    recomputes every job in the store in a single pass and returns the
    updated collection. *)
Definition updateAllJobStatuses (s : Storage.t) : Storage.t * list Job.t :=
  let updated := map recompute (jobStorage.getJobs s) in
  (Storage.setJobs updated s, updated).

(** Modelled from the spec: the recompute of section 4.4 run for one job
    after an accept or an edit. *)
Definition checkStatusAfterWorkerAccepted (jobId : string) (s : Storage.t) : Storage.t :=
  Storage.setJobs
    (map (fun j => if Job.id j =? jobId then recompute j else j) (jobStorage.getJobs s)) s.
End JobStatusManager.

(** ** Wage validation ([utils/wageValidation]) *)

Module WageValidator.
Record validation : Type := mkValidation {
  canModify : bool;
  reason : string
}.

(** The interface [MyJobsPage] calls. *)
Record t : Type := mk {
  validateWageChange : number -> number -> bool -> nat -> validation;
  getWageErrorMessage : number -> number -> bool -> nat -> option string
}.

(** Modelled from the spec: [WageValidator] ([utils/wageValidation] is not
    among the sources); the contract of section 4.1.  Without applications
    every change is allowed; with applications only the unchanged wage
    is. *)
Definition fromSpec : t :=
  mk (fun currentWage proposedWage hasApplications _ =>
        if hasApplications && strictNe proposedWage currentWage
        then mkValidation false "Wage is locked: workers already applied against the original amount"
        else mkValidation true "")
     (fun currentWage proposedWage hasApplications _ =>
        if hasApplications && strictNe proposedWage currentWage
        then Some "Wage is locked: workers already applied against the original amount"
        else None).
End WageValidator.

(** ** [JobCard] *)

Module JobCard.
(** [canApplyToJob], with the props [canApply] (default [true]) and
    [applicationStatus] (default [null]) made arguments.  Any application
    status is a non-empty string, hence truthy. *)
Definition canApplyToJob (job : Job.t) (canApply : bool)
    (applicationStatus : option ApplicationStatus) : bool :=
  if negb canApply || (match applicationStatus with Some _ => true | None => false end)
  then false
  else isOpen (Job.status job).

(** [getApplyButtonText] *)
Definition getApplyButtonText (job : Job.t)
    (applicationStatus : option ApplicationStatus) : string :=
  match applicationStatus with
  | Some pending => "Application Pending"
  | Some accepted => "Application Accepted"
  | Some rejected => "Application Rejected"
  | None =>
    match Job.status job with
    | completed => "Job Completed"
    | filled => "All Positions Filled"
    | in_progress => "Job In Progress"
    | open =>
      if ge (ofNat (Job.acceptedCount job)) (Job.requiredWorkers job)
      then "All Positions Filled"
      else "Apply Now"
    end
  end.
End JobCard.

(** ** [PostJobPage] *)

Module PostJobPage.

Module FormData.
Record t : Type := mk {
  title : string;
  description : string;
  preferredDate : string;
  wage : string;
  duration : string;
  durationType : DurationType;
  location : string;
  requiredWorkers : string
}.
End FormData.

(** What a submission leaves behind: the [error] state set by [setError], or
    the job handed to [jobStorage.saveJob] before [navigate('/')]. *)
Inductive outcome : Type :=
| Error (message : string)
| Posted (job : Job.t).

Section WithRuntime.
Context {R : Runtime}.

(** [handleSubmit]; [nowMs] is [Date.now()] and [nowIso] is
    [new Date().toISOString()] at the time of the call.  A failing
    [localStorage] write (the [catch] branch) is outside the model. *)
Definition handleSubmit (user : option User.t) (formData : FormData.t)
    (nowMs : Z) (nowIso : string) (s : Storage.t) : Storage.t * outcome :=
  match user with
  | None => (s, Error "Only farmers can post jobs")
  | Some u =>
    match User.userType u with
    | worker => (s, Error "Only farmers can post jobs")
    | farmer =>
      if negb (truthy (trim (FormData.title formData)))
         || negb (truthy (trim (FormData.description formData)))
         || negb (truthy (trim (FormData.location formData)))
      then (s, Error "Please fill in all required fields")
      else if negb (truthy (FormData.wage formData))
              || le (parseFloat (FormData.wage formData)) (ofZ 0)
      then (s, Error "Please enter a valid wage amount (minimum NPR.1)")
      else
        let wageAmount := parseFloat (FormData.wage formData) in
        if gt wageAmount (ofZ 100000)
        then (s, Error "Wage amount seems too high. Please enter a reasonable amount.")
        else if negb (truthy (FormData.duration formData))
                || le (parseInt (FormData.duration formData)) (ofZ 0)
        then (s, Error "Please enter a valid duration")
        else if negb (truthy (FormData.requiredWorkers formData))
                || le (parseInt (FormData.requiredWorkers formData)) (ofZ 0)
        then (s, Error "Please enter a valid number of workers needed")
        else
          let job :=
            Job.mk (numberToString (ofZ nowMs))
                   (User.id u)
                   (User.name u)
                   (trim (FormData.title formData))
                   (trim (FormData.description formData))
                   (FormData.preferredDate formData)
                   (parseFloat (FormData.wage formData))
                   (parseInt (FormData.duration formData))
                   (FormData.durationType formData)
                   (trim (FormData.location formData))
                   (parseInt (FormData.requiredWorkers formData))
                   (Some [])
                   nowIso
                   open in
          (jobStorage.saveJob job s, Posted job)
    end
  end.

End WithRuntime.
End PostJobPage.

(** ** [MyJobsPage] *)

Module MyJobsPage.

(** The messages handed to [alert], with the values their templates
    interpolate. *)
Inductive Alert : Type :=
| CannotEditCompleted
| InvalidWage
| WageLocked (currentWage proposedWage : number) (applicants : nat)
| InvalidWorkers
| WageRejected (message : string)
| BelowAccepted (acceptedCount : nat)
| ShrinkWithApplications (currentCount proposedCount : number)
| CannotDeleteCompleted.

Module EditData.
Record t : Type := mk {
  wage : string;
  requiredWorkers : string;
  status : JobStatus
}.
End EditData.

(** The component: the signed-in user, the storage it works on, its React
    state, and the alerts raised so far (latest first). *)
Module Page.
Record t : Type := mk {
  user : option User.t;
  storage : Storage.t;
  jobs : list Job.t;
  applications : list Application.t;
  editingJob : option string;
  editData : EditData.t;
  showDeleteConfirm : option string;
  alerts : list Alert
}.

Definition setStorage (s : Storage.t) (p : t) : t :=
  mk (user p) s (jobs p) (applications p) (editingJob p) (editData p)
     (showDeleteConfirm p) (alerts p).
Definition setJobs (js : list Job.t) (p : t) : t :=
  mk (user p) (storage p) js (applications p) (editingJob p) (editData p)
     (showDeleteConfirm p) (alerts p).
Definition setApplications (apps : list Application.t) (p : t) : t :=
  mk (user p) (storage p) (jobs p) apps (editingJob p) (editData p)
     (showDeleteConfirm p) (alerts p).
Definition setEditingJob (e : option string) (p : t) : t :=
  mk (user p) (storage p) (jobs p) (applications p) e (editData p)
     (showDeleteConfirm p) (alerts p).
Definition setEditData (d : EditData.t) (p : t) : t :=
  mk (user p) (storage p) (jobs p) (applications p) (editingJob p) d
     (showDeleteConfirm p) (alerts p).
Definition setShowDeleteConfirm (c : option string) (p : t) : t :=
  mk (user p) (storage p) (jobs p) (applications p) (editingJob p) (editData p)
     c (alerts p).
Definition alert (a : Alert) (p : t) : t :=
  mk (user p) (storage p) (jobs p) (applications p) (editingJob p) (editData p)
     (showDeleteConfirm p) (a :: alerts p).

(** The component as first rendered for [u] over storage [s]: the initial
    values given to [useState]. *)
Definition mount (u : option User.t) (s : Storage.t) : t :=
  mk u s [] [] None (EditData.mk "" "" open) None [].
End Page.

(** [loadData] *)
Definition loadData (p : Page.t) : Page.t :=
  match Page.user p with
  | None => p
  | Some u =>
    let (s1, updatedJobs) := JobStatusManager.updateAllJobStatuses (Page.storage p) in
    match User.userType u with
    | farmer =>
      Page.setJobs (filter (fun job => Job.farmerId job =? User.id u) updatedJobs)
        (Page.setStorage s1 p)
    | worker =>
      let allApplications := applicationStorage.getApplications s1 in
      let userApplications :=
        filter (fun app => Application.workerId app =? User.id u) allApplications in
      let appliedJobs :=
        filter (fun job =>
                  existsb (fun app => Application.jobId app =? Job.id job) userApplications)
               updatedJobs in
      let validJobIds := map Job.id updatedJobs in
      let validApplications :=
        filter (fun app => existsb (String.eqb (Application.jobId app)) validJobIds)
               userApplications in
      if negb (Nat.eqb (List.length validApplications) (List.length userApplications))
      then
        let allApps := applicationStorage.getApplications s1 in
        let otherUsersApps :=
          filter (fun app => negb (Application.workerId app =? User.id u)) allApps in
        let cleanedApplications := (otherUsersApps ++ validApplications)%list in
        Page.setApplications validApplications
          (Page.setStorage (Storage.setApplications cleanedApplications s1)
             (Page.setJobs appliedJobs (Page.setApplications userApplications p)))
      else
        Page.setJobs appliedJobs
          (Page.setApplications userApplications (Page.setStorage s1 p))
    end
  end.

Definition getJobApplications (p : Page.t) (jobId : string) : list Application.t :=
  filter (fun app => Application.jobId app =? jobId) (Page.applications p).

Definition hasApplications (p : Page.t) (jobId : string) : bool :=
  Nat.ltb 0 (List.length (getJobApplications p jobId)).

Definition getAcceptedApplicationsCount (p : Page.t) (jobId : string) : nat :=
  List.length
    (filter (fun app => (Application.jobId app =? jobId)
                        && isAccepted (Application.status app))
            (Page.applications p)).

(** The three [onChange] handlers of the edit form. *)
Definition changeWage (value : string) (p : Page.t) : Page.t :=
  let d := Page.editData p in
  Page.setEditData (EditData.mk value (EditData.requiredWorkers d) (EditData.status d)) p.
Definition changeRequiredWorkers (value : string) (p : Page.t) : Page.t :=
  let d := Page.editData p in
  Page.setEditData (EditData.mk (EditData.wage d) value (EditData.status d)) p.
Definition changeStatus (value : JobStatus) (p : Page.t) : Page.t :=
  let d := Page.editData p in
  Page.setEditData (EditData.mk (EditData.wage d) (EditData.requiredWorkers d) value) p.

(** [handleDeleteJob]: [job?.status] of a job that is not found is
    [undefined], so only a found, completed job is refused. *)
Definition handleDeleteJob (jobId : string) (p : Page.t) : Page.t :=
  match find (fun j => Job.id j =? jobId) (Page.jobs p) with
  | Some job =>
    if isCompleted (Job.status job)
    then Page.alert CannotDeleteCompleted p
    else Page.setShowDeleteConfirm (Some jobId) p
  | None => Page.setShowDeleteConfirm (Some jobId) p
  end.

(** The two writes of [confirmDeleteJob]: the stored jobs without the job to
    delete, the stored applications without those that reference it. *)
Definition deleteFromStorage (jobId : string) (s : Storage.t) : Storage.t :=
  let allJobs := jobStorage.getJobs s in
  let updatedJobs := filter (fun job => negb (Job.id job =? jobId)) allJobs in
  let s1 := Storage.setJobs updatedJobs s in
  let allApplications := applicationStorage.getApplications s1 in
  let updatedApplications :=
    filter (fun app => negb (Application.jobId app =? jobId)) allApplications in
  Storage.setApplications updatedApplications s1.

(** [confirmDeleteJob]: nothing when [showDeleteConfirm] is falsy ([null] or
    the empty string); otherwise the writes, [setShowDeleteConfirm(null)],
    then the reload. *)
Definition confirmDeleteJob (p : Page.t) : Page.t :=
  match Page.showDeleteConfirm p with
  | None => p
  | Some jobId =>
    if negb (truthy jobId) then p
    else
      loadData
        (Page.setShowDeleteConfirm None
           (Page.setStorage (deleteFromStorage jobId (Page.storage p)) p))
  end.

Definition getApplicationStatus (p : Page.t) (jobId : string) : ApplicationStatus :=
  match find (fun app => Application.jobId app =? jobId) (Page.applications p) with
  | Some app => Application.status app
  | None => pending
  end.

Definition handleCancelEdit (p : Page.t) : Page.t :=
  Page.setEditData (EditData.mk "" "" open) (Page.setEditingJob None p).

(** The four counters above a farmer's list:
    [jobs.filter(job => job.status === st).length]. *)
Definition sameStatus (a b : JobStatus) : bool :=
  match a, b with
  | open, open | filled, filled | in_progress, in_progress
  | completed, completed => true
  | _, _ => false
  end.

Definition statusCount (st : JobStatus) (p : Page.t) : nat :=
  List.length (filter (fun job => sameStatus (Job.status job) st) (Page.jobs p)).

(** [formatDisplayContactNumber] *)
Definition formatDisplayContactNumber (contactNumber : string) : string :=
  if Nat.eqb (String.length contactNumber) 10
  then Text.slice 0 3 contactNumber ++ "-" ++ Text.slice 3 6 contactNumber
       ++ "-" ++ Text.sliceFrom 6 contactNumber
  else contactNumber.

(** The wage field of the edit form of [job] is disabled:
    [disabled={getJobApplications(job.id).length > 0}]. *)
Definition wageDisabled (p : Page.t) (job : Job.t) : bool :=
  Nat.ltb 0 (List.length (getJobApplications p (Job.id job))).

(** The note under the worker-count field of the edit form of [job], with
    the values its text interpolates. *)
Inductive WorkersNote : Type :=
| CannotReduceBelow (requiredWorkers minimum : number)
| MinimumAccepted (acceptedCount : nat)
| NoNote.

Definition workersNote (p : Page.t) (job : Job.t) : WorkersNote :=
  if Nat.ltb 0 (List.length (getJobApplications p (Job.id job)))
  then CannotReduceBelow
         (Job.requiredWorkers job)
         (Math.max (ofNat (getAcceptedApplicationsCount p (Job.id job)))
                   (Job.requiredWorkers job))
  else if Nat.ltb 0 (getAcceptedApplicationsCount p (Job.id job))
  then MinimumAccepted (getAcceptedApplicationsCount p (Job.id job))
  else NoNote.

Section WithRuntime.
Context {R : Runtime}.
Variable validator : WageValidator.t.

(** [handleEditJob] *)
Definition handleEditJob (jobId : string) (p : Page.t) : Page.t :=
  match find (fun j => Job.id j =? jobId) (Page.jobs p) with
  | None => p
  | Some job =>
    if isCompleted (Job.status job)
    then Page.alert CannotEditCompleted p
    else
      Page.setEditingJob (Some jobId)
        (Page.setEditData
           (EditData.mk (numberToString (Job.wage job))
                        (numberToString (Job.requiredWorkers job))
                        (Job.status job))
           p)
  end.

(** [handleSaveEdit].  Nothing happens when [editingJob] is falsy ([null] or
    the empty string) or names no listed job.  After a successful write the
    job's status is re-derived, the page reloads and the form closes. *)
Definition handleSaveEdit (p : Page.t) : Page.t :=
  match Page.editingJob p with
  | None => p
  | Some editingJob =>
    if negb (truthy editingJob) then p
    else
    match find (fun j => Job.id j =? editingJob) (Page.jobs p) with
    | None => p
    | Some job =>
      if isCompleted (Job.status job)
      then Page.setEditingJob None (Page.alert CannotEditCompleted p)
      else
        let jobApplications := getJobApplications p editingJob in
        let hasAnyApplications := Nat.ltb 0 (List.length jobApplications) in
        let acceptedCount := getAcceptedApplicationsCount p editingJob in
        let newWage := parseFloat (EditData.wage (Page.editData p)) in
        if isNaN newWage || le newWage (ofZ 0)
        then Page.alert InvalidWage p
        else if hasAnyApplications && strictNe newWage (Job.wage job)
        then Page.alert (WageLocked (Job.wage job) newWage (List.length jobApplications)) p
        else
          let newRequiredWorkers := parseInt (EditData.requiredWorkers (Page.editData p)) in
          if isNaN newRequiredWorkers || le newRequiredWorkers (ofZ 0)
          then Page.alert InvalidWorkers p
          else
            let wageValidation :=
              WageValidator.validateWageChange validator
                (Job.wage job) newWage hasAnyApplications acceptedCount in
            if negb (WageValidator.canModify wageValidation)
               && strictNe newWage (Job.wage job)
            then
              let errorMessage :=
                WageValidator.getWageErrorMessage validator
                  (Job.wage job) newWage hasAnyApplications (List.length jobApplications) in
              Page.alert
                (WageRejected
                   match errorMessage with
                   | Some m => if truthy m then m else WageValidator.reason wageValidation
                   | None => WageValidator.reason wageValidation
                   end)
                p
            else if lt newRequiredWorkers (ofNat acceptedCount)
            then Page.alert (BelowAccepted acceptedCount) p
            else if hasAnyApplications && lt newRequiredWorkers (Job.requiredWorkers job)
            then Page.alert
                   (ShrinkWithApplications (Job.requiredWorkers job) newRequiredWorkers) p
            else
              let s1 :=
                jobStorage.updateJob editingJob
                  (Job.mkPatch newWage newRequiredWorkers
                     (EditData.status (Page.editData p)))
                  (Page.storage p) in
              let s2 := JobStatusManager.checkStatusAfterWorkerAccepted editingJob s1 in
              Page.setEditingJob None (loadData (Page.setStorage s2 p))
    end
  end.

(** [canReapply]; [now] is [new Date().getTime()]. *)
Definition canReapply (p : Page.t) (now : Z) (jobId : string) : bool :=
  match find (fun app => Application.jobId app =? jobId) (Page.applications p) with
  | None => false
  | Some application =>
    match Application.rejectedAt application with
    | None => false
    | Some rejectedAt =>
      if negb (isRejected (Application.status application)) || negb (truthy rejectedAt)
      then false
      else
        let rejectedTime := dateGetTime rejectedAt in
        let hoursPassed := divLit (sub (ofZ now) rejectedTime) (1000 * 60 * 60) in
        ge hoursPassed (ofZ 24)
    end
  end.

(** [getTimeUntilReapply]; the hours are exact here and doubles in the
    code. *)
Definition getTimeUntilReapply (p : Page.t) (now : Z) (jobId : string) : string :=
  match find (fun app => Application.jobId app =? jobId) (Page.applications p) with
  | None => ""
  | Some application =>
    match Application.rejectedAt application with
    | None => ""
    | Some rejectedAt =>
      if negb (isRejected (Application.status application)) || negb (truthy rejectedAt)
      then ""
      else
        let rejectedTime := dateGetTime rejectedAt in
        let hoursPassed := divLit (sub (ofZ now) rejectedTime) (1000 * 60 * 60) in
        let hoursLeft := ceil (sub (ofZ 24) hoursPassed) in
        if le hoursLeft (ofZ 0) then ""
        else "Can reapply in " ++ numberToString hoursLeft ++ " hours"
    end
  end.


(** The two notes under a worker's rejected application: the time left
    while [canReapply] says no, the invitation once it says yes. *)
Definition showsTimeLeft (p : Page.t) (now : Z) (jobId : string) : bool :=
  isRejected (getApplicationStatus p jobId) && negb (canReapply p now jobId).

Definition showsReapplyNow (p : Page.t) (now : Z) (jobId : string) : bool :=
  isRejected (getApplicationStatus p jobId) && canReapply p now jobId.

End WithRuntime.
End MyJobsPage.

(** ** [AuthPage] *)

(** A [Date] as the three getters the pages call see it: the year, the
    month (0 to 11) and the day of the month in local time, or an invalid
    date, for which every getter answers NaN. *)
Module Date.
Inductive t : Type :=
| Invalid
| At (year month day : Z).

Definition getFullYear (d : t) : number :=
  match d with At year _ _ => ofZ year | Invalid => NaN end.
Definition getMonth (d : t) : number :=
  match d with At _ month _ => ofZ month | Invalid => NaN end.
Definition getDate (d : t) : number :=
  match d with At _ _ day => ofZ day | Invalid => NaN end.
End Date.

(** [new Date(s)]: [Date.Invalid] for a string that is not a date. *)
Class Calendar : Type := {
  dateOf : string -> Date.t
}.

Module AuthPage.

Module FormData.
Record t : Type := mk {
  name : string;
  email : string;
  password : string;
  contactNumber : string;
  userType : UserType;
  location : string;
  dateOfBirth : string
}.
End FormData.

(** [calculateAge]; [today] is [new Date()].  [MyJobsPage] carries the same
    function, word for word. *)
Definition calculateAge {C : Calendar} (today : Date.t) (dateOfBirth : string) : number :=
  let birthDate := dateOf dateOfBirth in
  let age := sub (Date.getFullYear today) (Date.getFullYear birthDate) in
  let monthDiff := sub (Date.getMonth today) (Date.getMonth birthDate) in
  if lt monthDiff (ofZ 0)
     || (strictEq monthDiff (ofZ 0) && lt (Date.getDate today) (Date.getDate birthDate))
  then sub age (ofZ 1)
  else age.

(** [formatContactNumber] *)
Definition formatContactNumber (value : string) : string :=
  let digits := Text.keep Text.isDigit value in
  let limitedDigits := Text.slice 0 10 digits in
  if Nat.ltb 6 (String.length limitedDigits)
  then Text.slice 0 3 limitedDigits ++ "-" ++ Text.slice 3 6 limitedDigits
       ++ "-" ++ Text.sliceFrom 6 limitedDigits
  else if Nat.ltb 3 (String.length limitedDigits)
  then Text.slice 0 3 limitedDigits ++ "-" ++ Text.sliceFrom 3 limitedDigits
  else limitedDigits.

(** The class of the last test of [validatePassword]: the characters
    [!@#$%^&*()_+-=[]{};':|,.<>/?], the backslash and the double quote. *)
Definition isSpecial (c : ascii) : bool :=
  Text.test (Ascii.eqb c) "!@#$%^&*()_+-=[]{};':\|,.<>/?"
  || Ascii.eqb c (ascii_of_nat 34).

Record validation : Type := mkValidation {
  isValid : bool;
  errors : list string
}.

(** [validatePassword]: each failed test pushes its message. *)
Definition validatePassword (password : string) : validation :=
  let errors :=
    ((if Nat.ltb (String.length password) 8 then ["At least 8 characters"] else [])
     ++ (if negb (Text.test Text.isUpper password) then ["One uppercase letter"] else [])
     ++ (if negb (Text.test Text.isLower password) then ["One lowercase letter"] else [])
     ++ (if negb (Text.test Text.isDigit password) then ["One number"] else [])
     ++ (if negb (Text.test isSpecial password)
         then ["One special character (!@#$%^&*...)"] else []))%list in
  mkValidation (Nat.eqb (List.length errors) 0) errors.

(** The five lights under the password field of a sign-up form, in the
    order shown; [true] is green. *)
Definition passwordChecklist (password : string) : list bool :=
  [Nat.leb 8 (String.length password);
   Text.test Text.isUpper password;
   Text.test Text.isLower password;
   Text.test Text.isDigit password;
   Text.test isSpecial password].

(** [handlePasswordChange]: the form and the [passwordError] state after the
    password field changed to [newPassword]. *)
Definition handlePasswordChange (isLogin : bool) (newPassword : string)
    (formData : FormData.t) : FormData.t * string :=
  let formData' :=
    FormData.mk (FormData.name formData) (FormData.email formData) newPassword
                (FormData.contactNumber formData) (FormData.userType formData)
                (FormData.location formData) (FormData.dateOfBirth formData) in
  if negb isLogin && truthy newPassword
  then
    let validation := validatePassword newPassword in
    if negb (isValid validation)
    then (formData', "Password must contain: " ++ String.concat ", " (errors validation))
    else (formData', "")
  else (formData', "").

(** [handleContactNumberChange] and [handleUserTypeChange], on the form. *)
Definition handleContactNumberChange (value : string) (formData : FormData.t) : FormData.t :=
  FormData.mk (FormData.name formData) (FormData.email formData)
              (FormData.password formData) (formatContactNumber value)
              (FormData.userType formData) (FormData.location formData)
              (FormData.dateOfBirth formData).

Definition handleUserTypeChange (newUserType : UserType) (formData : FormData.t) : FormData.t :=
  FormData.mk (FormData.name formData) (FormData.email formData)
              (FormData.password formData) (FormData.contactNumber formData)
              newUserType
              (match newUserType with farmer => "" | worker => FormData.location formData end)
              (match newUserType with farmer => "" | worker => FormData.dateOfBirth formData end).

(** What [handleSubmit] does before it awaits: it gives up with an error,
    or calls [login], or calls [signup] with these arguments ([undefined]
    is [None]). *)
Inductive request : Type :=
| Refused (error : string)
| Login (email password : string)
| Signup (name email password contactNumber : string) (userType : UserType)
         (location dateOfBirth : option string).

(** The answer of [signup]: [{success, error?}]. *)
Record signupResult : Type := mkSignupResult {
  success : bool;
  error : option string
}.

(** The functions [useAuth] provides, as far as their answers go. *)
Record Auth : Type := mkAuth {
  login : string -> string -> bool;
  signup : string -> string -> string -> string -> UserType ->
           option string -> option string -> signupResult
}.

(** How a submission ends: the [error] state and whether [navigate('/')]
    was called. *)
Record outcome : Type := mkOutcome {
  shownError : string;
  navigated : bool
}.

Section WithHost.
Context {R : Runtime} {C : Calendar}.

Definition submission (isLogin : bool) (formData : FormData.t) (today : Date.t) : request :=
  if isLogin
  then Login (FormData.email formData) (FormData.password formData)
  else if negb (truthy (trim (FormData.name formData)))
  then Refused "Name is required"
  else if negb (truthy (trim (FormData.contactNumber formData)))
  then Refused "Contact number is required"
  else
    let passwordValidation := validatePassword (FormData.password formData) in
    if negb (isValid passwordValidation)
    then Refused ("Password requirements not met: "
                  ++ String.concat ", " (errors passwordValidation))
    else
      let ask :=
        Signup (FormData.name formData) (FormData.email formData)
               (FormData.password formData) (FormData.contactNumber formData)
               (FormData.userType formData)
               (match FormData.userType formData with
                | worker => Some (FormData.location formData)
                | farmer => None
                end)
               (match FormData.userType formData with
                | worker => Some (FormData.dateOfBirth formData)
                | farmer => None
                end) in
      match FormData.userType formData with
      | worker =>
        if negb (truthy (trim (FormData.location formData)))
        then Refused "Location is required for workers"
        else if negb (truthy (FormData.dateOfBirth formData))
        then Refused "Date of birth is required for workers"
        else if lt (calculateAge today (FormData.dateOfBirth formData)) (ofZ 16)
        then Refused "Workers must be at least 16 years old to register"
        else ask
      | farmer => ask
      end.

(** [handleSubmit]; an exception thrown by [login] or [signup] (the [catch]
    branch) is outside the model. *)
Definition handleSubmit (auth : Auth) (isLogin : bool) (formData : FormData.t)
    (today : Date.t) : outcome :=
  match submission isLogin formData today with
  | Refused message => mkOutcome message false
  | Login email password =>
    if login auth email password
    then mkOutcome "" true
    else mkOutcome "Invalid email or password" false
  | Signup name email password contactNumber userType location dateOfBirth =>
    let result := signup auth name email password contactNumber userType
                         location dateOfBirth in
    if success result
    then mkOutcome "" true
    else mkOutcome (match error result with
                    | Some m => if truthy m then m else "Registration failed"
                    | None => "Registration failed"
                    end) false
  end.

End WithHost.
End AuthPage.


(** ** Derived notions used in the statements *)

(** Invariant I2 on one job: [len(acceptedWorkerIds) <= requiredWorkers]. *)
Definition withinCapacity (job : Job.t) : bool :=
  le (ofNat (Job.acceptedCount job)) (Job.requiredWorkers job).

(** A storage whose jobs all carry the status the recompute derives: what
    every load of the page leaves behind. *)
Definition reconciled (s : Storage.t) : Prop :=
  Forall (fun job => JobStatusManager.recompute job = job) (jobStorage.getJobs s).

(** What a worker's load works with: the worker's own applications, those
    of them whose job is still there, and the jobs applied to. *)
Definition ownApplications (u : User.t) (apps : list Application.t) : list Application.t :=
  filter (fun app => Application.workerId app =? User.id u) apps.

Definition othersApplications (u : User.t) (apps : list Application.t) : list Application.t :=
  filter (fun app => negb (Application.workerId app =? User.id u)) apps.

Definition liveApplications (js : list Job.t) (apps : list Application.t) : list Application.t :=
  filter (fun app => existsb (String.eqb (Application.jobId app)) (map Job.id js)) apps.

Definition appliedJobs (apps : list Application.t) (js : list Job.t) : list Job.t :=
  filter (fun job => existsb (fun app => Application.jobId app =? Job.id job) apps) js.

(** The fields of a job that no edit writes: all but the wage, the worker
    count and the status. *)
Definition keptFields (job : Job.t) :=
  (Job.id job, Job.farmerId job, Job.farmerName job, Job.title job,
   Job.description job, Job.preferredDate job, Job.duration job,
   Job.durationType job, Job.location job, Job.acceptedWorkerIds job,
   Job.createdAt job).

(** Milliseconds in an hour and in the 24-hour cooldown. *)
Definition msPerHour : Z := (1000 * 60 * 60)%Z.
Definition cooldownMs : Z := (24 * msPerHour)%Z.

(** The instants a [Date] can hold: at most 8.64e15 milliseconds from the
    epoch on either side.  [getTime] answers such an integer or NaN, and
    integers of that size and their differences are exact as doubles. *)
Definition maxTime : Z := 8640000000000000%Z.
Definition isTimeValue (t : Z) : Prop := (- maxTime <= t <= maxTime)%Z.

(** A number that comes back from the JSON in [localStorage] as it was
    written: a finite one.  [JSON.stringify] writes NaN and the infinities
    as [null]. *)
Definition keptByJSON (a : number) : bool :=
  match a with Num _ => true | _ => false end.

(** The remaining cooldown as the specification words it: 24 hours minus the
    time elapsed since the rejection, rounded up to whole hours. *)
Definition remainingHours (now rejectedTime : Z) : Z :=
  let remainingMs := (cooldownMs - (now - rejectedTime))%Z in
  ((remainingMs + (msPerHour - 1)) / msPerHour)%Z.

(** An alert raised by one of the checks that look at the applications:
    the wage lock and the two limits on the worker count. *)
Definition isApplicationAlert (a : MyJobsPage.Alert) : bool :=
  match a with
  | MyJobsPage.WageLocked _ _ _
  | MyJobsPage.BelowAccepted _
  | MyJobsPage.ShrinkWithApplications _ _ => true
  | _ => false
  end.

(** An alert about the proposed wage. *)
Definition isWageAlert (a : MyJobsPage.Alert) : bool :=
  match a with
  | MyJobsPage.InvalidWage
  | MyJobsPage.WageLocked _ _ _
  | MyJobsPage.WageRejected _ => true
  | _ => false
  end.

(** ** A host for running the pages on concrete data

    The built-ins restricted to what the examples feed them: decimal digit
    strings for the two parsers, integers for printing, the
    [YYYY-MM-DDTHH:mm:ss.sssZ] form that [toISOString] produces for dates,
    blanks for [trim].  On those inputs it agrees with the JavaScript
    built-ins. *)

Module Host.

Definition digit (c : ascii) : option Z :=
  let n := nat_of_ascii c in
  if Nat.leb 48 n && Nat.leb n 57 then Some (Z.of_nat (n - 48)) else None.

(** The value of the longest prefix of digits, if there is one. *)
Fixpoint digitPrefix (acc : option Z) (s : string) : option Z :=
  match s with
  | EmptyString => acc
  | String c rest =>
    match digit c with
    | Some d =>
      digitPrefix (Some (10 * (match acc with Some a => a | None => 0 end) + d)%Z) rest
    | None => acc
    end
  end.

Definition leadingInteger (s : string) : number :=
  match digitPrefix None s with
  | Some z => ofZ z
  | None => NaN
  end.

(** A string made of digits only. *)
Fixpoint numeral (acc : Z) (s : string) : option Z :=
  match s with
  | EmptyString => Some acc
  | String c rest =>
    match digit c with
    | Some d => numeral (10 * acc + d)%Z rest
    | None => None
    end
  end.

Definition field (start len : nat) (s : string) : option Z :=
  let part := substring start len s in
  if Nat.eqb (String.length part) len then numeral 0 part else None.

(** Days from 1970-01-01 to the given civil date (proleptic Gregorian). *)
Definition daysFromCivil (y m d : Z) : Z :=
  let y1 := if (m <=? 2)%Z then (y - 1)%Z else y in
  let era := (y1 / 400)%Z in
  let yoe := (y1 - era * 400)%Z in
  let mp := ((m + 9) mod 12)%Z in
  let doy := ((153 * mp + 2) / 5 + d - 1)%Z in
  let doe := (yoe * 365 + yoe / 4 - yoe / 100 + doy)%Z in
  (era * 146097 + doe - 719468)%Z.

Definition isoToMs (s : string) : number :=
  match field 0 4 s, field 5 2 s, field 8 2 s,
        field 11 2 s, field 14 2 s, field 17 2 s, field 20 3 s with
  | Some y, Some mo, Some d, Some h, Some mi, Some sec, Some ms =>
    if (substring 4 1 s =? "-") && (substring 7 1 s =? "-")
       && (substring 10 1 s =? "T") && (substring 13 1 s =? ":")
       && (substring 16 1 s =? ":") && (substring 19 1 s =? ".")
       && (substring 23 2 s =? "Z")
       && (1 <=? mo)%Z && (mo <=? 12)%Z && (1 <=? d)%Z && (d <=? 31)%Z
       && (h <? 24)%Z && (mi <? 60)%Z && (sec <? 60)%Z
    then ofZ ((((daysFromCivil y mo d * 24 + h) * 60 + mi) * 60 + sec) * 1000 + ms)
    else NaN
  | _, _, _, _, _, _, _ => NaN
  end.

Definition show (n : number) : string :=
  match n with
  | NaN => "NaN"
  | Infinity => "Infinity"
  | NegInfinity => "-Infinity"
  | Num q => NilZero.string_of_int (Z.to_int (Qfloor q))
  end.

Fixpoint dropBlanks (s : string) : string :=
  match s with
  | String " " rest => dropBlanks rest
  | other => other
  end.

Fixpoint reverse (acc s : string) : string :=
  match s with
  | EmptyString => acc
  | String c rest => reverse (String c acc) rest
  end.

Definition trimBlanks (s : string) : string :=
  reverse "" (dropBlanks (reverse "" (dropBlanks s))).

Definition runtime : Runtime :=
  {| parseFloat := leadingInteger;
     parseInt := leadingInteger;
     dateGetTime := isoToMs;
     numberToString := show;
     trim := trimBlanks |}.


(** Dates written [YYYY-MM-DD], as a date field holds them, read by a host
    whose clock is on UTC; anything else is not a date. *)
Definition isoDate (s : string) : Date.t :=
  match field 0 4 s, field 5 2 s, field 8 2 s with
  | Some y, Some m, Some d =>
    if (String.length s =? 10)%nat
       && (substring 4 1 s =? "-") && (substring 7 1 s =? "-")
       && (1 <=? m)%Z && (m <=? 12)%Z && (1 <=? d)%Z && (d <=? 31)%Z
    then Date.At y (m - 1) d
    else Date.Invalid
  | _, _, _ => Date.Invalid
  end.

Definition calendar : Calendar := {| dateOf := isoDate |}.

End Host.

(** ** Sessions on [MyJobsPage]

    What a signed-in user can do on the page, one event per handler. *)

Module Session.
Import MyJobsPage.

Inductive event : Type :=
| Reload
| OpenEdit (jobId : string)
| TypeWage (text : string)
| TypeWorkers (text : string)
| PickStatus (st : JobStatus)
| Save
| Cancel
| AskDelete (jobId : string)
| ConfirmDelete.

Section WithRuntime.
Context {R : Runtime}.
Variable validator : WageValidator.t.

Definition step (p : Page.t) (e : event) : Page.t :=
  match e with
  | Reload => loadData p
  | OpenEdit jobId => handleEditJob jobId p
  | TypeWage text => changeWage text p
  | TypeWorkers text => changeRequiredWorkers text p
  | PickStatus st => changeStatus st p
  | Save => handleSaveEdit validator p
  | Cancel => handleCancelEdit p
  | AskDelete jobId => handleDeleteJob jobId p
  | ConfirmDelete => confirmDeleteJob p
  end.

(** The page is mounted for [u] over storage [s], its effect loads the
    data, then the events are handled in order. *)
Definition visit (u : User.t) (s : Storage.t) (es : list event) : Page.t :=
  fold_left step es (loadData (Page.mount (Some u) s)).

End WithRuntime.
End Session.

(** ** The scenarios of section 8, run on the pages *)

Module Scenario.
Import MyJobsPage.

Definition owner : User.t := User.mk "F1" "Sita" farmer.

Definition posting (requiredWorkers : Z) (acceptedIds : list string)
    (st : JobStatus) : Job.t :=
  Job.mk "J1" "F1" "Sita" "Rice planting" "Transplant seedlings" "2025-06-01"
         (ofZ 500) (ofZ 8) hours "Bharatpur" (ofZ requiredWorkers)
         (Some acceptedIds) "2025-05-20T08:00:00.000Z" st.

(** The owner opens the page, opens the edit form of job [J1], types a wage
    and a number of workers, and saves. *)
Definition ownerEdits (s : Storage.t) (typedWage typedWorkers : string) : Page.t :=
  Session.visit (R := Host.runtime) WageValidator.fromSpec owner s
    [Session.OpenEdit "J1"; Session.TypeWage typedWage;
     Session.TypeWorkers typedWorkers; Session.Save].

(** Scenario A: two openings at wage 500, worker W1 has applied. *)
Definition storeA : Storage.t :=
  Storage.mk [posting 2 [] open]
             [Application.mk "A1" "J1" "W1" pending None].

(** Scenario D: three openings, one pending application. *)
Definition storeD : Storage.t :=
  Storage.mk [posting 3 [] open]
             [Application.mk "A1" "J1" "W1" pending None].

(** Scenario B: both openings taken by W1 and W2. *)
Definition storeB : Storage.t :=
  Storage.mk [posting 2 ["W1"; "W2"] filled]
             [Application.mk "A1" "J1" "W1" accepted None;
              Application.mk "A2" "J1" "W2" accepted None].

(** Scenario E: the job has been completed. *)
Definition storeE : Storage.t :=
  Storage.mk [posting 2 ["W1"; "W2"] completed]
             [Application.mk "A1" "J1" "W1" accepted None;
              Application.mk "A2" "J1" "W2" accepted None].

(** Scenario C: W1's application was rejected on 2025-05-21 at 06:00 UTC. *)
Definition applicant : User.t := User.mk "W1" "Hari" worker.

Definition rejectionTime : Z :=
  Eval vm_compute in ((Host.daysFromCivil 2025 5 21 * 24 + 6) * msPerHour)%Z.

Definition storeC : Storage.t :=
  Storage.mk [posting 1 [] open]
             [Application.mk "A1" "J1" "W1" rejected (Some "2025-05-21T06:00:00.000Z")].

(** W1 applied again after the cooldown and was rejected a second time, 30
    hours after the first rejection: two rejected applications for J1. *)
Definition secondRejectionTime : Z :=
  Eval vm_compute in (rejectionTime + 30 * msPerHour)%Z.

Definition storeTwice : Storage.t :=
  Storage.mk [posting 1 [] open]
             [Application.mk "A1" "J1" "W1" rejected (Some "2025-05-21T06:00:00.000Z");
              Application.mk "A2" "J1" "W1" rejected (Some "2025-05-22T12:00:00.000Z")].

(** The pages the owner and the applicant see on arrival. *)
Definition ownerArrives (s : Storage.t) : Page.t :=
  Session.visit (R := Host.runtime) WageValidator.fromSpec owner s [].

Definition applicantArrives (s : Storage.t) : Page.t :=
  Session.visit (R := Host.runtime) WageValidator.fromSpec applicant s [].

(** A posting form asking for a wage of 150000. *)
Definition costlyForm : PostJobPage.FormData.t :=
  PostJobPage.FormData.mk "Rice planting" "Transplant seedlings" "2025-06-01"
                          "150000" "8" hours "Bharatpur" "2".

(** A worker's storage with leftovers: W1 applied to J1 and to a job J9
    that is gone, W2 applied to J9 too. *)
Definition storeLeftovers : Storage.t :=
  Storage.mk [posting 2 [] open]
             [Application.mk "A1" "J1" "W1" pending None;
              Application.mk "A2" "J9" "W1" pending None;
              Application.mk "A3" "J9" "W2" pending None].

(** A rejected application whose [rejectedAt] is not a date. *)
Definition storeBadDate : Storage.t :=
  Storage.mk [posting 1 [] open]
             [Application.mk "A1" "J1" "W1" rejected (Some "yesterday")].

(** The owner's page with the edit form of J1 open, as prefilled and with
    the wage retyped. *)
Definition ownerOpensForm : Page.t :=
  Session.visit (R := Host.runtime) WageValidator.fromSpec owner storeA
    [Session.OpenEdit "J1"].

Definition ownerTypesWage : Page.t :=
  Session.visit (R := Host.runtime) WageValidator.fromSpec owner storeA
    [Session.OpenEdit "J1"; Session.TypeWage "600"].

Definition raisedPosting : Job.t :=
  Job.mk "J1" "F1" "Sita" "Rice planting" "Transplant seedlings" "2025-06-01"
         (ofZ 600) (ofZ 8) hours "Bharatpur" (ofZ 2)
         (Some []) "2025-05-20T08:00:00.000Z" open.

(** A posting form that passes, and the job it posts at the given time. *)
Definition passingForm : PostJobPage.FormData.t :=
  PostJobPage.FormData.mk " Weeding " "Weed the maize field" "2025-06-10"
                          "450" "6" hours "Chitwan" "3".

Definition weeding : Job.t :=
  Job.mk "1747728000000" "F1" "Sita" "Weeding" "Weed the maize field" "2025-06-10"
         (ofZ 450) (ofZ 6) hours "Chitwan" (ofZ 3)
         (Some []) "2025-05-20T08:00:00.000Z" open.

(** A worker's sign-up form, filled in on 2025-05-20. *)
Definition workerForm : AuthPage.FormData.t :=
  AuthPage.FormData.mk "Hari" "hari@example.org" "Abcdef1!" "984-123-4567"
                       worker "Bharatpur" "2000-01-15".

Definition signupDay : Date.t := Date.At 2025 4 20.

(** The owner's page as it would be had it loaded W1's accepted application
    for J1, with the edit form open and 1 worker typed. *)
Definition ownerSeesAccepted : Page.t :=
  Page.mk (Some owner)
          (Storage.mk [posting 2 ["W1"] open]
                      [Application.mk "A1" "J1" "W1" accepted None])
          [posting 2 ["W1"] open]
          [Application.mk "A1" "J1" "W1" accepted None]
          (Some "J1") (EditData.mk "500" "1" open) None [].

(** A sign-up form of a farmer's, the password still to be typed. *)
Definition farmerForm : AuthPage.FormData.t :=
  AuthPage.FormData.mk "Sita" "sita@example.org" "" "984-765-4321" farmer "" "".

(** The same form with a date of birth that is not a date. *)
Definition undatedForm : AuthPage.FormData.t :=
  AuthPage.FormData.mk "Hari" "hari@example.org" "Abcdef1!" "984-123-4567"
                       worker "Bharatpur" "soon".

End Scenario.

(** * Properties *)

Import MyJobsPage.

(** ** Strings as conditions *)

Lemma truthy_nonempty (s : string) : s <> "" -> truthy s = true.
Proof. destruct s; [congruence | reflexivity]. Qed.

(** ** Comparisons of numbers *)

Lemma compare_ofZ (a b : Z) : compare (ofZ a) (ofZ b) = Some (a ?= b)%Z.
Proof.
  unfold ofZ, compare, Qcompare; simpl. now rewrite !Z.mul_1_r.
Qed.

Lemma le_ofZ (a b : Z) : le (ofZ a) (ofZ b) = (a <=? b)%Z.
Proof.
  unfold le. rewrite compare_ofZ. unfold Z.leb. now destruct (a ?= b)%Z.
Qed.

Lemma compare_Num_morphism (x x' y y' : Q) :
  x == x' -> y == y' -> compare (Num x) (Num y) = compare (Num x') (Num y').
Proof.
  intros Hx Hy. simpl. f_equal. now rewrite Hx, Hy.
Qed.

Lemma compare_antisym (a b : number) :
  compare b a = option_map CompOpp (compare a b).
Proof.
  destruct a, b; simpl; try reflexivity.
  now rewrite Qcompare_antisym.
Qed.

(** Two numbers, neither of them NaN, are comparable. *)
Lemma le_total (a b : number) :
  isNaN a = false -> isNaN b = false -> le a b = false -> le b a = true.
Proof.
  unfold le. rewrite (compare_antisym a b).
  destruct a, b; simpl; try discriminate; try reflexivity.
  now destruct (q ?= q0)%Q.
Qed.

Lemma lt_le (a b : number) : lt a b = true -> le a b = true.
Proof.
  unfold lt, le. now destruct (compare a b) as [[ | | ]|].
Qed.

(** A number strictly equal to a positive number is itself a positive
    number: it is not NaN and it is not [<= 0]. *)
Lemma strictEq_positive (a b : number) :
  strictEq a b = true -> gt b (ofZ 0) = true ->
  isNaN a = false /\ le a (ofZ 0) = false.
Proof.
  unfold strictEq, gt, lt, le, ofZ.
  destruct a as [ | | | x], b as [ | | | y]; simpl; try discriminate; auto.
  destruct (Qcompare_spec x y) as [Hxy | | ]; try discriminate. intros _.
  destruct (Qcompare_spec (inject_Z 0) y) as [ | Hy | ]; try discriminate. intros _.
  split; [reflexivity | ].
  destruct (Qcompare_spec x (inject_Z 0)) as [H0 | H0 | H0]; try reflexivity; exfalso.
  - rewrite <- Hxy, H0 in Hy. now apply Qlt_irrefl in Hy.
  - rewrite <- Hxy in Hy. apply (Qlt_irrefl x). now apply Qlt_trans with (inject_Z 0).
Qed.

(** ** Elapsed time in hours *)

Lemma elapsed_hours (now t : Z) :
  (inject_Z now - inject_Z t) / (1000 * 60 * 60) == (now - t) # 3600000.
Proof.
  unfold Qeq, Qdiv, Qminus; simpl. ring.
Qed.

Lemma hoursPassed_value (now t : Z) :
  divLit (sub (ofZ now) (ofZ t)) (1000 * 60 * 60)
  = Num ((inject_Z now - inject_Z t) / (1000 * 60 * 60)).
Proof. reflexivity. Qed.

Lemma hoursPassed_ge_24 (now t : Z) :
  ge (divLit (sub (ofZ now) (ofZ t)) (1000 * 60 * 60)) (ofZ 24) = true
  <-> (cooldownMs <= now - t)%Z.
Proof.
  rewrite hoursPassed_value. unfold ge, le, ofZ.
  rewrite (compare_Num_morphism _ (inject_Z 24) _ ((now - t) # 3600000)
             (Qeq_refl _) (elapsed_hours now t)).
  unfold compare, cooldownMs, msPerHour.
  destruct (Qcompare_spec (inject_Z 24) ((now - t) # 3600000)) as [H | H | H];
    unfold Qeq, Qlt in H; simpl in H;
    split; intros; try reflexivity; try discriminate; lia.
Qed.

Lemma remaining_hours_ceil (now t : Z) :
  Qceiling (inject_Z 24 - (inject_Z now - inject_Z t) / (1000 * 60 * 60))
  = remainingHours now t.
Proof.
  assert (E : inject_Z 24 - (inject_Z now - inject_Z t) / (1000 * 60 * 60)
              == (86400000 - (now - t)) # 3600000).
  { rewrite elapsed_hours. unfold Qeq, Qminus, Qplus, Qopp.
    cbn [Qnum Qden inject_Z].
    change (Z.pos (1 * 3600000)) with 3600000%Z. lia. }
  rewrite (Qceiling_comp _ _ E).
  unfold Qceiling, Qfloor, Qopp, remainingHours, cooldownMs, msPerHour.
  cbn [Qnum Qden].
  change (1000 * 60 * 60)%Z with 3600000%Z.
  change (24 * 3600000)%Z with 86400000%Z.
  change (3600000 - 1)%Z with 3599999%Z.
  Z.div_mod_to_equations. lia.
Qed.

(** [remainingHours] is the ceiling of the remaining milliseconds over the
    milliseconds of an hour. *)
Lemma remainingHours_is_ceiling (now t : Z) :
  let remainingMs := (cooldownMs - (now - t))%Z in
  ((remainingHours now t - 1) * msPerHour < remainingMs
   /\ remainingMs <= remainingHours now t * msPerHour)%Z.
Proof.
  unfold remainingHours, cooldownMs, msPerHour.
  change (1000 * 60 * 60)%Z with 3600000%Z.
  change (24 * 3600000)%Z with 86400000%Z.
  change (3600000 - 1)%Z with 3599999%Z.
  cbv zeta. Z.div_mod_to_equations. lia.
Qed.

(** ** Status recomputation *)

Lemma recompute_idempotent (job : Job.t) :
  JobStatusManager.recompute (JobStatusManager.recompute job)
  = JobStatusManager.recompute job.
Proof.
  unfold JobStatusManager.recompute.
  destruct (Job.status job) eqn:Hs;
    try (rewrite Hs; reflexivity);
    destruct (ge (ofNat (Job.acceptedCount job)) (Job.requiredWorkers job)) eqn:Hc;
    cbn; unfold Job.acceptedCount in *; cbn; rewrite Hc; reflexivity.
Qed.

Lemma recompute_fields (job : Job.t) :
  let job' := JobStatusManager.recompute job in
  Job.id job' = Job.id job
  /\ Job.farmerId job' = Job.farmerId job
  /\ Job.wage job' = Job.wage job
  /\ Job.requiredWorkers job' = Job.requiredWorkers job
  /\ Job.acceptedWorkerIds job' = Job.acceptedWorkerIds job.
Proof.
  unfold JobStatusManager.recompute.
  destruct (Job.status job);
    try destruct (ge (ofNat (Job.acceptedCount job)) (Job.requiredWorkers job));
    cbn; auto.
Qed.

Lemma recompute_completed (job : Job.t) :
  Job.status job = completed -> JobStatusManager.recompute job = job.
Proof.
  intros H. unfold JobStatusManager.recompute. now rewrite H.
Qed.

(** C7 (recompute idempotence).  Running the batch recompute on the storage
    left by a first run returns the same collection and leaves the same
    storage as the first run did. *)
Theorem updateAllJobStatuses_idempotent (s : Storage.t) :
  let once := JobStatusManager.updateAllJobStatuses s in
  JobStatusManager.updateAllJobStatuses (fst once) = once.
Proof.
  destruct s as [js apps].
  unfold JobStatusManager.updateAllJobStatuses, jobStorage.getJobs, Storage.setJobs.
  cbn. rewrite map_map.
  rewrite (map_ext _ _ recompute_idempotent). reflexivity.
Qed.

(** ** Posting a job *)

(** C10 (wage ceiling at creation).  A submission whose wage field parses to
    more than 100000 ends with an error message and leaves the storage as it
    was; when the submitter is a farmer and the text fields are filled, the
    message is the one about the amount being too high. *)
Theorem handleSubmit_wage_above_limit
    (R : Runtime) (user : option User.t) (formData : PostJobPage.FormData.t)
    (nowMs : Z) (nowIso : string) (s : Storage.t) :
  gt (parseFloat (PostJobPage.FormData.wage formData)) (ofZ 100000) = true ->
  (exists message,
      PostJobPage.handleSubmit user formData nowMs nowIso s
      = (s, PostJobPage.Error message))
  /\ (forall u,
        user = Some u -> User.userType u = farmer ->
        truthy (trim (PostJobPage.FormData.title formData)) = true ->
        truthy (trim (PostJobPage.FormData.description formData)) = true ->
        truthy (trim (PostJobPage.FormData.location formData)) = true ->
        truthy (PostJobPage.FormData.wage formData) = true ->
        PostJobPage.handleSubmit user formData nowMs nowIso s
        = (s, PostJobPage.Error
                "Wage amount seems too high. Please enter a reasonable amount.")).
Proof.
  intros Hhigh.
  assert (Hpos : le (parseFloat (PostJobPage.FormData.wage formData)) (ofZ 0) = false).
  { revert Hhigh. unfold gt, lt, le, ofZ.
    destruct (parseFloat (PostJobPage.FormData.wage formData)) as [ | | | w];
      simpl; try discriminate; try reflexivity.
    destruct (Qcompare_spec (inject_Z 100000) w) as [ | Hw | ]; try discriminate.
    intros _.
    destruct (Qcompare_spec w (inject_Z 0)) as [H0 | H0 | H0]; try reflexivity; exfalso.
    - rewrite H0 in Hw. now vm_compute in Hw.
    - apply (Qlt_irrefl w). apply Qlt_trans with (inject_Z 0); [assumption | ].
      apply Qlt_trans with (inject_Z 100000); [reflexivity | assumption]. }
  split.
  - unfold PostJobPage.handleSubmit.
    destruct user as [u | ]; [ | eauto].
    destruct (User.userType u); [ | eauto].
    destruct (negb _ || negb _ || negb _); [eauto | ].
    rewrite Hpos, Hhigh, orb_false_r.
    destruct (negb _); eauto.
  - intros u -> Hf Ht Hd Hl Hw.
    unfold PostJobPage.handleSubmit.
    now rewrite Hf, Ht, Hd, Hl, Hw, Hpos, Hhigh.
Qed.

(** ** Re-application cooldown *)


(** Within a margin of one millisecond's worth of an hour, a value near the
    exact remaining hours has the same ceiling, unless the elapsed time is
    a whole number of hours (then the division is exact).  The two rounded
    operations of the code, a quotient below 24 and its difference from 24,
    stay far inside that margin. *)
Lemma remaining_hours_stable (now t : Z) (q : Q) :
  ((now - t) mod msPerHour <> 0)%Z ->
  inject_Z 24 - (inject_Z now - inject_Z t) / (1000 * 60 * 60) - (1 # 3600000) < q ->
  q < inject_Z 24 - (inject_Z now - inject_Z t) / (1000 * 60 * 60) + (1 # 3600000) ->
  Qceiling q = remainingHours now t.
Proof.
  intros Hm Hlo Hhi.
  set (r := (86400000 - (now - t))%Z).
  assert (E : inject_Z 24 - (inject_Z now - inject_Z t) / (1000 * 60 * 60)
              == r # 3600000).
  { rewrite elapsed_hours. unfold r, Qeq, Qminus, Qplus, Qopp.
    cbn [Qnum Qden inject_Z].
    change (Z.pos (1 * 3600000)) with 3600000%Z. lia. }
  rewrite E in Hlo, Hhi.
  assert (Hlo' : (r - 1) # 3600000 < inject_Z (Qceiling q)).
  { apply Qlt_le_trans with q; [ | apply Qle_ceiling].
    eapply Qle_lt_trans; [ | exact Hlo].
    unfold Qle, Qminus, Qplus, Qopp. cbn [Qnum Qden]. lia. }
  assert (Hhi' : inject_Z (Qceiling q - 1) < (r + 1) # 3600000).
  { apply Qlt_trans with q; [apply Qceiling_lt | ].
    eapply Qlt_le_trans; [exact Hhi | ].
    unfold Qle, Qplus. cbn [Qnum Qden]. lia. }
  generalize dependent (Qceiling q). intros c Hlo' Hhi'.
  unfold Qlt, Qminus, Qplus, Qopp in Hlo', Hhi'. cbn [Qnum Qden inject_Z] in Hlo', Hhi'.
  unfold remainingHours, cooldownMs, msPerHour in *.
  change (1000 * 60 * 60)%Z with 3600000%Z in *.
  change (24 * 3600000)%Z with 86400000%Z.
  change (3600000 - 1)%Z with 3599999%Z.
  fold r.
  assert (Hr : (r mod 3600000 <> 0)%Z).
  { unfold r. intros H. apply Hm.
    rewrite Zminus_mod in H. change (86400000 mod 3600000)%Z with 0%Z in H.
    revert H. generalize (now - t)%Z. intros e H.
    Z.div_mod_to_equations. lia. }
  clear Hm E Hlo Hhi.
  Z.div_mod_to_equations. lia.
Qed.


(** ** What a reload touches *)

Lemma loadData_alerts (p : Page.t) : Page.alerts (loadData p) = Page.alerts p.
Proof.
  unfold loadData. destruct (Page.user p) as [u | ]; [ | reflexivity].
  destruct (JobStatusManager.updateAllJobStatuses (Page.storage p)) as [s1 js].
  destruct (User.userType u); [reflexivity | ].
  cbv zeta. destruct (negb _); reflexivity.
Qed.

(** For a farmer the reload re-derives the statuses, refreshes the list of
    own jobs, and leaves the [applications] state as it was. *)
Lemma loadData_farmer (p : Page.t) (u : User.t) :
  Page.user p = Some u -> User.userType u = farmer ->
  loadData p
  = Page.setJobs
      (filter (fun job => Job.farmerId job =? User.id u)
              (snd (JobStatusManager.updateAllJobStatuses (Page.storage p))))
      (Page.setStorage (fst (JobStatusManager.updateAllJobStatuses (Page.storage p))) p).
Proof.
  intros Hu Hf. unfold loadData. rewrite Hu.
  destruct (JobStatusManager.updateAllJobStatuses (Page.storage p)) as [s1 js].
  now rewrite Hf.
Qed.

(** A completed job of the farmer's is still in the storage after the
    reload, untouched, and the page lists it. *)
Lemma loadData_farmer_keeps_completed (p : Page.t) (u : User.t) (job : Job.t) :
  Page.user p = Some u -> User.userType u = farmer ->
  In job (jobStorage.getJobs (Page.storage p)) ->
  Job.status job = completed ->
  Job.farmerId job = User.id u ->
  In job (jobStorage.getJobs (Page.storage (loadData p)))
  /\ In job (Page.jobs (loadData p)).
Proof.
  intros Hu Hf Hin Hst Hown.
  rewrite (loadData_farmer p u Hu Hf).
  unfold JobStatusManager.updateAllJobStatuses, jobStorage.getJobs in *.
  cbn [fst snd Page.storage Page.jobs Page.setJobs Page.setStorage
       Storage.kheticulture_jobs Storage.setJobs].
  assert (Hmap : In job (map JobStatusManager.recompute
                            (Storage.kheticulture_jobs (Page.storage p)))).
  { rewrite <- (recompute_completed job Hst). now apply in_map. }
  split; [exact Hmap | ].
  apply filter_In. split; [exact Hmap | ].
  rewrite Hown. apply String.eqb_refl.
Qed.

(** ** Completed jobs *)

(** The guards on a completed job.  For a job the page lists as completed:
    opening the edit form is refused with an alert; saving the form (open
    on that job, whose id is not the empty string), whatever wage, worker
    count and status it holds, is refused with an alert and the storage is
    left as it was; asking for deletion is refused with an alert
    and the confirmation that would lead to the deletion is not raised. *)
Theorem completed_job_is_terminal
    (R : Runtime) (validator : WageValidator.t) (p : Page.t)
    (jobId : string) (job : Job.t) :
  find (fun j => Job.id j =? jobId) (Page.jobs p) = Some job ->
  Job.status job = completed ->
  handleEditJob jobId p = Page.alert CannotEditCompleted p
  /\ (forall form : EditData.t,
        jobId <> "" ->
        let editing := Page.setEditData form (Page.setEditingJob (Some jobId) p) in
        handleSaveEdit validator editing
        = Page.setEditingJob None (Page.alert CannotEditCompleted editing)
        /\ Page.storage (handleSaveEdit validator editing) = Page.storage p)
  /\ handleDeleteJob jobId p = Page.alert CannotDeleteCompleted p
  /\ Page.storage (handleDeleteJob jobId p) = Page.storage p
  /\ Page.showDeleteConfirm (handleDeleteJob jobId p) = Page.showDeleteConfirm p.
Proof.
  intros Hfind Hst.
  assert (Hedit : handleEditJob jobId p = Page.alert CannotEditCompleted p).
  { unfold handleEditJob. now rewrite Hfind, Hst. }
  assert (Hdel : handleDeleteJob jobId p = Page.alert CannotDeleteCompleted p).
  { unfold handleDeleteJob. now rewrite Hfind, Hst. }
  split; [exact Hedit | split; [ | rewrite Hdel; auto]].
  intros form Hid editing.
  assert (Hsave : handleSaveEdit validator editing
                  = Page.setEditingJob None (Page.alert CannotEditCompleted editing)).
  { unfold handleSaveEdit. subst editing. cbn [Page.editingJob Page.setEditData
      Page.setEditingJob Page.jobs].
    now rewrite (truthy_nonempty _ Hid), Hfind, Hst. }
  split; [exact Hsave | now rewrite Hsave].
Qed.

(** ** The checks of the edit form, on the applications the page holds *)

(** The wage check: with an application for the job among those the page
    holds, a valid proposed wage that differs from the current one raises
    the wage-lock alert and nothing is written. *)
Lemma handleSaveEdit_wage_locked
    (R : Runtime) (validator : WageValidator.t) (p : Page.t)
    (jobId : string) (job : Job.t) :
  Page.editingJob p = Some jobId -> jobId <> "" ->
  find (fun j => Job.id j =? jobId) (Page.jobs p) = Some job ->
  Job.status job <> completed ->
  hasApplications p jobId = true ->
  let newWage := parseFloat (EditData.wage (Page.editData p)) in
  isNaN newWage = false -> le newWage (ofZ 0) = false ->
  strictNe newWage (Job.wage job) = true ->
  handleSaveEdit validator p
  = Page.alert (WageLocked (Job.wage job) newWage
                           (List.length (getJobApplications p jobId))) p.
Proof.
  intros He Hid Hfind Hst Happ newWage Hnan Hpos Hne.
  unfold handleSaveEdit. rewrite He, (truthy_nonempty _ Hid), Hfind.
  cbn [negb].
  destruct (Job.status job); try congruence; cbn [isCompleted];
    fold newWage; unfold hasApplications in Happ;
    now rewrite Hnan, Hpos, Happ, Hne.
Qed.

(** The worker-count checks, once the wage part is settled (here: the wage
    is kept): below the accepted count and shrinking under applications are
    refused, anything else is written. *)
Lemma handleSaveEdit_capacity
    (R : Runtime) (validator : WageValidator.t) (p : Page.t)
    (jobId : string) (job : Job.t) :
  Page.editingJob p = Some jobId -> jobId <> "" ->
  find (fun j => Job.id j =? jobId) (Page.jobs p) = Some job ->
  Job.status job <> completed ->
  gt (Job.wage job) (ofZ 0) = true ->
  let newWage := parseFloat (EditData.wage (Page.editData p)) in
  let newCount := parseInt (EditData.requiredWorkers (Page.editData p)) in
  let acceptedCount := getAcceptedApplicationsCount p jobId in
  strictEq newWage (Job.wage job) = true ->
  isNaN newCount = false -> le newCount (ofZ 0) = false ->
  handleSaveEdit validator p
  = if lt newCount (ofNat acceptedCount)
    then Page.alert (BelowAccepted acceptedCount) p
    else if hasApplications p jobId && lt newCount (Job.requiredWorkers job)
    then Page.alert (ShrinkWithApplications (Job.requiredWorkers job) newCount) p
    else
      Page.setEditingJob None
        (loadData
           (Page.setStorage
              (JobStatusManager.checkStatusAfterWorkerAccepted jobId
                 (jobStorage.updateJob jobId
                    (Job.mkPatch newWage newCount (EditData.status (Page.editData p)))
                    (Page.storage p)))
              p)).
Proof.
  intros He Hid Hfind Hst Hwage newWage newCount acceptedCount Heq Hnan Hpos.
  destruct (strictEq_positive _ _ Heq Hwage) as [Hwn Hwp].
  unfold handleSaveEdit. rewrite He, (truthy_nonempty _ Hid), Hfind.
  cbn [negb].
  assert (Hc : isCompleted (Job.status job) = false)
    by (destruct (Job.status job); congruence || reflexivity).
  rewrite Hc. fold newWage newCount acceptedCount.
  unfold strictNe. rewrite Hwn, Hwp, Heq, Hnan, Hpos.
  cbn [negb orb]. rewrite !andb_false_r.
  reflexivity.
Qed.

(** ** Keeping the wage *)

(** C6 (wage no-op).  An edit whose wage field parses to the job's current
    (positive) wage is never answered with an alert about the wage, whatever
    applications the page holds and whatever the validator says; and when
    the job is not completed and the worker count passes its own checks, the
    edit is written. *)
Theorem wage_noop_never_rejected
    (R : Runtime) (validator : WageValidator.t) (p : Page.t)
    (jobId : string) (job : Job.t) :
  Page.editingJob p = Some jobId -> jobId <> "" ->
  find (fun j => Job.id j =? jobId) (Page.jobs p) = Some job ->
  gt (Job.wage job) (ofZ 0) = true ->
  strictEq (parseFloat (EditData.wage (Page.editData p))) (Job.wage job) = true ->
  (forall a,
      In a (Page.alerts (handleSaveEdit validator p)) ->
      In a (Page.alerts p) \/ isWageAlert a = false)
  /\ (Job.status job <> completed ->
      let newWage := parseFloat (EditData.wage (Page.editData p)) in
      let newCount := parseInt (EditData.requiredWorkers (Page.editData p)) in
      isNaN newCount = false -> le newCount (ofZ 0) = false ->
      lt newCount (ofNat (getAcceptedApplicationsCount p jobId)) = false ->
      hasApplications p jobId && lt newCount (Job.requiredWorkers job) = false ->
      handleSaveEdit validator p
      = Page.setEditingJob None
          (loadData
             (Page.setStorage
                (JobStatusManager.checkStatusAfterWorkerAccepted jobId
                   (jobStorage.updateJob jobId
                      (Job.mkPatch newWage newCount (EditData.status (Page.editData p)))
                      (Page.storage p)))
                p))).
Proof.
  intros He Hid Hfind Hwage Heq.
  split.
  - destruct (strictEq_positive _ _ Heq Hwage) as [Hwn Hwp].
    intros a. unfold handleSaveEdit. rewrite He, (truthy_nonempty _ Hid), Hfind.
    cbn [negb].
    unfold strictNe. rewrite Hwn, Hwp, Heq. cbn [negb orb]. rewrite !andb_false_r.
    destruct (isCompleted (Job.status job)).
    { cbn. intros [<- | H]; auto. }
    destruct (isNaN _ || le _ _).
    { cbn. intros [<- | H]; auto. }
    destruct (lt _ _).
    { cbn. intros [<- | H]; auto. }
    destruct (_ && lt _ _).
    { cbn. intros [<- | H]; auto. }
    cbn [Page.alerts Page.setEditingJob]. rewrite loadData_alerts. cbn. auto.
  - intros Hst newWage newCount Hnan Hpos Hacc Hshrink.
    rewrite (handleSaveEdit_capacity R validator p jobId job
               He Hid Hfind Hst Hwage Heq Hnan Hpos).
    fold newCount. now rewrite Hacc, Hshrink.
Qed.

(** ** Reconciled storage *)

Lemma reconciled_fixed (s : Storage.t) :
  reconciled s -> JobStatusManager.updateAllJobStatuses s = (s, jobStorage.getJobs s).
Proof.
  destruct s as [js apps]. unfold reconciled, JobStatusManager.updateAllJobStatuses,
    jobStorage.getJobs, Storage.setJobs. cbn. intros H.
  assert (E : map JobStatusManager.recompute js = js).
  { induction H as [ | j l Hj _ IH]; cbn; [reflexivity | now rewrite Hj, IH]. }
  now rewrite E.
Qed.

Lemma recomputed_reconciled (s : Storage.t) :
  reconciled (fst (JobStatusManager.updateAllJobStatuses s)).
Proof.
  unfold reconciled, JobStatusManager.updateAllJobStatuses, jobStorage.getJobs. cbn.
  apply Forall_forall. intros j Hj. apply in_map_iff in Hj as (j0 & <- & _).
  apply recompute_idempotent.
Qed.

Lemma deleteFromStorage_reconciled (jobId : string) (s : Storage.t) :
  reconciled s -> reconciled (deleteFromStorage jobId s).
Proof.
  unfold reconciled, deleteFromStorage, jobStorage.getJobs. cbn.
  rewrite !Forall_forall. intros H j Hj. apply filter_In in Hj as [Hj _]. auto.
Qed.

Lemma edit_reconciled (jobId : string) (patch : Job.patch) (s : Storage.t) :
  reconciled s ->
  reconciled (JobStatusManager.checkStatusAfterWorkerAccepted jobId
                (jobStorage.updateJob jobId patch s)).
Proof.
  unfold reconciled, JobStatusManager.checkStatusAfterWorkerAccepted,
    jobStorage.updateJob, jobStorage.getJobs. cbn.
  rewrite !Forall_forall, map_map. intros H j Hj.
  apply in_map_iff in Hj as (j0 & <- & Hj0).
  destruct (Job.id j0 =? jobId) eqn:E0.
  - change (Job.id (Job.merge patch j0)) with (Job.id j0). rewrite E0.
    apply recompute_idempotent.
  - rewrite E0. auto.
Qed.

Lemma loadData_reconciled (p : Page.t) :
  reconciled (Page.storage p) -> reconciled (Page.storage (loadData p)).
Proof.
  intros H. unfold loadData. destruct (Page.user p) as [u | ]; [ | exact H].
  pose proof (recomputed_reconciled (Page.storage p)) as Hr.
  destruct (JobStatusManager.updateAllJobStatuses (Page.storage p)) as [s1 js].
  cbn [fst] in Hr.
  destruct (User.userType u); [exact Hr | ].
  cbv zeta. destruct (negb _); exact Hr.
Qed.

(** ** Deleting a job *)

(** C8 (deletion cascade).  For a job the page lists as not completed,
    asking for its deletion raises the confirmation, and confirming writes a
    storage that holds exactly the other jobs and exactly the applications
    that reference other jobs, each as it was.  The reload that follows (for
    a farmer, the job's id not being the empty string) is the status
    recompute over that storage, which changes nothing when the storage was
    reconciled, as every load of the page leaves it. *)
Theorem delete_cascade (p : Page.t) (jobId : string) (job : Job.t) :
  find (fun j => Job.id j =? jobId) (Page.jobs p) = Some job ->
  Job.status job <> completed ->
  let armed := handleDeleteJob jobId p in
  let before := Page.storage p in
  let after := deleteFromStorage jobId before in
  Page.showDeleteConfirm armed = Some jobId
  /\ Page.storage armed = before
  /\ (forall j,
        In j (jobStorage.getJobs after)
        <-> In j (jobStorage.getJobs before) /\ Job.id j <> jobId)
  /\ (forall a,
        In a (applicationStorage.getApplications after)
        <-> In a (applicationStorage.getApplications before)
            /\ Application.jobId a <> jobId)
  /\ (forall u,
        Page.user p = Some u -> User.userType u = farmer -> jobId <> "" ->
        Page.storage (confirmDeleteJob armed)
        = fst (JobStatusManager.updateAllJobStatuses after)
        /\ (reconciled before -> Page.storage (confirmDeleteJob armed) = after)).
Proof.
  intros Hfind Hst armed before after.
  assert (Harmed : armed = Page.setShowDeleteConfirm (Some jobId) p).
  { unfold armed, handleDeleteJob. rewrite Hfind.
    destruct (Job.status job); congruence || reflexivity. }
  split; [now rewrite Harmed | ].
  split; [now rewrite Harmed | ].
  split; [ | split].
  - intros j. unfold after, deleteFromStorage, jobStorage.getJobs. cbn.
    rewrite filter_In, negb_true_iff, String.eqb_neq. reflexivity.
  - intros a. unfold after, deleteFromStorage, applicationStorage.getApplications.
    cbn. rewrite filter_In, negb_true_iff, String.eqb_neq. reflexivity.
  - intros u Hu Hf Hid. rewrite Harmed. unfold confirmDeleteJob.
    cbn [Page.showDeleteConfirm Page.setShowDeleteConfirm].
    rewrite (truthy_nonempty _ Hid). cbn [negb].
    rewrite (loadData_farmer _ u) by assumption.
    cbn [Page.storage Page.setJobs Page.setStorage Page.setShowDeleteConfirm].
    split; [reflexivity | ].
    intros Hrec. change (deleteFromStorage jobId (Page.storage p)) with after.
    now rewrite (reconciled_fixed after (deleteFromStorage_reconciled jobId before Hrec)).
Qed.

(** ** Capacity at creation and under recomputation *)

(** A posted job starts with no accepted worker and, its worker count being
    a number, within capacity. *)
Lemma handleSubmit_posted_within_capacity
    (R : Runtime) (user : option User.t) (formData : PostJobPage.FormData.t)
    (nowMs : Z) (nowIso : string) (s s' : Storage.t) (job : Job.t) :
  PostJobPage.handleSubmit user formData nowMs nowIso s = (s', PostJobPage.Posted job) ->
  Job.acceptedWorkerIds job = Some []
  /\ Job.status job = open
  /\ (isNaN (Job.requiredWorkers job) = false -> withinCapacity job = true).
Proof.
  unfold PostJobPage.handleSubmit.
  destruct user as [u | ]; [ | discriminate].
  destruct (User.userType u); [ | discriminate].
  destruct (negb _ || negb _ || negb _); [discriminate | ].
  destruct (negb _ || le _ _); [discriminate | ].
  destruct (gt _ _); [discriminate | ].
  destruct (negb _ || le _ _); [discriminate | ].
  destruct (negb _ || le (parseInt (PostJobPage.FormData.requiredWorkers formData)) _)
    eqn:Hw; [discriminate | ].
  intros [= _ <-]. cbn [Job.acceptedWorkerIds Job.status Job.requiredWorkers].
  repeat split.
  apply orb_false_iff in Hw as [_ Hw]. intros Hnan.
  unfold withinCapacity, Job.acceptedCount.
  cbn [Job.acceptedWorkerIds Job.requiredWorkers List.length].
  change (ofNat 0) with (ofZ 0).
  now apply le_total.
Qed.

Lemma recompute_withinCapacity (job : Job.t) :
  withinCapacity (JobStatusManager.recompute job) = withinCapacity job.
Proof.
  destruct (recompute_fields job) as (_ & _ & _ & Hr & Ha).
  unfold withinCapacity, Job.acceptedCount. now rewrite Hr, Ha.
Qed.

(** ** A farmer's session *)

Lemma handleSaveEdit_shape
    (R : Runtime) (validator : WageValidator.t) (p : Page.t) :
  handleSaveEdit validator p = p
  \/ (exists a, handleSaveEdit validator p = Page.alert a p)
  \/ (exists a, handleSaveEdit validator p = Page.setEditingJob None (Page.alert a p))
  \/ (exists jobId patch,
         handleSaveEdit validator p
         = Page.setEditingJob None
             (loadData
                (Page.setStorage
                   (JobStatusManager.checkStatusAfterWorkerAccepted jobId
                      (jobStorage.updateJob jobId patch (Page.storage p)))
                   p))).
Proof.
  unfold handleSaveEdit.
  destruct (Page.editingJob p) as [editingJob | ]; [ | now left].
  destruct (negb (truthy editingJob)); [now left | ].
  destruct (find _ (Page.jobs p)) as [job | ]; [ | now left].
  repeat match goal with
         | |- context [if ?c then _ else _] => destruct c
         end; eauto 7.
Qed.

(** In a farmer's session the [applications] state stays empty: only the
    worker branch of [loadData] ever fills it. *)
Lemma step_farmer
    (R : Runtime) (validator : WageValidator.t) (u : User.t) (p : Page.t)
    (e : Session.event) :
  User.userType u = farmer ->
  Page.user p = Some u -> Page.applications p = [] ->
  Page.user (Session.step validator p e) = Some u
  /\ Page.applications (Session.step validator p e) = [].
Proof.
  intros Hf Hu Happs.
  assert (Hload : forall q, Page.user q = Some u -> Page.applications q = [] ->
            Page.user (loadData q) = Some u /\ Page.applications (loadData q) = []).
  { intros q Hq Ha. rewrite (loadData_farmer q u Hq Hf). cbn. auto. }
  destruct e; cbn [Session.step]; auto.
  - unfold handleEditJob. destruct (find _ _) as [job | ]; auto.
    destruct (isCompleted _); cbn; auto.
  - destruct (handleSaveEdit_shape R validator p)
      as [-> | [[a ->] | [[a ->] | [editingJob [patch ->]]]]]; cbn; auto.
    all: try (apply Hload; cbn; auto).
  - unfold handleDeleteJob. destruct (find _ _) as [job | ]; cbn; auto.
    destruct (isCompleted _); cbn; auto.
  - unfold confirmDeleteJob. destruct (Page.showDeleteConfirm p) as [d | ]; auto.
    destruct (negb (truthy d)); auto.
    all: try (apply Hload; cbn; auto).
Qed.

Lemma farmer_session_holds_no_applications
    (R : Runtime) (validator : WageValidator.t) (u : User.t) (s : Storage.t)
    (es : list Session.event) :
  User.userType u = farmer ->
  Page.applications (Session.visit validator u s es) = [].
Proof.
  intros Hf. unfold Session.visit.
  assert (H0 : Page.user (loadData (Page.mount (Some u) s)) = Some u
               /\ Page.applications (loadData (Page.mount (Some u) s)) = []).
  { rewrite (loadData_farmer (Page.mount (Some u) s) u eq_refl Hf). cbn. auto. }
  revert H0. generalize (loadData (Page.mount (Some u) s)) as p.
  induction es as [ | e es IH]; intros p [Hu Ha]; [exact Ha | ].
  cbn [fold_left]. apply IH. now apply step_farmer.
Qed.

(** Every handler leaves a reconciled storage reconciled, and the load that
    opens a session reconciles it: in a session the storage is reconciled
    throughout. *)
Lemma step_reconciled
    (R : Runtime) (validator : WageValidator.t) (p : Page.t) (e : Session.event) :
  reconciled (Page.storage p) ->
  reconciled (Page.storage (Session.step validator p e)).
Proof.
  intros H. destruct e; cbn [Session.step]; auto.
  - now apply loadData_reconciled.
  - unfold handleEditJob. destruct (find _ _) as [job | ]; auto.
    destruct (isCompleted _); auto.
  - destruct (handleSaveEdit_shape R validator p)
      as [-> | [[a ->] | [[a ->] | [editingJob [patch ->]]]]]; auto.
    cbn [Page.storage Page.setEditingJob].
    apply loadData_reconciled. now apply edit_reconciled.
  - unfold handleDeleteJob. destruct (find _ _) as [job | ]; auto.
    destruct (isCompleted _); auto.
  - unfold confirmDeleteJob. destruct (Page.showDeleteConfirm p) as [d | ]; auto.
    destruct (negb (truthy d)); auto.
    apply loadData_reconciled. now apply deleteFromStorage_reconciled.
Qed.

Lemma session_storage_reconciled
    (R : Runtime) (validator : WageValidator.t) (u : User.t) (s : Storage.t)
    (es : list Session.event) :
  reconciled (Page.storage (Session.visit validator u s es)).
Proof.
  unfold Session.visit.
  assert (H0 : reconciled (Page.storage (loadData (Page.mount (Some u) s)))).
  { unfold loadData. cbn [Page.user Page.mount Page.storage].
    pose proof (recomputed_reconciled s) as Hr.
    destruct (JobStatusManager.updateAllJobStatuses s) as [s1 js]. cbn [fst] in Hr.
    destruct (User.userType u); [exact Hr | ].
    cbv zeta. destruct (negb _); exact Hr. }
  revert H0. generalize (loadData (Page.mount (Some u) s)) as p.
  induction es as [ | e es IH]; intros p Hp; [exact Hp | ].
  cbn [fold_left]. apply IH. now apply step_reconciled.
Qed.

(** With no application held by the page, saving an edit never raises the
    wage lock nor either limit on the worker count. *)
Lemma handleSaveEdit_without_applications
    (R : Runtime) (validator : WageValidator.t) (p : Page.t) (a : Alert) :
  Page.applications p = [] ->
  In a (Page.alerts (handleSaveEdit validator p)) ->
  In a (Page.alerts p) \/ isApplicationAlert a = false.
Proof.
  intros Happs. unfold handleSaveEdit, getJobApplications, getAcceptedApplicationsCount.
  rewrite Happs. cbn [filter List.length Nat.ltb Nat.leb andb].
  destruct (Page.editingJob p) as [editingJob | ]; [ | now left].
  destruct (negb (truthy editingJob)); [now left | ].
  destruct (find _ (Page.jobs p)) as [job | ]; [ | now left].
  destruct (isCompleted _); [cbn; intros [<- | H]; auto | ].
  destruct (isNaN _ || le _ _); [cbn; intros [<- | H]; auto | ].
  destruct (isNaN _ || le _ _) eqn:Hcount; [cbn; intros [<- | H]; auto | ].
  destruct (negb _ && strictNe _ _); [cbn; intros [<- | H]; auto | ].
  destruct (lt _ (ofNat 0)) eqn:Hlt.
  { apply lt_le in Hlt. apply orb_false_iff in Hcount as [_ Hcount].
    change (ofNat 0) with (ofZ 0) in Hlt. congruence. }
  cbn [Page.alerts Page.setEditingJob]. rewrite loadData_alerts. cbn. auto.
Qed.

Lemma step_farmer_alerts
    (R : Runtime) (validator : WageValidator.t) (p : Page.t)
    (e : Session.event) (a : Alert) :
  Page.applications p = [] ->
  In a (Page.alerts (Session.step validator p e)) ->
  In a (Page.alerts p) \/ isApplicationAlert a = false.
Proof.
  intros Happs.
  destruct e; cbn [Session.step]; auto.
  - rewrite loadData_alerts. auto.
  - unfold handleEditJob. destruct (find _ _) as [job | ]; auto.
    destruct (isCompleted _); cbn; auto. intros [<- | H]; auto.
  - now apply handleSaveEdit_without_applications.
  - unfold handleDeleteJob. destruct (find _ _) as [job | ]; cbn; auto.
    destruct (isCompleted _); cbn; auto. intros [<- | H]; auto.
  - unfold confirmDeleteJob. destruct (Page.showDeleteConfirm p) as [d | ]; auto.
    destruct (negb (truthy d)); auto.
    rewrite loadData_alerts. cbn. auto.
Qed.

(** Whatever the storage holds and whatever a farmer does on the page, none
    of the three checks that depend on the applications ever fires. *)
Lemma farmer_session_checks_never_fire
    (R : Runtime) (validator : WageValidator.t) (u : User.t) (s : Storage.t)
    (es : list Session.event) (a : Alert) :
  User.userType u = farmer ->
  In a (Page.alerts (Session.visit validator u s es)) ->
  isApplicationAlert a = false.
Proof.
  intros Hf. unfold Session.visit.
  assert (H0 : Page.user (loadData (Page.mount (Some u) s)) = Some u
               /\ Page.applications (loadData (Page.mount (Some u) s)) = []
               /\ forall b, In b (Page.alerts (loadData (Page.mount (Some u) s)))
                            -> isApplicationAlert b = false).
  { rewrite (loadData_farmer (Page.mount (Some u) s) u eq_refl Hf). cbn.
    repeat split. intros b []. }
  revert H0. generalize (loadData (Page.mount (Some u) s)) as p.
  induction es as [ | e es IH]; intros p (Hu & Ha & Hal); [apply Hal | ].
  cbn [fold_left]. apply IH.
  destruct (step_farmer R validator u p e Hf Hu Ha) as [Hu' Ha'].
  repeat split; try assumption.
  intros b Hb. destruct (step_farmer_alerts R validator p e b Ha Hb); auto.
Qed.

(** With no application held by the page, a valid edit of a job that is not
    completed is written whenever the validator, told that there are no
    applications, lets the wage change. *)
Lemma handleSaveEdit_without_applications_writes
    (R : Runtime) (validator : WageValidator.t) (p : Page.t)
    (jobId : string) (job : Job.t) :
  Page.editingJob p = Some jobId -> jobId <> "" ->
  find (fun j => Job.id j =? jobId) (Page.jobs p) = Some job ->
  Job.status job <> completed ->
  Page.applications p = [] ->
  let newWage := parseFloat (EditData.wage (Page.editData p)) in
  let newCount := parseInt (EditData.requiredWorkers (Page.editData p)) in
  isNaN newWage = false -> le newWage (ofZ 0) = false ->
  isNaN newCount = false -> le newCount (ofZ 0) = false ->
  WageValidator.canModify
    (WageValidator.validateWageChange validator (Job.wage job) newWage false 0) = true ->
  handleSaveEdit validator p
  = Page.setEditingJob None
      (loadData
         (Page.setStorage
            (JobStatusManager.checkStatusAfterWorkerAccepted jobId
               (jobStorage.updateJob jobId
                  (Job.mkPatch newWage newCount (EditData.status (Page.editData p)))
                  (Page.storage p)))
            p)).
Proof.
  intros He Hid Hfind Hst Happs newWage newCount Hwn Hwp Hcn Hcp Hval.
  unfold handleSaveEdit, getJobApplications, getAcceptedApplicationsCount.
  rewrite He, (truthy_nonempty _ Hid), Hfind, Happs.
  cbn [filter List.length Nat.ltb Nat.leb andb negb].
  assert (Hc : isCompleted (Job.status job) = false)
    by (destruct (Job.status job); congruence || reflexivity).
  fold newWage newCount. rewrite Hc, Hwn, Hwp, Hcn, Hcp, Hval.
  cbn [negb orb andb].
  destruct (lt newCount (ofNat 0)) eqn:Hlt; [ | reflexivity].
  apply lt_le in Hlt. change (ofNat 0) with (ofZ 0) in Hlt. congruence.
Qed.

(** ** The card's apply button *)

(** Once the card is handed an application status, whichever it is, its
    apply button is disabled. *)
Lemma canApplyToJob_with_status
    (job : Job.t) (canApply : bool) (st : ApplicationStatus) :
  JobCard.canApplyToJob job canApply (Some st) = false.
Proof.
  unfold JobCard.canApplyToJob. now rewrite orb_true_r.
Qed.

Lemma canApplyToJob_without_status (job : Job.t) :
  JobCard.canApplyToJob job true None = isOpen (Job.status job).
Proof. reflexivity. Qed.

(** ** The scenarios as the pages run them *)

#[local] Existing Instance Host.runtime.

(** C1 (wage lock).  Scenario A on the page: the storage holds W1's pending
    application for job J1 posted at wage 500; the owner opens the page,
    edits the job and saves with wage 600.  No alert is raised and the
    stored wage becomes 600. *)
Theorem scenarioA_wage_changes_despite_application :
  let p := Scenario.ownerEdits Scenario.storeA "600" "2" in
  List.length
    (filter (fun a => Application.jobId a =? "J1")
            (applicationStorage.getApplications Scenario.storeA)) = 1%nat
  /\ map Job.wage (jobStorage.getJobs Scenario.storeA) = [ofZ 500]
  /\ Page.alerts p = []
  /\ map Job.wage (jobStorage.getJobs (Page.storage p)) = [ofZ 600].
Proof. vm_compute. repeat split. Qed.

(** The same steps on a page that does hold the application (the one loaded
    for the applicant W1) are refused: the check itself works on what the
    page holds. *)
Lemma scenarioA_wage_locked_when_application_loaded :
  let p :=
    Session.visit WageValidator.fromSpec Scenario.applicant Scenario.storeA
      [Session.OpenEdit "J1"; Session.TypeWage "600"; Session.Save] in
  Page.alerts p = [WageLocked (ofZ 500) (ofZ 600) 1]
  /\ map Job.wage (jobStorage.getJobs (Page.storage p)) = [ofZ 500].
Proof. vm_compute. repeat split. Qed.

(** C3 (capacity edit).  Scenario D on the page: three openings and one
    pending application; the owner saves the form with two openings.  No
    alert is raised and the stored number of required workers becomes 2. *)
Theorem scenarioD_capacity_shrinks_despite_application :
  let p := Scenario.ownerEdits Scenario.storeD "500" "2" in
  List.length
    (filter (fun a => Application.jobId a =? "J1")
            (applicationStorage.getApplications Scenario.storeD)) = 1%nat
  /\ map Job.requiredWorkers (jobStorage.getJobs Scenario.storeD) = [ofZ 3]
  /\ Page.alerts p = []
  /\ map Job.requiredWorkers (jobStorage.getJobs (Page.storage p)) = [ofZ 2].
Proof. vm_compute. repeat split. Qed.

(** C5 (invariant I2).  Scenario B on the page: both openings of the job are
    taken, so every stored job is within capacity; the owner saves the form
    with one opening.  No alert is raised and the stored job now has two
    accepted workers for one required. *)
Theorem scenarioB_capacity_edit_breaks_I2 :
  let p := Scenario.ownerEdits Scenario.storeB "500" "1" in
  forallb withinCapacity (jobStorage.getJobs Scenario.storeB) = true
  /\ Page.alerts p = []
  /\ map (fun j => (Job.acceptedCount j, Job.requiredWorkers j))
         (jobStorage.getJobs (Page.storage p)) = [(2%nat, ofZ 1)]
  /\ forallb withinCapacity (jobStorage.getJobs (Page.storage p)) = false.
Proof. vm_compute. repeat split. Qed.

(** C2 (completed is terminal).  On the owner's page of scenario A: with
    the edit form of J1 open and [completed] picked, the owner asks for the
    deletion of J1 (still listed as open, so the confirmation is raised),
    saves the form, and confirms.  Before the confirmation the job is
    completed in the storage and in the list; the confirmation deletes it
    and its application, and no alert is raised. *)
Theorem completed_job_deleted_on_confirmation :
  let before :=
    Session.visit WageValidator.fromSpec Scenario.owner Scenario.storeA
      [Session.OpenEdit "J1"; Session.PickStatus completed;
       Session.AskDelete "J1"; Session.Save] in
  let after := Session.step WageValidator.fromSpec before Session.ConfirmDelete in
  map Job.status (jobStorage.getJobs (Page.storage before)) = [completed]
  /\ map Job.status (Page.jobs before) = [completed]
  /\ Page.showDeleteConfirm before = Some "J1"
  /\ Page.alerts after = []
  /\ jobStorage.getJobs (Page.storage after) = []
  /\ applicationStorage.getApplications (Page.storage after) = []
  /\ Page.jobs after = [].
Proof. vm_compute. repeat split. Qed.

(** The same with a list gone stale: the confirmation is raised while J1 is
    listed as open, the job is completed from elsewhere (the storage is
    shared), and the confirmation deletes the completed job. *)
Lemma completed_job_deleted_from_stale_list :
  let asked :=
    Session.visit WageValidator.fromSpec Scenario.owner Scenario.storeA
      [Session.AskDelete "J1"] in
  let stale := Page.setStorage Scenario.storeE asked in
  map Job.status (jobStorage.getJobs (Page.storage stale)) = [completed]
  /\ Page.alerts (confirmDeleteJob stale) = []
  /\ jobStorage.getJobs (Page.storage (confirmDeleteJob stale)) = [].
Proof. vm_compute. repeat split. Qed.



(** ** Instances *)

Lemma completed_job_is_terminal_witness :
  let p := Scenario.ownerArrives Scenario.storeE in
  let job := Scenario.posting 2 ["W1"; "W2"] completed in
  find (fun j => Job.id j =? "J1") (Page.jobs p) = Some job
  /\ Job.status job = completed
  /\ handleEditJob "J1" p = Page.alert CannotEditCompleted p
  /\ handleDeleteJob "J1" p = Page.alert CannotDeleteCompleted p
  /\ Page.storage
       (handleSaveEdit WageValidator.fromSpec
          (Page.setEditData (EditData.mk "600" "1" open)
             (Page.setEditingJob (Some "J1") p)))
     = Page.storage p.
Proof.
  intros p job.
  assert (Hfind : find (fun j => Job.id j =? "J1") (Page.jobs p) = Some job)
    by reflexivity.
  assert (Hst : Job.status job = completed) by reflexivity.
  destruct (completed_job_is_terminal Host.runtime WageValidator.fromSpec
              p "J1" job Hfind Hst) as (Hedit & Hsave & Hdel & _).
  assert (Hid : "J1" <> "") by discriminate.
  destruct (Hsave (EditData.mk "600" "1" open) Hid) as [_ Hstore].
  split; [exact Hfind | split; [exact Hst | ]].
  split; [exact Hedit | split; [exact Hdel | exact Hstore]].
Defined.



Lemma wage_noop_never_rejected_witness :
  let p :=
    Session.visit WageValidator.fromSpec Scenario.owner Scenario.storeA
      [Session.OpenEdit "J1"] in
  let job := Scenario.posting 2 [] open in
  Page.editingJob p = Some "J1"
  /\ "J1" <> ""
  /\ find (fun j => Job.id j =? "J1") (Page.jobs p) = Some job
  /\ gt (Job.wage job) (ofZ 0) = true
  /\ strictEq (parseFloat (EditData.wage (Page.editData p))) (Job.wage job) = true
  /\ (forall a,
        In a (Page.alerts (handleSaveEdit WageValidator.fromSpec p)) ->
        In a (Page.alerts p) \/ isWageAlert a = false).
Proof.
  intros p job.
  assert (H1 : Page.editingJob p = Some "J1") by reflexivity.
  assert (Hid : "J1" <> "") by discriminate.
  assert (H2 : find (fun j => Job.id j =? "J1") (Page.jobs p) = Some job)
    by reflexivity.
  assert (H3 : gt (Job.wage job) (ofZ 0) = true) by reflexivity.
  assert (H4 : strictEq (parseFloat (EditData.wage (Page.editData p))) (Job.wage job)
               = true) by reflexivity.
  split; [exact H1 | split; [exact Hid | split; [exact H2 | ]]].
  split; [exact H3 | split; [exact H4 | ]].
  exact (proj1 (wage_noop_never_rejected Host.runtime WageValidator.fromSpec p "J1" job
                  H1 Hid H2 H3 H4)).
Defined.

Lemma delete_cascade_witness :
  let p := Scenario.ownerArrives Scenario.storeA in
  let job := Scenario.posting 2 [] open in
  find (fun j => Job.id j =? "J1") (Page.jobs p) = Some job
  /\ Job.status job <> completed
  /\ Page.showDeleteConfirm (handleDeleteJob "J1" p) = Some "J1"
  /\ (forall a,
        In a (applicationStorage.getApplications
                (deleteFromStorage "J1" (Page.storage p)))
        <-> In a (applicationStorage.getApplications (Page.storage p))
            /\ Application.jobId a <> "J1").
Proof.
  intros p job.
  assert (H1 : find (fun j => Job.id j =? "J1") (Page.jobs p) = Some job)
    by reflexivity.
  assert (H2 : Job.status job <> completed) by discriminate.
  destruct (delete_cascade p "J1" job H1 H2) as (Harmed & _ & _ & Happs & _).
  split; [exact H1 | split; [exact H2 | split; [exact Harmed | exact Happs]]].
Defined.

Lemma handleSubmit_wage_above_limit_witness :
  gt (parseFloat (PostJobPage.FormData.wage Scenario.costlyForm)) (ofZ 100000) = true
  /\ exists message,
       PostJobPage.handleSubmit (Some Scenario.owner) Scenario.costlyForm
         1747728000000 "2025-05-20T08:00:00.000Z" Scenario.storeA
       = (Scenario.storeA, PostJobPage.Error message).
Proof.
  assert (H : gt (parseFloat (PostJobPage.FormData.wage Scenario.costlyForm))
                 (ofZ 100000) = true) by reflexivity.
  split; [exact H | ].
  exact (proj1 (handleSubmit_wage_above_limit Host.runtime (Some Scenario.owner)
                  Scenario.costlyForm 1747728000000 "2025-05-20T08:00:00.000Z"
                  Scenario.storeA H)).
Defined.

(** * Further properties of the pages *)

(** ** String methods *)

Lemma take_drop (n : nat) (s : string) : Text.take n s ++ Text.drop n s = s.
Proof.
  revert s. induction n as [ | n IH]; intros [ | c s]; cbn; try reflexivity.
  now rewrite IH.
Qed.

Lemma take_length (n : nat) (s : string) :
  String.length (Text.take n s) = Nat.min n (String.length s).
Proof.
  revert s. induction n as [ | n IH]; intros [ | c s]; cbn; try reflexivity.
  now rewrite IH.
Qed.

Lemma take_all (n : nat) (s : string) :
  (String.length s <= n)%nat -> Text.take n s = s.
Proof.
  revert s. induction n as [ | n IH]; intros [ | c s]; cbn; intros H;
    try reflexivity; try lia.
  rewrite IH; [reflexivity | lia].
Qed.

Lemma drop_length (n : nat) (s : string) :
  String.length (Text.drop n s) = (String.length s - n)%nat.
Proof.
  revert s. induction n as [ | n IH]; intros [ | c s]; cbn; try reflexivity.
  apply IH.
Qed.

Lemma drop_drop (n m : nat) (s : string) :
  Text.drop n (Text.drop m s) = Text.drop (m + n) s.
Proof.
  revert s. induction m as [ | m IH]; intros s; cbn.
  - now destruct s.
  - destruct s as [ | c s]; [now destruct n | apply IH].
Qed.

Lemma append_length (a b : string) :
  String.length (a ++ b) = (String.length a + String.length b)%nat.
Proof. induction a as [ | c a IH]; cbn; [reflexivity | now rewrite IH]. Qed.

Lemma append_assoc (a b c : string) : (a ++ b) ++ c = a ++ (b ++ c).
Proof. induction a as [ | x a IH]; cbn; [reflexivity | now rewrite IH]. Qed.

Lemma keep_append (class : ascii -> bool) (a b : string) :
  Text.keep class (a ++ b) = Text.keep class a ++ Text.keep class b.
Proof.
  induction a as [ | c a IH]; cbn; [reflexivity | ].
  destruct (class c); cbn; now rewrite IH.
Qed.

Lemma keep_fixed (class : ascii -> bool) (s : string) :
  Text.test (fun c => negb (class c)) s = false -> Text.keep class s = s.
Proof.
  induction s as [ | c s IH]; cbn; [reflexivity | ].
  destruct (class c); cbn; [intros H; now rewrite IH | discriminate].
Qed.

Lemma keep_only (class : ascii -> bool) (s : string) :
  Text.test (fun c => negb (class c)) (Text.keep class s) = false.
Proof.
  induction s as [ | c s IH]; cbn; [reflexivity | ].
  destruct (class c) eqn:E; cbn; [now rewrite E | exact IH].
Qed.

Lemma take_only (class : ascii -> bool) (n : nat) (s : string) :
  Text.test class s = false -> Text.test class (Text.take n s) = false.
Proof.
  revert s. induction n as [ | n IH]; intros [ | c s]; cbn; try reflexivity.
  intros H. apply orb_false_iff in H as [Hc Hs]. now rewrite Hc, IH.
Qed.

Lemma drop_only (class : ascii -> bool) (n : nat) (s : string) :
  Text.test class s = false -> Text.test class (Text.drop n s) = false.
Proof.
  revert s. induction n as [ | n IH]; intros [ | c s]; cbn; try reflexivity;
    try (intros H; exact H).
  intros H. apply orb_false_iff in H as [_ Hs]. now apply IH.
Qed.

Lemma test_append (class : ascii -> bool) (a b : string) :
  Text.test class (a ++ b) = Text.test class a || Text.test class b.
Proof.
  induction a as [ | c a IH]; cbn; [reflexivity | ].
  now rewrite IH, orb_assoc.
Qed.

(** ** Contact numbers *)

(** The digits a formatted number is made of, and its three shapes. *)
Lemma formatContactNumber_shape (value : string) :
  let limitedDigits := Text.take 10 (Text.keep Text.isDigit value) in
  (String.length limitedDigits <= 10)%nat
  /\ Text.test (fun c => negb (Text.isDigit c)) limitedDigits = false
  /\ Text.keep Text.isDigit (AuthPage.formatContactNumber value) = limitedDigits
  /\ (String.length (AuthPage.formatContactNumber value) <= 12)%nat.
Proof.
  intros l.
  assert (Hlen : (String.length l <= 10)%nat)
    by (unfold l; rewrite take_length; lia).
  assert (Hdig : Text.test (fun c => negb (Text.isDigit c)) l = false)
    by (unfold l; apply take_only, keep_only).
  split; [exact Hlen | split; [exact Hdig | ]].
  unfold AuthPage.formatContactNumber, Text.slice, Text.sliceFrom.
  change (Text.drop 0 (Text.keep Text.isDigit value)) with (Text.keep Text.isDigit value).
  change (10 - 0)%nat with 10%nat. fold l.
  change (Text.drop 0 l) with l. change (3 - 0)%nat with 3%nat.
  change (6 - 3)%nat with 3%nat.
  clearbody l.
  assert (K : forall s, Text.test (fun c => negb (Text.isDigit c)) s = false ->
                        Text.keep Text.isDigit s = s) by (intros; now apply keep_fixed).
  destruct (Nat.ltb_spec 6 (String.length l)) as [H6 | H6];
    [ | destruct (Nat.ltb_spec 3 (String.length l)) as [H3 | H3]].
  - split.
    + rewrite !keep_append. cbn [Text.keep Text.isDigit Text.between].
      change (Text.keep Text.isDigit "-") with "". cbn [append].
      rewrite !K by (repeat first [apply take_only | apply drop_only]; exact Hdig).
      change 6%nat with (3 + 3)%nat. rewrite <- drop_drop.
      now rewrite take_drop, take_drop.
    + rewrite !append_length, !take_length, !drop_length.
      change (String.length "-") with 1%nat. lia.
  - split.
    + rewrite !keep_append. change (Text.keep Text.isDigit "-") with "". cbn [append].
      rewrite !K by (repeat first [apply take_only | apply drop_only]; exact Hdig).
      now rewrite take_drop.
    + rewrite !append_length, !take_length, !drop_length.
      change (String.length "-") with 1%nat. lia.
  - split; [now apply K | lia].
Qed.

(** X1.  Formatting a contact number twice is formatting it once; the
    result has at most 12 characters and its digits are the first ten
    digits of what was typed. *)
Theorem formatContactNumber_idempotent (value : string) :
  AuthPage.formatContactNumber (AuthPage.formatContactNumber value)
  = AuthPage.formatContactNumber value
  /\ (String.length (AuthPage.formatContactNumber value) <= 12)%nat
  /\ Text.keep Text.isDigit (AuthPage.formatContactNumber value)
     = Text.take 10 (Text.keep Text.isDigit value).
Proof.
  destruct (formatContactNumber_shape value) as (Hlen & Hdig & Hkeep & Hout).
  cbv zeta in Hlen, Hdig, Hkeep.
  split; [ | split; assumption].
  set (out := AuthPage.formatContactNumber value) in *.
  set (l := Text.take 10 (Text.keep Text.isDigit value)) in *.
  unfold AuthPage.formatContactNumber. rewrite Hkeep.
  assert (E : Text.slice 0 10 l = l) by (apply (take_all 10 l Hlen)).
  rewrite E. reflexivity.
Qed.

(** X2.  On a string of ten digits [formatDisplayContactNumber] of
    [MyJobsPage] and [formatContactNumber] of [AuthPage] give the same
    grouping; a number already grouped is displayed as it is. *)
Theorem formatDisplayContactNumber_agrees (contactNumber : string) :
  String.length contactNumber = 10%nat ->
  Text.test (fun c => negb (Text.isDigit c)) contactNumber = false ->
  formatDisplayContactNumber contactNumber = AuthPage.formatContactNumber contactNumber
  /\ formatDisplayContactNumber (AuthPage.formatContactNumber contactNumber)
     = AuthPage.formatContactNumber contactNumber.
Proof.
  intros Hlen Hdig.
  assert (E : formatDisplayContactNumber contactNumber
              = AuthPage.formatContactNumber contactNumber).
  { unfold formatDisplayContactNumber, AuthPage.formatContactNumber.
    rewrite (keep_fixed _ _ Hdig).
    assert (El : Text.slice 0 10 contactNumber = contactNumber)
      by (apply take_all; lia).
    rewrite El, Hlen. reflexivity. }
  split; [exact E | ].
  rewrite <- E.
  assert (L : String.length (formatDisplayContactNumber contactNumber) = 12%nat).
  { unfold formatDisplayContactNumber. rewrite Hlen. cbn [Nat.eqb].
    unfold Text.slice, Text.sliceFrom.
    rewrite !append_length, !take_length, !drop_length, Hlen. reflexivity. }
  set (out := formatDisplayContactNumber contactNumber) in *.
  unfold formatDisplayContactNumber. now rewrite L.
Qed.

(** ** Passwords *)

Lemma validatePassword_valid (password : string) :
  AuthPage.isValid (AuthPage.validatePassword password) = true
  <-> (8 <= String.length password)%nat
      /\ Text.test Text.isUpper password = true
      /\ Text.test Text.isLower password = true
      /\ Text.test Text.isDigit password = true
      /\ Text.test AuthPage.isSpecial password = true.
Proof.
  unfold AuthPage.validatePassword. cbn [AuthPage.isValid].
  destruct (Nat.ltb_spec (String.length password) 8) as [H8 | H8];
    destruct (Text.test Text.isUpper password);
    destruct (Text.test Text.isLower password);
    destruct (Text.test Text.isDigit password);
    destruct (Text.test AuthPage.isSpecial password);
    cbn; split; intros H; try discriminate; try reflexivity;
    try (repeat split; try reflexivity; lia);
    try (destruct H as (H1 & H2 & H3 & H4 & H5); first [discriminate | lia]).
Qed.

(** X3.  A password that passes [validatePassword] still passes
    with any characters put before and after it. *)
Theorem validatePassword_extends (before password after : string) :
  AuthPage.isValid (AuthPage.validatePassword password) = true ->
  AuthPage.isValid (AuthPage.validatePassword (before ++ password ++ after)) = true.
Proof.
  rewrite !validatePassword_valid. intros (H8 & Hu & Hl & Hd & Hs).
  rewrite !test_append, !append_length, Hu, Hl, Hd, Hs, !orb_true_r.
  repeat split; try reflexivity. lia.
Qed.

(** ** Ages *)

Lemma sub_ofZ (a b : Z) : sub (ofZ a) (ofZ b) = ofZ (a - b).
Proof.
  unfold sub, ofZ. f_equal. unfold Qminus.
  now rewrite <- inject_Z_opp, <- inject_Z_plus.
Qed.

Lemma lt_ofZ (a b : Z) : lt (ofZ a) (ofZ b) = (a <? b)%Z.
Proof. unfold lt, Z.ltb. rewrite compare_ofZ. now destruct (a ?= b)%Z. Qed.

Lemma strictEq_ofZ (a b : Z) : strictEq (ofZ a) (ofZ b) = (a =? b)%Z.
Proof.
  unfold strictEq. rewrite compare_ofZ.
  destruct (Z.eqb_spec a b) as [-> | H]; [now rewrite Z.compare_refl | ].
  now destruct (Z.compare_spec a b).
Qed.

(** The age of somebody born on the given day, as [calculateAge] works it
    out on the given day. *)
Lemma calculateAge_dated (C : Calendar) (year month day : Z) (dateOfBirth : string)
    (y m d : Z) :
  dateOf dateOfBirth = Date.At y m d ->
  AuthPage.calculateAge (Date.At year month day) dateOfBirth
  = ofZ (if (month - m <? 0)%Z || ((month - m =? 0)%Z && (day <? d)%Z)
         then year - y - 1 else year - y)%Z.
Proof.
  intros H. unfold AuthPage.calculateAge. rewrite H.
  cbn [Date.getFullYear Date.getMonth Date.getDate].
  rewrite !sub_ofZ, lt_ofZ, strictEq_ofZ, lt_ofZ.
  now destruct ((month - m <? 0)%Z || ((month - m =? 0)%Z && (day <? d)%Z)).
Qed.

Lemma calculateAge_undated (C : Calendar) (today : Date.t) (dateOfBirth : string) :
  dateOf dateOfBirth = Date.Invalid ->
  AuthPage.calculateAge today dateOfBirth = NaN.
Proof.
  intros H. unfold AuthPage.calculateAge. rewrite H.
  cbn [Date.getFullYear Date.getMonth Date.getDate].
  now destruct (Date.getFullYear today), (Date.getMonth today).
Qed.

(** X4.  [calculateAge] is at least [n] exactly when the date of birth is a
    date and its [n]-th anniversary (same month and day, [n] years later) is
    today or earlier; it is NaN exactly when the date of birth is not a
    date. *)
Theorem calculateAge_at_least (C : Calendar) (year month day : Z)
    (dateOfBirth : string) (n : Z) :
  let today := Date.At year month day in
  (ge (AuthPage.calculateAge today dateOfBirth) (ofZ n) = true
   <-> exists y m d,
         dateOf dateOfBirth = Date.At y m d
         /\ (y + n < year
             \/ (y + n = year /\ (m < month \/ (m = month /\ d <= day))))%Z)
  /\ (isNaN (AuthPage.calculateAge today dateOfBirth) = true
      <-> dateOf dateOfBirth = Date.Invalid).
Proof.
  intros today. subst today.
  destruct (dateOf dateOfBirth) as [ | y m d] eqn:Hb.
  - rewrite (calculateAge_undated C _ _ Hb). split.
    + split; [discriminate | intros (y & m & d & H & _); discriminate].
    + split; reflexivity.
  - rewrite (calculateAge_dated C _ _ _ _ _ _ _ Hb). split.
    + unfold ge. rewrite le_ofZ. split.
      * intros H. exists y, m, d. split; [reflexivity | ].
        destruct (Z.ltb_spec (month - m) 0); destruct (Z.eqb_spec (month - m) 0);
          destruct (Z.ltb_spec day d); cbn [orb andb] in H; lia.
      * intros (y' & m' & d' & [= <- <- <-] & H).
        destruct (Z.ltb_spec (month - m) 0); destruct (Z.eqb_spec (month - m) 0);
          destruct (Z.ltb_spec day d); cbn [orb andb]; lia.
    + split; discriminate.
Qed.

(** ** Signing up *)

Lemma not_lt_ge (a : number) (z : Z) :
  lt a (ofZ z) = false -> isNaN a = true \/ ge a (ofZ z) = true.
Proof.
  unfold ge, lt, le. rewrite (compare_antisym a (ofZ z)).
  destruct a; cbn; auto; try discriminate.
  destruct (q ?= inject_Z z)%Q; cbn; auto; discriminate.
Qed.

(** X5.  [handleSubmit] calls [signup] only with the fields of a form
    whose name and contact number are not blank and whose password passes
    [validatePassword]; for a worker the location is not blank, the date of
    birth is given and the age is at least 16 or NaN; for a farmer no
    location and no date of birth are passed. *)
Theorem signup_only_after_validation
    (R : Runtime) (C : Calendar) (isLogin : bool) (formData : AuthPage.FormData.t)
    (today : Date.t) (name email password contactNumber : string)
    (userType : UserType) (location dateOfBirth : option string) :
  AuthPage.submission isLogin formData today
  = AuthPage.Signup name email password contactNumber userType location dateOfBirth ->
  isLogin = false
  /\ name = AuthPage.FormData.name formData
  /\ email = AuthPage.FormData.email formData
  /\ password = AuthPage.FormData.password formData
  /\ contactNumber = AuthPage.FormData.contactNumber formData
  /\ userType = AuthPage.FormData.userType formData
  /\ truthy (trim name) = true
  /\ truthy (trim contactNumber) = true
  /\ AuthPage.isValid (AuthPage.validatePassword password) = true
  /\ match userType with
     | worker =>
       let age := AuthPage.calculateAge today (AuthPage.FormData.dateOfBirth formData) in
       location = Some (AuthPage.FormData.location formData)
       /\ dateOfBirth = Some (AuthPage.FormData.dateOfBirth formData)
       /\ truthy (trim (AuthPage.FormData.location formData)) = true
       /\ AuthPage.FormData.dateOfBirth formData <> ""
       /\ (isNaN age = true \/ ge age (ofZ 16) = true)
     | farmer => location = None /\ dateOfBirth = None
     end.
Proof.
  unfold AuthPage.submission.
  destruct isLogin; [discriminate | ].
  destruct (truthy (trim (AuthPage.FormData.name formData))) eqn:Hn;
    [ | discriminate].
  destruct (truthy (trim (AuthPage.FormData.contactNumber formData))) eqn:Hc;
    [ | discriminate].
  destruct (AuthPage.isValid (AuthPage.validatePassword (AuthPage.FormData.password formData)))
    eqn:Hp; [ | discriminate].
  cbn [negb].
  destruct (AuthPage.FormData.userType formData) eqn:Hu.
  - intros [= <- <- <- <- <- <- <-]. repeat split; assumption.
  - destruct (truthy (trim (AuthPage.FormData.location formData))) eqn:Hl;
      [ | discriminate].
    destruct (truthy (AuthPage.FormData.dateOfBirth formData)) eqn:Hd;
      [ | discriminate].
    cbn [negb].
    destruct (lt (AuthPage.calculateAge today (AuthPage.FormData.dateOfBirth formData))
                 (ofZ 16)) eqn:Hage; [discriminate | ].
    intros [= <- <- <- <- <- <- <-]. cbv zeta. repeat split; try assumption.
    + intros E. rewrite E in Hd. discriminate.
    + apply not_lt_ge, Hage.
Qed.

(** X6.  A worker's form whose date of birth is not a date passes the age
    check: with the other fields in order, [handleSubmit] calls [signup]
    with that date of birth. *)
Theorem signup_with_undated_birth
    (R : Runtime) (C : Calendar) (formData : AuthPage.FormData.t) (today : Date.t) :
  truthy (trim (AuthPage.FormData.name formData)) = true ->
  truthy (trim (AuthPage.FormData.contactNumber formData)) = true ->
  AuthPage.isValid (AuthPage.validatePassword (AuthPage.FormData.password formData)) = true ->
  AuthPage.FormData.userType formData = worker ->
  truthy (trim (AuthPage.FormData.location formData)) = true ->
  AuthPage.FormData.dateOfBirth formData <> "" ->
  dateOf (AuthPage.FormData.dateOfBirth formData) = Date.Invalid ->
  AuthPage.submission false formData today
  = AuthPage.Signup (AuthPage.FormData.name formData) (AuthPage.FormData.email formData)
                    (AuthPage.FormData.password formData)
                    (AuthPage.FormData.contactNumber formData) worker
                    (Some (AuthPage.FormData.location formData))
                    (Some (AuthPage.FormData.dateOfBirth formData)).
Proof.
  intros Hn Hc Hp Hu Hl Hd Hb. unfold AuthPage.submission.
  rewrite Hn, Hc, Hp, Hu, Hl, (calculateAge_undated C today _ Hb).
  destruct (AuthPage.FormData.dateOfBirth formData); [now elim Hd | reflexivity].
Qed.

(** ** The apply button of a card *)

(** X7.  A card whose apply button is enabled shows no application
    status and an open job, and the button reads "Apply Now" when an opening
    is left and "All Positions Filled" when none is; and a button that reads
    "Apply Now" is enabled exactly when the card was told the user can
    apply. *)
Theorem apply_button_label
    (job : Job.t) (canApply : bool) (applicationStatus : option ApplicationStatus) :
  (JobCard.canApplyToJob job canApply applicationStatus = true ->
   applicationStatus = None /\ Job.status job = open
   /\ JobCard.getApplyButtonText job applicationStatus
      = if ge (ofNat (Job.acceptedCount job)) (Job.requiredWorkers job)
        then "All Positions Filled" else "Apply Now")
  /\ (JobCard.getApplyButtonText job applicationStatus = "Apply Now" ->
      JobCard.canApplyToJob job canApply applicationStatus = canApply
      /\ ge (ofNat (Job.acceptedCount job)) (Job.requiredWorkers job) = false).
Proof.
  unfold JobCard.canApplyToJob, JobCard.getApplyButtonText.
  split.
  - destruct canApply, applicationStatus as [st | ]; cbn; try discriminate.
    destruct (Job.status job); cbn; try discriminate. auto.
  - destruct applicationStatus as [[ | | ] | ]; try discriminate.
    destruct (Job.status job); try discriminate.
    destruct (ge _ _); try discriminate.
    destruct canApply; auto.
Qed.

(** ** Posting a job, continued *)

(** X8.  A submission either fails, with a message and the
    storage as it was, or is the work of a farmer and saves one job that
    carries the farmer's id and name. *)
Theorem handleSubmit_fails_or_saves
    (R : Runtime) (user : option User.t) (formData : PostJobPage.FormData.t)
    (nowMs : Z) (nowIso : string) (s : Storage.t) :
  (exists message,
      PostJobPage.handleSubmit user formData nowMs nowIso s
      = (s, PostJobPage.Error message))
  \/ (exists u job,
        user = Some u /\ User.userType u = farmer
        /\ Job.farmerId job = User.id u /\ Job.farmerName job = User.name u
        /\ PostJobPage.handleSubmit user formData nowMs nowIso s
           = (jobStorage.saveJob job s, PostJobPage.Posted job)).
Proof.
  unfold PostJobPage.handleSubmit.
  destruct user as [u | ]; [ | eauto].
  destruct (User.userType u) eqn:Hu; [ | eauto].
  repeat match goal with
         | |- context [if ?c then _ else _] => destruct c; [eauto | ]
         end.
  right. eexists u, _. repeat split; try reflexivity. exact Hu.
Qed.

Lemma not_le_lt (a : number) (z : Z) :
  isNaN a = false -> le a (ofZ z) = false -> gt a (ofZ z) = true.
Proof.
  unfold gt, lt, le. rewrite (compare_antisym a (ofZ z)).
  destruct a; cbn; try discriminate; try reflexivity.
  now destruct (q ?= inject_Z z)%Q.
Qed.

Lemma not_gt_le (a : number) (z : Z) :
  isNaN a = false -> gt a (ofZ z) = false -> le a (ofZ z) = true.
Proof.
  unfold gt, lt, le. rewrite (compare_antisym a (ofZ z)).
  destruct a; cbn; try discriminate; try reflexivity.
  now destruct (q ?= inject_Z z)%Q.
Qed.

(** X9.  A posted job is open with no accepted worker, its
    title, description and location are trimmed and not empty, its wage is
    NaN or above 0 and at most 100000, and its duration and worker count are
    each NaN or above 0. *)
Theorem handleSubmit_posted_fields
    (R : Runtime) (user : option User.t) (formData : PostJobPage.FormData.t)
    (nowMs : Z) (nowIso : string) (s s' : Storage.t) (job : Job.t) :
  PostJobPage.handleSubmit user formData nowMs nowIso s = (s', PostJobPage.Posted job) ->
  Job.status job = open
  /\ Job.acceptedWorkerIds job = Some []
  /\ Job.title job = trim (PostJobPage.FormData.title formData)
  /\ Job.title job <> "" /\ Job.description job <> "" /\ Job.location job <> ""
  /\ (isNaN (Job.wage job) = true
      \/ (gt (Job.wage job) (ofZ 0) = true /\ le (Job.wage job) (ofZ 100000) = true))
  /\ (isNaN (Job.duration job) = true \/ gt (Job.duration job) (ofZ 0) = true)
  /\ (isNaN (Job.requiredWorkers job) = true
      \/ gt (Job.requiredWorkers job) (ofZ 0) = true).
Proof.
  unfold PostJobPage.handleSubmit.
  destruct user as [u | ]; [ | discriminate].
  destruct (User.userType u); [ | discriminate].
  destruct (negb _ || negb _ || negb _) eqn:Htext; [discriminate | ].
  destruct (negb _ || le _ _) eqn:Hwage; [discriminate | ].
  destruct (gt _ _) eqn:Hhigh; [discriminate | ].
  destruct (negb _ || le (parseInt (PostJobPage.FormData.duration formData)) _)
    eqn:Hdur; [discriminate | ].
  destruct (negb _ || le (parseInt (PostJobPage.FormData.requiredWorkers formData)) _)
    eqn:Hcount; [discriminate | ].
  intros [= _ <-].
  cbn [Job.status Job.acceptedWorkerIds Job.title Job.description Job.location
       Job.wage Job.duration Job.requiredWorkers].
  apply orb_false_iff in Htext as [Htext Hloc].
  apply orb_false_iff in Htext as [Htitle Hdesc].
  apply negb_false_iff in Htitle, Hdesc, Hloc.
  apply orb_false_iff in Hwage as [_ Hwage].
  apply orb_false_iff in Hdur as [_ Hdur].
  apply orb_false_iff in Hcount as [_ Hcount].
  assert (Hne : forall t, truthy t = true -> t <> "")
    by (intros t Ht E; rewrite E in Ht; discriminate).
  repeat split; auto.
  - destruct (isNaN (parseFloat (PostJobPage.FormData.wage formData))) eqn:Hn;
      [now left | right]. split; [now apply not_le_lt | ].
    now apply not_gt_le.
  - destruct (isNaN (parseInt (PostJobPage.FormData.duration formData))) eqn:Hn;
      [now left | right]. now apply not_le_lt.
  - destruct (isNaN (parseInt (PostJobPage.FormData.requiredWorkers formData))) eqn:Hn;
      [now left | right]. now apply not_le_lt.
Qed.

(** ** Loading the page *)

Lemma filter_length_all {A : Type} (f : A -> bool) (l : list A) :
  List.length (filter f l) = List.length l -> filter f l = l.
Proof.
  induction l as [ | x l IH]; cbn; [reflexivity | ].
  destruct (f x); cbn; intros H.
  - f_equal. apply IH. lia.
  - pose proof (filter_length_le f l). lia.
Qed.

Lemma filter_all {A : Type} (f : A -> bool) (l : list A) :
  (forall x, In x l -> f x = true) -> filter f l = l.
Proof.
  induction l as [ | x l IH]; cbn; intros H; [reflexivity | ].
  rewrite (H x (or_introl eq_refl)). f_equal. apply IH. auto.
Qed.

Lemma filter_none {A : Type} (f : A -> bool) (l : list A) :
  (forall x, In x l -> f x = false) -> filter f l = [].
Proof.
  induction l as [ | x l IH]; cbn; intros H; [reflexivity | ].
  rewrite (H x (or_introl eq_refl)). apply IH. auto.
Qed.

Lemma recomputed_ids (js : list Job.t) :
  map Job.id (map JobStatusManager.recompute js) = map Job.id js.
Proof.
  rewrite map_map. apply map_ext. intros j. apply (recompute_fields j).
Qed.

Lemma recompute_twice (js : list Job.t) :
  map JobStatusManager.recompute (map JobStatusManager.recompute js)
  = map JobStatusManager.recompute js.
Proof. rewrite map_map. apply map_ext, recompute_idempotent. Qed.

Lemma live_in (js : list Job.t) (app : Application.t) :
  existsb (String.eqb (Application.jobId app)) (map Job.id js) = true
  <-> In (Application.jobId app) (map Job.id js).
Proof.
  rewrite existsb_exists. split.
  - intros (i & Hi & E). apply String.eqb_eq in E. now subst.
  - intros H. exists (Application.jobId app). split; [exact H | apply String.eqb_refl].
Qed.

(** A worker's load, in one piece: the jobs are recomputed, the page keeps
    the worker's live applications and the jobs applied to, and the stored
    applications lose the worker's applications to jobs that are gone (when
    there is any; the worker's other applications then move to the end). *)
Lemma loadData_worker (p : Page.t) (u : User.t) :
  Page.user p = Some u -> User.userType u = worker ->
  let js := map JobStatusManager.recompute (jobStorage.getJobs (Page.storage p)) in
  let apps := applicationStorage.getApplications (Page.storage p) in
  let own := ownApplications u apps in
  let live := liveApplications js own in
  loadData p
  = Page.mk (Some u)
      (Storage.mk js
         (if Nat.eqb (List.length live) (List.length own) then apps
          else (othersApplications u apps ++ live)%list))
      (appliedJobs own js)
      live
      (Page.editingJob p) (Page.editData p) (Page.showDeleteConfirm p) (Page.alerts p).
Proof.
  intros Hu Hw.
  destruct p as [u0 [js0 apps0] pj pa pe pd ps pl].
  cbn [Page.user] in Hu. subst u0.
  cbn [Page.storage Page.editingJob Page.editData Page.showDeleteConfirm Page.alerts
       jobStorage.getJobs applicationStorage.getApplications
       Storage.kheticulture_jobs Storage.kheticulture_applications].
  cbv zeta.
  set (js := map JobStatusManager.recompute js0).
  set (own := ownApplications u apps0).
  set (live := liveApplications js own).
  unfold loadData, JobStatusManager.updateAllJobStatuses.
  cbn [Page.user Page.storage jobStorage.getJobs applicationStorage.getApplications
       Storage.kheticulture_jobs Storage.kheticulture_applications Storage.setJobs].
  rewrite Hw.
  change (map JobStatusManager.recompute js0) with js.
  change (filter (fun app => Application.workerId app =? User.id u) apps0) with own.
  change (filter (fun app => existsb (String.eqb (Application.jobId app)) (map Job.id js)) own)
    with live.
  change (filter (fun job => existsb (fun app => Application.jobId app =? Job.id job) own) js)
    with (appliedJobs own js).
  change (filter (fun app => negb (Application.workerId app =? User.id u)) apps0)
    with (othersApplications u apps0).
  destruct (Nat.eqb (List.length live) (List.length own)) eqn:E; cbn [negb].
  - apply Nat.eqb_eq in E.
    assert (El : live = own) by (apply filter_length_all; exact E).
    rewrite El. reflexivity.
  - reflexivity.
Qed.

(** X10.  After a worker's load the stored applications are exactly
    those stored before, minus the worker's own applications to jobs that
    are no longer stored; the applications of other users are kept, in their
    order, even when their job is gone. *)
Theorem loadData_worker_cleanup (p : Page.t) (u : User.t) :
  Page.user p = Some u -> User.userType u = worker ->
  let before := applicationStorage.getApplications (Page.storage p) in
  let after := applicationStorage.getApplications (Page.storage (loadData p)) in
  (forall app,
      In app after
      <-> In app before
          /\ (Application.workerId app <> User.id u
              \/ In (Application.jobId app)
                    (map Job.id (jobStorage.getJobs (Page.storage p)))))
  /\ othersApplications u after = othersApplications u before.
Proof.
  intros Hu Hw before after.
  unfold after. rewrite (loadData_worker p u Hu Hw).
  cbn [Page.storage applicationStorage.getApplications Storage.kheticulture_applications].
  fold before.
  set (js := map JobStatusManager.recompute (jobStorage.getJobs (Page.storage p))).
  assert (Hids : map Job.id js = map Job.id (jobStorage.getJobs (Page.storage p)))
    by apply recomputed_ids.
  set (own := ownApplications u before).
  set (live := liveApplications js own).
  assert (Hlive : forall app, In app live
            <-> In app before /\ Application.workerId app = User.id u
                /\ In (Application.jobId app)
                      (map Job.id (jobStorage.getJobs (Page.storage p)))).
  { intros app. unfold live, liveApplications, own, ownApplications.
    rewrite !filter_In, live_in, Hids, String.eqb_eq. tauto. }
  assert (Hothers : forall app, In app (othersApplications u before)
            <-> In app before /\ Application.workerId app <> User.id u).
  { intros app. unfold othersApplications.
    rewrite filter_In, negb_true_iff, String.eqb_neq. tauto. }
  destruct (Nat.eqb (List.length live) (List.length own)) eqn:E.
  - split; [ | reflexivity].
    apply Nat.eqb_eq in E.
    assert (El : live = own) by (apply filter_length_all; exact E).
    intros app. split; [ | tauto].
    intros Hin. split; [exact Hin | ].
    destruct (String.eqb_spec (Application.workerId app) (User.id u)) as [Hown | Hother];
      [right | now left].
    assert (Hl : In app live).
    { rewrite El. unfold own, ownApplications. apply filter_In.
      split; [exact Hin | now apply String.eqb_eq]. }
    now apply Hlive in Hl.
  - split.
    + intros app. rewrite in_app_iff, Hothers, Hlive.
      destruct (String.eqb_spec (Application.workerId app) (User.id u)); tauto.
    + unfold othersApplications at 1. rewrite filter_app.
      fold (othersApplications u (othersApplications u before)).
      assert (E1 : othersApplications u (othersApplications u before)
                   = othersApplications u before).
      { unfold othersApplications at 1. apply filter_all.
        intros app Ha. apply Hothers in Ha as [_ Ha].
        now apply negb_true_iff, String.eqb_neq. }
      assert (E2 : filter (fun app => negb (Application.workerId app =? User.id u)) live = []).
      { apply filter_none. intros app Ha. apply Hlive in Ha as (_ & Ha & _).
        apply negb_false_iff, String.eqb_eq. exact Ha. }
      now rewrite E1, E2, app_nil_r.
Qed.

(** X11.  After a worker's load every application the page holds
    is the worker's and is for a job the page lists, and every job the page
    lists has an application of the worker's among those the page holds. *)
Theorem loadData_worker_page (p : Page.t) (u : User.t) :
  Page.user p = Some u -> User.userType u = worker ->
  let loaded := loadData p in
  (forall app,
      In app (Page.applications loaded) ->
      Application.workerId app = User.id u
      /\ exists job, In job (Page.jobs loaded) /\ Job.id job = Application.jobId app)
  /\ (forall job,
        In job (Page.jobs loaded) ->
        exists app, In app (Page.applications loaded)
                    /\ Application.jobId app = Job.id job).
Proof.
  intros Hu Hw loaded. unfold loaded. rewrite (loadData_worker p u Hu Hw).
  cbn [Page.applications Page.jobs].
  set (js := map JobStatusManager.recompute (jobStorage.getJobs (Page.storage p))).
  set (own := ownApplications u (applicationStorage.getApplications (Page.storage p))).
  split.
  - intros app Ha. unfold liveApplications in Ha. apply filter_In in Ha as [Hown Hlive].
    split.
    + unfold own, ownApplications in Hown. apply filter_In in Hown as [_ Hown].
      now apply String.eqb_eq.
    + apply live_in, in_map_iff in Hlive as (job & Hid & Hjob).
      exists job. split; [ | exact Hid].
      unfold appliedJobs. apply filter_In. split; [exact Hjob | ].
      apply existsb_exists. exists app. split; [exact Hown | ].
      rewrite Hid. apply String.eqb_refl.
  - intros job Hj. unfold appliedJobs in Hj. apply filter_In in Hj as [Hjob Happ].
    apply existsb_exists in Happ as (app & Hown & E). apply String.eqb_eq in E.
    exists app. split; [ | exact E].
    unfold liveApplications. apply filter_In. split; [exact Hown | ].
    apply live_in. rewrite E. now apply in_map.
Qed.

Lemma appliedJobs_live (own : list Application.t) (js : list Job.t) :
  appliedJobs (liveApplications js own) js = appliedJobs own js.
Proof.
  unfold appliedJobs. apply filter_ext_in. intros job Hjob.
  apply eq_true_iff_eq. rewrite !existsb_exists. split.
  - intros (app & Ha & E). unfold liveApplications in Ha.
    apply filter_In in Ha as [Ha _]. eauto.
  - intros (app & Ha & E). exists app. split; [ | exact E].
    unfold liveApplications. apply filter_In. split; [exact Ha | ].
    apply live_in. apply String.eqb_eq in E. rewrite E. now apply in_map.
Qed.

Lemma liveApplications_twice (js : list Job.t) (apps : list Application.t) :
  liveApplications js (liveApplications js apps) = liveApplications js apps.
Proof.
  unfold liveApplications at 1. apply filter_all. intros app Ha.
  unfold liveApplications in Ha. now apply filter_In in Ha as [_ Ha].
Qed.

Lemma own_of_cleaned (u : User.t) (js : list Job.t) (apps : list Application.t) :
  ownApplications u
    (othersApplications u apps ++ liveApplications js (ownApplications u apps))%list
  = liveApplications js (ownApplications u apps).
Proof.
  unfold ownApplications at 1. rewrite filter_app.
  rewrite (filter_none _ (othersApplications u apps)).
  - cbn [app]. apply filter_all. intros app Ha.
    unfold liveApplications, ownApplications in Ha.
    apply filter_In in Ha as [Ha _]. now apply filter_In in Ha as [_ Ha].
  - intros app Ha. unfold othersApplications in Ha.
    apply filter_In in Ha as [_ Ha]. now apply negb_true_iff in Ha.
Qed.

(** X12.  Loading the page twice in a row leaves the page and the
    storage as one load does. *)
Theorem loadData_idempotent (p : Page.t) : loadData (loadData p) = loadData p.
Proof.
  destruct (Page.user p) as [u | ] eqn:Hu.
  2: { unfold loadData at 2. rewrite Hu. unfold loadData. now rewrite Hu. }
  destruct (User.userType u) eqn:Hw.
  - rewrite (loadData_farmer p u Hu Hw).
    rewrite (loadData_farmer _ u) by (cbn; assumption).
    unfold JobStatusManager.updateAllJobStatuses.
    cbn [fst snd Page.storage Page.setJobs Page.setStorage jobStorage.getJobs
         Storage.setJobs Storage.kheticulture_jobs Storage.kheticulture_applications].
    rewrite recompute_twice.
    destruct p as [u0 [js0 apps0] pj pa pe pd ps pl]. reflexivity.
  - rewrite (loadData_worker p u Hu Hw).
    set (js := map JobStatusManager.recompute (jobStorage.getJobs (Page.storage p))).
    set (apps := applicationStorage.getApplications (Page.storage p)).
    set (own := ownApplications u apps).
    set (live := liveApplications js own).
    rewrite (loadData_worker _ u) by (cbn; first [assumption | reflexivity]).
    cbn [Page.storage Page.editingJob Page.editData Page.showDeleteConfirm Page.alerts
         jobStorage.getJobs applicationStorage.getApplications
         Storage.kheticulture_jobs Storage.kheticulture_applications].
    unfold js at 1 2 3 4 5. rewrite recompute_twice. fold js.
    assert (Hown : ownApplications u
                     (if Nat.eqb (List.length live) (List.length own) then apps
                      else (othersApplications u apps ++ live)%list) = live).
    { destruct (Nat.eqb (List.length live) (List.length own)) eqn:E.
      - apply Nat.eqb_eq in E. fold own. symmetry.
        apply filter_length_all. exact E.
      - apply own_of_cleaned. }
    assert (E1 : appliedJobs live js = appliedJobs own js) by apply appliedJobs_live.
    assert (E2 : liveApplications js live = live) by apply liveApplications_twice.
    rewrite Hown, E2, E1, Nat.eqb_refl. reflexivity.
Qed.

(** ** Saving an edit, continued *)

Lemma loadData_stored_jobs (p : Page.t) :
  jobStorage.getJobs (Page.storage (loadData p))
  = match Page.user p with
    | None => jobStorage.getJobs (Page.storage p)
    | Some _ => map JobStatusManager.recompute (jobStorage.getJobs (Page.storage p))
    end.
Proof.
  destruct (Page.user p) as [u | ] eqn:Hu.
  - destruct (User.userType u) eqn:Hw.
    + now rewrite (loadData_farmer p u Hu Hw).
    + now rewrite (loadData_worker p u Hu Hw).
  - unfold loadData. now rewrite Hu.
Qed.

Lemma recompute_keptFields (job : Job.t) :
  keptFields (JobStatusManager.recompute job) = keptFields job.
Proof.
  unfold JobStatusManager.recompute.
  destruct (Job.status job);
    try destruct (ge (ofNat (Job.acceptedCount job)) (Job.requiredWorkers job));
    reflexivity.
Qed.

Lemma loadData_keptFields (p : Page.t) :
  map keptFields (jobStorage.getJobs (Page.storage (loadData p)))
  = map keptFields (jobStorage.getJobs (Page.storage p)).
Proof.
  rewrite loadData_stored_jobs. destruct (Page.user p); [ | reflexivity].
  rewrite map_map. apply map_ext, recompute_keptFields.
Qed.

Lemma edit_keptFields (jobId : string) (patch : Job.patch) (s : Storage.t) :
  map keptFields
      (jobStorage.getJobs
         (JobStatusManager.checkStatusAfterWorkerAccepted jobId
            (jobStorage.updateJob jobId patch s)))
  = map keptFields (jobStorage.getJobs s).
Proof.
  unfold JobStatusManager.checkStatusAfterWorkerAccepted, jobStorage.updateJob,
    jobStorage.getJobs. cbn. rewrite !map_map. apply map_ext. intros j.
  destruct (Job.id j =? jobId) eqn:E.
  - change (Job.id (Job.merge patch j)) with (Job.id j). rewrite E.
    now rewrite recompute_keptFields.
  - now rewrite E.
Qed.

(** X13.  Saving an edit either raises no alert, or raises
    exactly one and leaves the storage, the lists the page holds and the
    form as they were: a refused edit writes nothing. *)
Theorem handleSaveEdit_alert_or_write
    (R : Runtime) (validator : WageValidator.t) (p : Page.t) :
  let saved := handleSaveEdit validator p in
  Page.alerts saved = Page.alerts p
  \/ (exists a,
         Page.alerts saved = a :: Page.alerts p
         /\ Page.storage saved = Page.storage p
         /\ Page.jobs saved = Page.jobs p
         /\ Page.applications saved = Page.applications p
         /\ Page.editData saved = Page.editData p).
Proof.
  intros saved. unfold saved.
  destruct (handleSaveEdit_shape R validator p)
    as [-> | [[a ->] | [[a ->] | [e [patch ->]]]]].
  - now left.
  - right. exists a. cbn. auto.
  - right. exists a. cbn. auto.
  - left. cbn [Page.alerts Page.setEditingJob]. now rewrite loadData_alerts.
Qed.

(** X14.  No handler of the page other than the confirmed deletion adds,
    removes or reorders stored jobs, and none of them changes any field of
    a stored job besides wage, worker count and status. *)
Theorem step_keeps_stored_jobs
    (R : Runtime) (validator : WageValidator.t) (p : Page.t) (e : Session.event) :
  e <> Session.ConfirmDelete ->
  map keptFields (jobStorage.getJobs (Page.storage (Session.step validator p e)))
  = map keptFields (jobStorage.getJobs (Page.storage p)).
Proof.
  intros He. destruct e; cbn [Session.step]; try reflexivity; try congruence.
  - apply loadData_keptFields.
  - unfold handleEditJob. destruct (find _ _) as [job | ]; [ | reflexivity].
    destruct (isCompleted _); reflexivity.
  - destruct (handleSaveEdit_shape R validator p)
      as [-> | [[a ->] | [[a ->] | [editingJob [patch ->]]]]]; try reflexivity.
    cbn [Page.storage Page.setEditingJob].
    rewrite loadData_keptFields. cbn [Page.storage Page.setStorage].
    apply edit_keptFields.
  - unfold handleDeleteJob. destruct (find _ _) as [job | ]; [ | reflexivity].
    destruct (isCompleted _); reflexivity.
Qed.

(** X15.  On a farmer's page no handler other than the
    confirmed deletion changes the stored applications. *)
Theorem step_farmer_keeps_applications
    (R : Runtime) (validator : WageValidator.t) (u : User.t) (p : Page.t)
    (e : Session.event) :
  Page.user p = Some u -> User.userType u = farmer ->
  e <> Session.ConfirmDelete ->
  applicationStorage.getApplications (Page.storage (Session.step validator p e))
  = applicationStorage.getApplications (Page.storage p).
Proof.
  intros Hu Hf He.
  assert (Hload : forall q, Page.user q = Some u ->
            applicationStorage.getApplications (Page.storage (loadData q))
            = applicationStorage.getApplications (Page.storage q)).
  { intros q Hq. now rewrite (loadData_farmer q u Hq Hf). }
  destruct e; cbn [Session.step]; try reflexivity; try congruence.
  - now apply Hload.
  - unfold handleEditJob. destruct (find _ _) as [job | ]; [ | reflexivity].
    destruct (isCompleted _); reflexivity.
  - destruct (handleSaveEdit_shape R validator p)
      as [-> | [[a ->] | [[a ->] | [editingJob [patch ->]]]]]; try reflexivity.
    cbn [Page.storage Page.setEditingJob]. rewrite Hload by exact Hu.
    reflexivity.
  - unfold handleDeleteJob. destruct (find _ _) as [job | ]; [ | reflexivity].
    destruct (isCompleted _); reflexivity.
Qed.

Lemma handleSaveEdit_cases
    (R : Runtime) (validator : WageValidator.t) (p : Page.t) (e : string) :
  Page.editingJob p = Some e ->
  let newWage := parseFloat (EditData.wage (Page.editData p)) in
  let newCount := parseInt (EditData.requiredWorkers (Page.editData p)) in
  Page.storage (handleSaveEdit validator p) = Page.storage p
  \/ (isNaN newWage = false /\ le newWage (ofZ 0) = false
      /\ isNaN newCount = false /\ le newCount (ofZ 0) = false
      /\ lt newCount (ofNat (getAcceptedApplicationsCount p e)) = false
      /\ handleSaveEdit validator p
         = Page.setEditingJob None
             (loadData
                (Page.setStorage
                   (JobStatusManager.checkStatusAfterWorkerAccepted e
                      (jobStorage.updateJob e
                         (Job.mkPatch newWage newCount (EditData.status (Page.editData p)))
                         (Page.storage p)))
                   p))).
Proof.
  intros He newWage newCount. unfold handleSaveEdit. rewrite He.
  fold newWage newCount.
  destruct (negb (truthy e)); [now left | ].
  destruct (find _ (Page.jobs p)) as [job | ]; [ | now left].
  destruct (isCompleted _); [now left | ].
  destruct (isNaN newWage) eqn:Hwn; [now left | ].
  destruct (le newWage (ofZ 0)) eqn:Hwp; [now left | ].
  cbn [orb].
  destruct (_ && strictNe _ _); [now left | ].
  destruct (isNaN newCount) eqn:Hcn; [now left | ].
  destruct (le newCount (ofZ 0)) eqn:Hcp; [now left | ].
  cbn [orb].
  destruct (negb _ && strictNe _ _); [now left | ].
  destruct (lt newCount _) eqn:Hacc; [now left | ].
  destruct (_ && lt _ _); [now left | ].
  right. repeat split; assumption || reflexivity.
Qed.

Lemma filter_map_fixed {A : Type} (keepIt : A -> bool) (f : A -> A) (l : list A) :
  (forall x, In x l -> keepIt (f x) = keepIt x /\ (keepIt x = true -> f x = x)) ->
  filter keepIt (map f l) = filter keepIt l.
Proof.
  induction l as [ | x l IH]; cbn; intros H; [reflexivity | ].
  destruct (H x (or_introl eq_refl)) as [Hk Hf]. rewrite Hk.
  destruct (keepIt x) eqn:E.
  - rewrite (Hf eq_refl). f_equal. apply IH. auto.
  - apply IH. auto.
Qed.

Lemma map_fixed {A : Type} (f : A -> A) (l : list A) :
  (forall x, In x l -> f x = x) -> map f l = l.
Proof.
  induction l as [ | x l IH]; cbn; intros H; [reflexivity | ].
  rewrite (H x (or_introl eq_refl)). f_equal. apply IH. auto.
Qed.

Lemma recompute_id (job : Job.t) : Job.id (JobStatusManager.recompute job) = Job.id job.
Proof. apply (recompute_fields job). Qed.

(** X16.  On a reconciled storage, saving an edit leaves every stored
    job other than the edited one exactly as it was. *)
Theorem handleSaveEdit_touches_only_edited
    (R : Runtime) (validator : WageValidator.t) (p : Page.t) (e : string) :
  Page.editingJob p = Some e ->
  reconciled (Page.storage p) ->
  filter (fun job => negb (Job.id job =? e))
         (jobStorage.getJobs (Page.storage (handleSaveEdit validator p)))
  = filter (fun job => negb (Job.id job =? e)) (jobStorage.getJobs (Page.storage p)).
Proof.
  intros He Hrec.
  destruct (handleSaveEdit_cases R validator p e He) as [-> | (_ & _ & _ & _ & _ & ->)];
    [reflexivity | ].
  cbn [Page.storage Page.setEditingJob]. rewrite loadData_stored_jobs.
  cbn [Page.user Page.storage Page.setStorage].
  unfold JobStatusManager.checkStatusAfterWorkerAccepted, jobStorage.updateJob,
    jobStorage.getJobs.
  cbn [Storage.kheticulture_jobs Storage.setJobs].
  unfold reconciled, jobStorage.getJobs in Hrec. rewrite Forall_forall in Hrec.
  set (patch := Job.mkPatch _ _ _).
  assert (Hone : forall x,
             negb (Job.id (if Job.id (if Job.id x =? e then Job.merge patch x else x) =? e
                           then JobStatusManager.recompute
                                  (if Job.id x =? e then Job.merge patch x else x)
                           else if Job.id x =? e then Job.merge patch x else x) =? e)
             = negb (Job.id x =? e)
             /\ (negb (Job.id x =? e) = true ->
                 (if Job.id (if Job.id x =? e then Job.merge patch x else x) =? e
                  then JobStatusManager.recompute
                         (if Job.id x =? e then Job.merge patch x else x)
                  else if Job.id x =? e then Job.merge patch x else x) = x)).
  { intros x. destruct (Job.id x =? e) eqn:E.
    - change (Job.id (Job.merge patch x)) with (Job.id x). rewrite E.
      rewrite recompute_id. change (Job.id (Job.merge patch x)) with (Job.id x).
      rewrite E. split; [reflexivity | discriminate].
    - rewrite E. rewrite E. auto. }
  destruct (Page.user p).
  - rewrite !map_map. apply filter_map_fixed. intros x Hx.
    destruct (Hone x) as [Hk Hf]. rewrite recompute_id. split; [exact Hk | ].
    intros Hkeep. rewrite (Hf Hkeep). now apply Hrec.
  - rewrite !map_map. apply filter_map_fixed. intros x _. apply Hone.
Qed.


Lemma strictEq_refl (a : number) : isNaN a = false -> strictEq a a = true.
Proof.
  unfold strictEq. destruct a; cbn; try discriminate; try reflexivity.
  intros _. now rewrite (proj1 (Qeq_alt q q) (Qeq_refl q)).
Qed.

Lemma lt_irrefl (a : number) : lt a a = false.
Proof.
  unfold lt. destruct a; cbn; try reflexivity.
  now rewrite (proj1 (Qeq_alt q q) (Qeq_refl q)).
Qed.

Lemma gt_not_nan (a : number) (z : Z) :
  gt a (ofZ z) = true -> isNaN a = false /\ le a (ofZ z) = false.
Proof.
  unfold gt, lt, le. rewrite (compare_antisym (ofZ z) a).
  destruct a; cbn; try discriminate; auto.
  destruct (inject_Z z ?= q)%Q; cbn; try discriminate; auto.
Qed.

(** X18.  Opening the edit form of a listed job and saving it
    as prefilled raises no alert and closes the form; on a reconciled
    storage where the listed job is the stored one, the stored jobs are left
    exactly as they were.  (The wage and the worker count are positive and
    survive printing and parsing, and the worker count is not below the
    accepted applications the page holds.) *)
Theorem edit_form_untouched
    (R : Runtime) (validator : WageValidator.t) (p : Page.t) (e : string)
    (job : Job.t) :
  find (fun j => Job.id j =? e) (Page.jobs p) = Some job ->
  e <> "" ->
  Job.status job <> completed ->
  parseFloat (numberToString (Job.wage job)) = Job.wage job ->
  parseInt (numberToString (Job.requiredWorkers job)) = Job.requiredWorkers job ->
  gt (Job.wage job) (ofZ 0) = true ->
  gt (Job.requiredWorkers job) (ofZ 0) = true ->
  lt (Job.requiredWorkers job) (ofNat (getAcceptedApplicationsCount p e)) = false ->
  let saved := handleSaveEdit validator (handleEditJob e p) in
  Page.alerts saved = Page.alerts p
  /\ Page.editingJob saved = None
  /\ (reconciled (Page.storage p) ->
      (forall j, In j (jobStorage.getJobs (Page.storage p)) -> Job.id j = e -> j = job) ->
      jobStorage.getJobs (Page.storage saved) = jobStorage.getJobs (Page.storage p)).
Proof.
  intros Hfind Hid Hst Hpw Hpc Hw Hc Hacc saved.
  assert (Hc0 : isCompleted (Job.status job) = false)
    by (destruct (Job.status job); congruence || reflexivity).
  assert (Hopen : handleEditJob e p
                  = Page.setEditingJob (Some e)
                      (Page.setEditData
                         (EditData.mk (numberToString (Job.wage job))
                                      (numberToString (Job.requiredWorkers job))
                                      (Job.status job)) p)).
  { unfold handleEditJob. now rewrite Hfind, Hc0. }
  destruct (gt_not_nan _ _ Hw) as [Hwn Hwp].
  destruct (gt_not_nan _ _ Hc) as [Hcn Hcp].
  assert (Hsaved : saved
            = Page.setEditingJob None
                (loadData
                   (Page.setStorage
                      (JobStatusManager.checkStatusAfterWorkerAccepted e
                         (jobStorage.updateJob e
                            (Job.mkPatch (Job.wage job) (Job.requiredWorkers job)
                                         (Job.status job))
                            (Page.storage p)))
                      (handleEditJob e p)))).
  { unfold saved. rewrite Hopen. unfold handleSaveEdit.
    cbn [Page.editingJob Page.setEditingJob Page.setEditData Page.jobs Page.editData
         EditData.wage EditData.requiredWorkers EditData.status Page.storage].
    rewrite (truthy_nonempty _ Hid), Hfind, Hc0, Hpw, Hpc. cbn [negb].
    unfold strictNe. rewrite (strictEq_refl _ Hwn), Hwn, Hwp, Hcn, Hcp.
    cbn [negb orb]. rewrite !andb_false_r.
    change (getAcceptedApplicationsCount
              (Page.setEditingJob (Some e) (Page.setEditData _ p)) e)
      with (getAcceptedApplicationsCount p e).
    rewrite Hacc, lt_irrefl, andb_false_r. reflexivity. }
  split; [ | split].
  - rewrite Hsaved. cbn [Page.alerts Page.setEditingJob].
    rewrite loadData_alerts, Hopen. reflexivity.
  - now rewrite Hsaved.
  - intros Hrec Huniq. rewrite Hsaved.
    cbn [Page.storage Page.setEditingJob]. rewrite loadData_stored_jobs.
    cbn [Page.user Page.storage Page.setStorage].
    unfold JobStatusManager.checkStatusAfterWorkerAccepted, jobStorage.updateJob,
      jobStorage.getJobs in *.
    cbn [Storage.kheticulture_jobs Storage.setJobs].
    unfold reconciled, jobStorage.getJobs in Hrec. rewrite Forall_forall in Hrec.
    set (patch := Job.mkPatch _ _ _).
    assert (Hfix : forall x, In x (Storage.kheticulture_jobs (Page.storage p)) ->
               (if Job.id (if Job.id x =? e then Job.merge patch x else x) =? e
                then JobStatusManager.recompute
                       (if Job.id x =? e then Job.merge patch x else x)
                else if Job.id x =? e then Job.merge patch x else x) = x).
    { intros x Hx. destruct (Job.id x =? e) eqn:E.
      - change (Job.id (Job.merge patch x)) with (Job.id x). rewrite E.
        apply String.eqb_eq in E. rewrite (Huniq x Hx E).
        assert (Em : Job.merge patch job = job) by (destruct job; reflexivity).
        rewrite Em. apply Hrec. now rewrite <- (Huniq x Hx E).
      - now rewrite E. }
    rewrite Hopen. cbn [Page.user Page.setEditingJob Page.setEditData].
    destruct (Page.user p); rewrite !map_map; apply map_fixed; intros x Hx;
      cbv beta; rewrite (Hfix x Hx); [now apply Hrec | reflexivity].
Qed.

(** ** The lists a page shows *)

(** X19.  The four status counters above a farmer's list add up to
    the number of jobs listed. *)
Theorem statusCount_total (p : Page.t) :
  (statusCount open p + statusCount filled p + statusCount in_progress p
   + statusCount completed p)%nat
  = List.length (Page.jobs p).
Proof.
  unfold statusCount. induction (Page.jobs p) as [ | job js IH]; [reflexivity | ].
  cbn [filter List.length]. destruct (Job.status job); cbn [sameStatus List.length]; lia.
Qed.

(** X20.  For every job the accepted applications the page counts
    are among the applications it counts for that job: the accepted count
    never exceeds the application count and is 0 when there is none, so the
    note "Minimum n workers (already accepted)" of the edit form is never
    shown. *)
Theorem accepted_within_applications (p : Page.t) (jobId : string) :
  (getAcceptedApplicationsCount p jobId <= List.length (getJobApplications p jobId))%nat
  /\ (hasApplications p jobId = false -> getAcceptedApplicationsCount p jobId = 0%nat)
  /\ (forall job n, workersNote p job <> MinimumAccepted n).
Proof.
  assert (H : forall id,
             (getAcceptedApplicationsCount p id
              <= List.length (getJobApplications p id))%nat).
  { intros id. unfold getAcceptedApplicationsCount, getJobApplications.
    induction (Page.applications p) as [ | app apps IH]; cbn [filter]; [lia | ].
    destruct (Application.jobId app =? id); cbn [andb].
    - destruct (isAccepted _); cbn [List.length]; lia.
    - exact IH. }
  split; [apply H | ].
  split.
  - unfold hasApplications. intros H0. apply Nat.ltb_ge in H0.
    specialize (H jobId). lia.
  - intros job n. unfold workersNote.
    destruct (Nat.ltb_spec 0 (List.length (getJobApplications p (Job.id job))))
      as [H0 | H0]; [discriminate | ].
    specialize (H (Job.id job)).
    destruct (Nat.ltb_spec 0 (getAcceptedApplicationsCount p (Job.id job)));
      [lia | discriminate].
Qed.

(** ** The cooldown, continued *)

Lemma le_Num (x y : Q) : le (Num x) (Num y) = true <-> x <= y.
Proof.
  unfold le, compare. rewrite Qle_alt.
  destruct (x ?= y)%Q; split; intros H; congruence.
Qed.

(** The test of [canReapply] and the test of [getTimeUntilReapply] agree:
    24 hours have passed exactly when no hour is left. *)
Lemma hours_passed_or_left (hoursPassed : number) :
  ge hoursPassed (ofZ 24) = le (ceil (sub (ofZ 24) hoursPassed)) (ofZ 0).
Proof.
  destruct hoursPassed as [ | | | x]; try reflexivity.
  unfold ge, ofZ. cbn [sub ceil]. unfold ofZ.
  apply eq_true_iff_eq. rewrite !le_Num. split; intros H.
  - rewrite <- Zle_Qle. change 0%Z with (Qceiling (inject_Z 0)).
    apply Qceiling_resp_le.
    change (inject_Z 24) with 24 in *. change (inject_Z 0) with 0. lra.
  - pose proof (Qle_ceiling (inject_Z 24 - x)) as Hc.
    change (inject_Z 24) with 24 in *. change (inject_Z 0) with 0 in *. lra.
Qed.

Lemma hours_passed_monotone (t : number) (now later : Z) :
  (now <= later)%Z ->
  ge (divLit (sub (ofZ now) t) (1000 * 60 * 60)) (ofZ 24) = true ->
  ge (divLit (sub (ofZ later) t) (1000 * 60 * 60)) (ofZ 24) = true.
Proof.
  intros Hle. destruct t as [ | | | q]; cbn [sub divLit ofZ]; try (intros H; exact H).
  unfold ge, ofZ. rewrite !le_Num. intros H.
  rewrite Zle_Qle in Hle. change (inject_Z 24) with 24 in *.
  set (a := inject_Z now) in *. set (b := inject_Z later) in *.
  assert (Hdiv : (a - q) / (1000 * 60 * 60) <= (b - q) / (1000 * 60 * 60)).
  { unfold Qdiv. apply Qmult_le_compat_r; [lra | ]. discriminate. }
  lra.
Qed.

(** X21.  Once [canReapply] says yes for a job it says yes at every
    later time. *)
Theorem canReapply_monotone
    (R : Runtime) (p : Page.t) (now later : Z) (jobId : string) :
  (now <= later)%Z ->
  canReapply p now jobId = true -> canReapply p later jobId = true.
Proof.
  intros Hle. unfold canReapply.
  destruct (find _ (Page.applications p)) as [app | ]; [ | discriminate].
  destruct (Application.rejectedAt app) as [r | ]; [ | discriminate].
  destruct (negb _ || negb _); [discriminate | ].
  now apply hours_passed_monotone.
Qed.

(** X22.  For a rejected application that carries a [rejectedAt],
    [canReapply] says yes exactly when [getTimeUntilReapply] is empty: the
    page shows the time left or the invitation to reapply, never both and
    never neither. *)
Theorem canReapply_iff_no_time_left
    (R : Runtime) (p : Page.t) (now : Z) (jobId : string)
    (application : Application.t) (rejectedAt : string) :
  find (fun app => Application.jobId app =? jobId) (Page.applications p)
  = Some application ->
  Application.status application = rejected ->
  Application.rejectedAt application = Some rejectedAt ->
  rejectedAt <> "" ->
  (canReapply p now jobId = true <-> getTimeUntilReapply p now jobId = "")
  /\ showsTimeLeft p now jobId = negb (showsReapplyNow p now jobId).
Proof.
  intros Hfind Hst Hat Hne. split.
  - unfold canReapply, getTimeUntilReapply.
    rewrite Hfind, Hat, Hst, (truthy_nonempty _ Hne). cbn [isRejected negb orb].
    rewrite hours_passed_or_left.
    destruct (le _ (ofZ 0)); split; intros H; try reflexivity; discriminate.
  - unfold showsTimeLeft, showsReapplyNow, getApplicationStatus.
    rewrite Hfind, Hst. cbn [isRejected andb]. reflexivity.
Qed.

(** X23.  A rejected application without [rejectedAt] can never be
    reapplied for and gets an empty time-left text; one whose [rejectedAt]
    is not a date can never be reapplied for either, and its text is the
    sentence with the printed NaN in it. *)
Theorem canReapply_without_date
    (R : Runtime) (p : Page.t) (now : Z) (jobId : string)
    (application : Application.t) :
  find (fun app => Application.jobId app =? jobId) (Page.applications p)
  = Some application ->
  Application.status application = rejected ->
  (Application.rejectedAt application = None
   \/ Application.rejectedAt application = Some "" ->
   canReapply p now jobId = false /\ getTimeUntilReapply p now jobId = "")
  /\ (forall rejectedAt,
        Application.rejectedAt application = Some rejectedAt ->
        rejectedAt <> "" -> dateGetTime rejectedAt = NaN ->
        canReapply p now jobId = false
        /\ getTimeUntilReapply p now jobId
           = "Can reapply in " ++ numberToString NaN ++ " hours").
Proof.
  intros Hfind Hst. unfold canReapply, getTimeUntilReapply. rewrite Hfind, Hst.
  split.
  - intros [-> | ->]; auto.
  - intros r -> Hne Hnan. rewrite (truthy_nonempty _ Hne), Hnan. auto.
Qed.

(** ** Deleting, continued *)

Lemma filter_swap {A : Type} (f g : A -> bool) (l : list A) :
  filter f (filter g l) = filter g (filter f l).
Proof.
  induction l as [ | x l IH]; cbn; [reflexivity | ].
  destruct (f x) eqn:Ef, (g x) eqn:Eg; cbn; rewrite ?Ef, ?Eg, IH; reflexivity.
Qed.

Lemma filter_twice {A : Type} (f : A -> bool) (l : list A) :
  filter f (filter f l) = filter f l.
Proof.
  apply filter_all. intros x Hx. now apply filter_In in Hx.
Qed.

(** X24.  Deleting two jobs from the storage gives the same
    storage in either order, deleting a job a second time changes nothing,
    and so does deleting an id that no stored job carries and no stored
    application references. *)
Theorem deleteFromStorage_commutes (a b : string) (s : Storage.t) :
  deleteFromStorage a (deleteFromStorage b s) = deleteFromStorage b (deleteFromStorage a s)
  /\ deleteFromStorage a (deleteFromStorage a s) = deleteFromStorage a s
  /\ ((forall job, In job (jobStorage.getJobs s) -> Job.id job <> a) ->
      (forall app, In app (applicationStorage.getApplications s) ->
                   Application.jobId app <> a) ->
      deleteFromStorage a s = s).
Proof.
  destruct s as [js apps].
  unfold deleteFromStorage, jobStorage.getJobs, applicationStorage.getApplications,
    Storage.setJobs, Storage.setApplications.
  cbn [Storage.kheticulture_jobs Storage.kheticulture_applications].
  split; [ | split].
  - f_equal; apply filter_swap.
  - f_equal; apply filter_twice.
  - intros Hj Ha. f_equal; apply filter_all; intros x Hx;
      apply negb_true_iff, String.eqb_neq; auto.
Qed.

Lemma loadData_stored_applications (p : Page.t) (app : Application.t) :
  In app (applicationStorage.getApplications (Page.storage (loadData p))) ->
  In app (applicationStorage.getApplications (Page.storage p)).
Proof.
  destruct (Page.user p) as [u | ] eqn:Hu.
  - destruct (User.userType u) eqn:Hw.
    + now rewrite (loadData_farmer p u Hu Hw).
    + rewrite (loadData_worker p u Hu Hw).
      cbn [Page.storage applicationStorage.getApplications
           Storage.kheticulture_applications].
      destruct (Nat.eqb _ _); [auto | ].
      rewrite in_app_iff. intros [H | H].
      * unfold othersApplications in H. now apply filter_In in H.
      * unfold liveApplications, ownApplications in H.
        apply filter_In in H as [H _]. now apply filter_In in H.
  - unfold loadData. now rewrite Hu.
Qed.

Lemma loadData_listed_jobs (p : Page.t) (u : User.t) (job : Job.t) :
  Page.user p = Some u ->
  In job (Page.jobs (loadData p)) ->
  In job (map JobStatusManager.recompute (jobStorage.getJobs (Page.storage p))).
Proof.
  intros Hu. destruct (User.userType u) eqn:Hw.
  - rewrite (loadData_farmer p u Hu Hw). cbn. intros H. now apply filter_In in H.
  - rewrite (loadData_worker p u Hu Hw). cbn [Page.jobs]. unfold appliedJobs.
    intros H. now apply filter_In in H.
Qed.

(** X25.  Unless the page lists the job as completed (so also for
    an id the page does not list at all), asking for the deletion and
    confirming it closes the confirmation without an alert and leaves no
    stored job with that id, no stored application for it, and, for a
    signed-in user, no such job on the page. *)
Theorem delete_flow
    (p : Page.t) (jobId : string) :
  jobId <> "" ->
  (forall job, find (fun j => Job.id j =? jobId) (Page.jobs p) = Some job ->
               Job.status job <> completed) ->
  let deleted := confirmDeleteJob (handleDeleteJob jobId p) in
  Page.showDeleteConfirm deleted = None
  /\ Page.alerts deleted = Page.alerts p
  /\ (forall job, In job (jobStorage.getJobs (Page.storage deleted)) ->
                  Job.id job <> jobId)
  /\ (forall app, In app (applicationStorage.getApplications (Page.storage deleted)) ->
                  Application.jobId app <> jobId)
  /\ (forall u job, Page.user p = Some u -> In job (Page.jobs deleted) ->
                    Job.id job <> jobId).
Proof.
  intros Hid Hlisted deleted.
  assert (Harmed : handleDeleteJob jobId p = Page.setShowDeleteConfirm (Some jobId) p).
  { unfold handleDeleteJob.
    destruct (find _ (Page.jobs p)) as [job | ] eqn:Hfind; [ | reflexivity].
    specialize (Hlisted job eq_refl).
    destruct (Job.status job); congruence || reflexivity. }
  set (q := Page.setShowDeleteConfirm None
              (Page.setStorage (deleteFromStorage jobId (Page.storage p)) p)).
  assert (Hdel : deleted = loadData q).
  { unfold deleted. rewrite Harmed. unfold confirmDeleteJob.
    cbn [Page.showDeleteConfirm Page.setShowDeleteConfirm].
    rewrite (truthy_nonempty _ Hid). reflexivity. }
  assert (Hjobs : forall job, In job (jobStorage.getJobs (Page.storage q)) ->
                              Job.id job <> jobId).
  { intros job. unfold q, deleteFromStorage, jobStorage.getJobs. cbn.
    rewrite filter_In, negb_true_iff, String.eqb_neq. tauto. }
  assert (Hrecomputed : forall job,
             In job (map JobStatusManager.recompute (jobStorage.getJobs (Page.storage q))) ->
             Job.id job <> jobId).
  { intros job Hin. apply in_map_iff in Hin as (j0 & <- & Hj0).
    rewrite recompute_id. now apply Hjobs. }
  rewrite Hdel. repeat split.
  - destruct (Page.user q) as [u | ] eqn:Hu.
    + destruct (User.userType u) eqn:Hw.
      * now rewrite (loadData_farmer q u Hu Hw).
      * now rewrite (loadData_worker q u Hu Hw).
    + unfold loadData. now rewrite Hu.
  - now rewrite loadData_alerts.
  - intros job. rewrite loadData_stored_jobs.
    destruct (Page.user q); [apply Hrecomputed | apply Hjobs].
  - intros app Hin. apply loadData_stored_applications in Hin.
    unfold q, deleteFromStorage, applicationStorage.getApplications in Hin.
    cbn in Hin. apply filter_In in Hin as [_ Hin].
    now apply negb_true_iff, String.eqb_neq in Hin.
  - intros u job Hu Hin. apply Hrecomputed.
    now apply (loadData_listed_jobs q u job Hu).
Qed.

(** ** From posting to the list *)

Lemma saveJob_stores (job : Job.t) (s : Storage.t) :
  In job (jobStorage.getJobs (jobStorage.saveJob job s)).
Proof.
  unfold jobStorage.saveJob.
  destruct (existsb _ (jobStorage.getJobs s)) eqn:E.
  - apply existsb_exists in E as (j & Hj & Hid).
    unfold jobStorage.getJobs, Storage.setJobs in *. cbn.
    apply in_map_iff. exists j. now rewrite Hid.
  - unfold jobStorage.getJobs, Storage.setJobs. cbn.
    apply in_or_app. right. now left.
Qed.

(** X26.  A job that [PostJobPage] has just posted with a wage, a duration
    and a worker count that are finite numbers (the ones the JSON store
    gives back as written) is on its owner's [MyJobsPage] at the next load,
    exactly as it was posted. *)
Theorem posted_job_is_listed
    (R : Runtime) (u : User.t) (formData : PostJobPage.FormData.t)
    (nowMs : Z) (nowIso : string) (s s' : Storage.t) (job : Job.t) :
  PostJobPage.handleSubmit (Some u) formData nowMs nowIso s
  = (s', PostJobPage.Posted job) ->
  keptByJSON (Job.wage job) = true ->
  keptByJSON (Job.duration job) = true ->
  keptByJSON (Job.requiredWorkers job) = true ->
  In job (Page.jobs (loadData (Page.mount (Some u) s')))
  /\ gt (Job.wage job) (ofZ 0) = true
  /\ gt (Job.duration job) (ofZ 0) = true
  /\ gt (Job.requiredWorkers job) (ofZ 0) = true.
Proof.
  intros Hposted Hwage Hduration Hworkers.
  assert (Hpos : forall a, keptByJSON a = true -> le a (ofZ 0) = false ->
                           gt a (ofZ 0) = true).
  { intros a Ha Hle. apply not_le_lt; [now destruct a | exact Hle]. }
  revert Hposted Hwage Hduration Hworkers.
  unfold PostJobPage.handleSubmit.
  destruct (User.userType u) eqn:Hf; [ | discriminate].
  destruct (negb _ || negb _ || negb _); [discriminate | ].
  destruct (negb _ || le (parseFloat (PostJobPage.FormData.wage formData)) _)
    eqn:Hpay; [discriminate | ].
  destruct (gt _ _); [discriminate | ].
  destruct (negb _ || le (parseInt (PostJobPage.FormData.duration formData)) _)
    eqn:Hlong; [discriminate | ].
  destruct (negb _ || le (parseInt (PostJobPage.FormData.requiredWorkers formData)) _)
    eqn:Hcount; [discriminate | ].
  apply orb_false_iff in Hpay as [_ Hpay].
  apply orb_false_iff in Hlong as [_ Hlong].
  apply orb_false_iff in Hcount as [_ Hcount].
  intros [= <- <-].
  set (job := Job.mk _ _ _ _ _ _ _ _ _ _ _ _ _ _).
  cbn [job Job.wage Job.duration Job.requiredWorkers].
  intros Hwage Hduration Hworkers.
  split; [ | repeat split; apply Hpos; assumption].
  rewrite (loadData_farmer (Page.mount (Some u) (jobStorage.saveJob job s)) u eq_refl Hf).
  cbn [Page.jobs Page.setJobs Page.storage Page.mount snd
       JobStatusManager.updateAllJobStatuses].
  apply filter_In. split.
  - assert (Hfix : JobStatusManager.recompute job = job).
    { unfold JobStatusManager.recompute, job. cbn [Job.status].
      unfold Job.acceptedCount, ge. cbn [Job.acceptedWorkerIds Job.requiredWorkers List.length].
      change (ofNat 0) with (ofZ 0). rewrite Hcount. reflexivity. }
    apply in_map_iff. exists job. split; [exact Hfix | apply saveJob_stores].
  - unfold job. cbn [Job.farmerId]. apply String.eqb_refl.
Qed.

(** ** The password field *)

Lemma count_false_app (a b : list bool) :
  List.length (filter negb (a ++ b)) = (List.length (filter negb a) + List.length (filter negb b))%nat.
Proof. now rewrite filter_app, length_app. Qed.

(** X27.  The five lights under the password field are all green exactly
    when [validatePassword] accepts the password, and the messages it
    collects are as many as the lights that are not green. *)
Theorem passwordChecklist_agrees (password : string) :
  forallb (fun light => light) (AuthPage.passwordChecklist password)
  = AuthPage.isValid (AuthPage.validatePassword password)
  /\ List.length (AuthPage.errors (AuthPage.validatePassword password))
     = List.length (filter negb (AuthPage.passwordChecklist password)).
Proof.
  unfold AuthPage.passwordChecklist, AuthPage.validatePassword.
  cbn [AuthPage.isValid AuthPage.errors forallb filter].
  replace (Nat.leb 8 (String.length password))
    with (negb (Nat.ltb (String.length password) 8))
    by (destruct (Nat.ltb_spec (String.length password) 8);
        destruct (Nat.leb_spec 8 (String.length password)); cbn; try reflexivity; lia).
  destruct (Nat.ltb (String.length password) 8),
           (Text.test Text.isUpper password), (Text.test Text.isLower password),
           (Text.test Text.isDigit password), (Text.test AuthPage.isSpecial password);
    split; reflexivity.
Qed.

Lemma validatePassword_empty :
  AuthPage.validatePassword ""
  = AuthPage.mkValidation false
      ["At least 8 characters"; "One uppercase letter"; "One lowercase letter";
       "One number"; "One special character (!@#$%^&*...)"].
Proof. reflexivity. Qed.

(** X28.  On a sign-up form whose name and contact number are filled in, the
    hint [handlePasswordChange] puts under a password that is not empty is
    there exactly when [handleSubmit] would refuse the form for its
    password, and both list the same requirements; an emptied password
    field gets no hint, yet the form is refused for all five. *)
Theorem passwordError_predicts_refusal
    (R : Runtime) (C : Calendar) (formData : AuthPage.FormData.t) (today : Date.t)
    (newPassword : string) :
  truthy (trim (AuthPage.FormData.name formData)) = true ->
  truthy (trim (AuthPage.FormData.contactNumber formData)) = true ->
  let typed := AuthPage.handlePasswordChange false newPassword formData in
  let missing := String.concat ", " (AuthPage.errors (AuthPage.validatePassword newPassword)) in
  let refusal := AuthPage.Refused ("Password requirements not met: " ++ missing) in
  (newPassword <> "" ->
   (snd typed = "Password must contain: " ++ missing
    /\ AuthPage.submission false (fst typed) today = refusal)
   \/ (snd typed = ""
       /\ forall tail,
            AuthPage.submission false (fst typed) today
            <> AuthPage.Refused ("Password requirements not met: " ++ tail)))
  /\ (newPassword = "" ->
      snd typed = "" /\ AuthPage.submission false (fst typed) today = refusal).
Proof.
  intros Hn Hc typed missing refusal. subst typed missing refusal.
  unfold AuthPage.handlePasswordChange. cbn [negb andb]. split.
  - intros Hp. rewrite (truthy_nonempty _ Hp).
    destruct (AuthPage.isValid (AuthPage.validatePassword newPassword)) eqn:Hv;
      cbn [negb fst snd]; unfold AuthPage.submission;
      cbn [AuthPage.FormData.name AuthPage.FormData.contactNumber
           AuthPage.FormData.password AuthPage.FormData.userType
           AuthPage.FormData.location AuthPage.FormData.dateOfBirth
           AuthPage.FormData.email];
      rewrite Hn, Hc, Hv; cbn [negb].
    + right. split; [reflexivity | ]. intros tail.
      destruct (AuthPage.FormData.userType formData); [discriminate | ].
      repeat match goal with
             | |- context [if ?c then _ else _] => destruct c
             end; discriminate.
    + left. split; reflexivity.
  - intros ->. cbn [truthy fst snd]. split; [reflexivity | ].
    unfold AuthPage.submission.
    cbn [AuthPage.FormData.name AuthPage.FormData.contactNumber
         AuthPage.FormData.password].
    rewrite Hn, Hc, validatePassword_empty. reflexivity.
Qed.

(** ** The notes of the edit form *)

Lemma find_id (jobs : list Job.t) (e : string) (job : Job.t) :
  find (fun j => Job.id j =? e) jobs = Some job -> Job.id job = e.
Proof.
  intros H. apply find_some in H. now apply String.eqb_eq.
Qed.

Lemma cons_neq {A : Type} (a : A) (l : list A) : a :: l <> l.
Proof.
  intros H. apply (f_equal (@List.length A)) in H. cbn in H. lia.
Qed.

(** Being at least the greater of a count and a number is being below
    neither. *)
Lemma ge_max (n b : number) (a : nat) :
  isNaN n = false -> isNaN b = false ->
  ge n (Math.max (ofNat a) b) = negb (lt n (ofNat a)) && negb (lt n b).
Proof.
  unfold ge, le, lt, Math.max, ofNat, ofZ.
  generalize (inject_Z (Z.of_nat a)) as q. intros q.
  destruct n as [ | | | x], b as [ | | | y]; try discriminate; intros _ _;
    cbn [compare lt]; try reflexivity;
    repeat match goal with
           | |- context [(?u ?= ?v)%Q] => destruct (Qcompare_spec u v)
           end;
    cbn [compare negb andb]; try reflexivity;
    repeat match goal with
           | |- context [(?u ?= ?v)%Q] => destruct (Qcompare_spec u v)
           end;
    try reflexivity; exfalso; lra.
Qed.


(** X30.  In a farmer's session, whatever the storage holds and whatever the
    farmer does, the wage field of the edit form is never disabled and no
    note on a minimum appears under the worker count. *)
Theorem farmer_session_shows_no_lock
    (R : Runtime) (validator : WageValidator.t) (u : User.t) (s : Storage.t)
    (es : list Session.event) (job : Job.t) :
  User.userType u = farmer ->
  wageDisabled (Session.visit validator u s es) job = false
  /\ workersNote (Session.visit validator u s es) job = NoNote.
Proof.
  intros Hf.
  pose proof (farmer_session_holds_no_applications R validator u s es Hf) as Ha.
  unfold wageDisabled, workersNote, getJobApplications, getAcceptedApplicationsCount.
  rewrite Ha. split; reflexivity.
Qed.

(** ** Instances, continued *)

#[local] Existing Instance Host.calendar.

Lemma formatDisplayContactNumber_agrees_witness :
  String.length "9841234567" = 10%nat
  /\ Text.test (fun c => negb (Text.isDigit c)) "9841234567" = false
  /\ formatDisplayContactNumber "9841234567" = AuthPage.formatContactNumber "9841234567".
Proof.
  assert (H1 : String.length "9841234567" = 10%nat) by reflexivity.
  assert (H2 : Text.test (fun c => negb (Text.isDigit c)) "9841234567" = false)
    by reflexivity.
  split; [exact H1 | split; [exact H2 | ]].
  exact (proj1 (formatDisplayContactNumber_agrees "9841234567" H1 H2)).
Defined.

Lemma validatePassword_extends_witness :
  AuthPage.isValid (AuthPage.validatePassword "Abcdef1!") = true
  /\ AuthPage.isValid (AuthPage.validatePassword ("my" ++ "Abcdef1!" ++ "word")) = true.
Proof.
  assert (H : AuthPage.isValid (AuthPage.validatePassword "Abcdef1!") = true)
    by reflexivity.
  split; [exact H | ].
  exact (validatePassword_extends "my" "Abcdef1!" "word" H).
Defined.

Lemma signup_only_after_validation_witness :
  AuthPage.submission false Scenario.workerForm Scenario.signupDay
  = AuthPage.Signup "Hari" "hari@example.org" "Abcdef1!" "984-123-4567" worker
                    (Some "Bharatpur") (Some "2000-01-15")
  /\ AuthPage.isValid (AuthPage.validatePassword "Abcdef1!") = true
  /\ (isNaN (AuthPage.calculateAge Scenario.signupDay "2000-01-15") = true
      \/ ge (AuthPage.calculateAge Scenario.signupDay "2000-01-15") (ofZ 16) = true).
Proof.
  assert (H : AuthPage.submission false Scenario.workerForm Scenario.signupDay
              = AuthPage.Signup "Hari" "hari@example.org" "Abcdef1!" "984-123-4567"
                                worker (Some "Bharatpur") (Some "2000-01-15"))
    by reflexivity.
  destruct (signup_only_after_validation Host.runtime Host.calendar false
              Scenario.workerForm Scenario.signupDay _ _ _ _ _ _ _ H)
    as (_ & _ & _ & _ & _ & _ & _ & _ & Hpw & _ & _ & _ & _ & Hage).
  split; [exact H | split; [exact Hpw | exact Hage]].
Defined.

Lemma signup_with_undated_birth_witness :
  dateOf "soon" = Date.Invalid
  /\ AuthPage.submission false Scenario.undatedForm Scenario.signupDay
     = AuthPage.Signup "Hari" "hari@example.org" "Abcdef1!" "984-123-4567" worker
                       (Some "Bharatpur") (Some "soon").
Proof.
  assert (Hb : dateOf "soon" = Date.Invalid) by reflexivity.
  split; [exact Hb | ].
  exact (signup_with_undated_birth Host.runtime Host.calendar Scenario.undatedForm
           Scenario.signupDay eq_refl eq_refl eq_refl eq_refl eq_refl
           (fun E : "soon" = "" => eq_ind "soon"
              (fun s => match s with EmptyString => False | String _ _ => True end)
              I "" E)
           Hb).
Defined.

Lemma handleSubmit_posted_fields_witness :
  PostJobPage.handleSubmit (Some Scenario.owner) Scenario.passingForm
    1747728000000 "2025-05-20T08:00:00.000Z" Scenario.storeA
  = (jobStorage.saveJob Scenario.weeding Scenario.storeA,
     PostJobPage.Posted Scenario.weeding)
  /\ Job.status Scenario.weeding = open
  /\ Job.acceptedWorkerIds Scenario.weeding = Some [].
Proof.
  assert (H : PostJobPage.handleSubmit (Some Scenario.owner) Scenario.passingForm
                1747728000000 "2025-05-20T08:00:00.000Z" Scenario.storeA
              = (jobStorage.saveJob Scenario.weeding Scenario.storeA,
                 PostJobPage.Posted Scenario.weeding)) by reflexivity.
  destruct (handleSubmit_posted_fields Host.runtime _ _ _ _ _ _ _ H) as (Hs & Ha & _).
  split; [exact H | split; [exact Hs | exact Ha]].
Defined.

Lemma posted_job_is_listed_witness :
  PostJobPage.handleSubmit (Some Scenario.owner) Scenario.passingForm
    1747728000000 "2025-05-20T08:00:00.000Z" Scenario.storeA
  = (jobStorage.saveJob Scenario.weeding Scenario.storeA,
     PostJobPage.Posted Scenario.weeding)
  /\ keptByJSON (Job.wage Scenario.weeding) = true
  /\ keptByJSON (Job.duration Scenario.weeding) = true
  /\ keptByJSON (Job.requiredWorkers Scenario.weeding) = true
  /\ In Scenario.weeding
        (Page.jobs (loadData (Page.mount (Some Scenario.owner)
                                (jobStorage.saveJob Scenario.weeding Scenario.storeA)))).
Proof.
  assert (H : PostJobPage.handleSubmit (Some Scenario.owner) Scenario.passingForm
                1747728000000 "2025-05-20T08:00:00.000Z" Scenario.storeA
              = (jobStorage.saveJob Scenario.weeding Scenario.storeA,
                 PostJobPage.Posted Scenario.weeding)) by reflexivity.
  assert (H1 : keptByJSON (Job.wage Scenario.weeding) = true) by reflexivity.
  assert (H2 : keptByJSON (Job.duration Scenario.weeding) = true) by reflexivity.
  assert (H3 : keptByJSON (Job.requiredWorkers Scenario.weeding) = true) by reflexivity.
  split; [exact H | split; [exact H1 | split; [exact H2 | split; [exact H3 | ]]]].
  exact (proj1 (posted_job_is_listed Host.runtime _ _ _ _ _ _ _ H H1 H2 H3)).
Defined.

Lemma loadData_worker_cleanup_witness :
  let p := Page.mount (Some Scenario.applicant) Scenario.storeLeftovers in
  Page.user p = Some Scenario.applicant
  /\ User.userType Scenario.applicant = worker
  /\ othersApplications Scenario.applicant
       (applicationStorage.getApplications (Page.storage (loadData p)))
     = othersApplications Scenario.applicant
         (applicationStorage.getApplications (Page.storage p)).
Proof.
  intros p.
  assert (H1 : Page.user p = Some Scenario.applicant) by reflexivity.
  assert (H2 : User.userType Scenario.applicant = worker) by reflexivity.
  split; [exact H1 | split; [exact H2 | ]].
  exact (proj2 (loadData_worker_cleanup p Scenario.applicant H1 H2)).
Defined.

Lemma loadData_worker_page_witness :
  let p := Page.mount (Some Scenario.applicant) Scenario.storeLeftovers in
  Page.user p = Some Scenario.applicant
  /\ User.userType Scenario.applicant = worker
  /\ (forall job,
        In job (Page.jobs (loadData p)) ->
        exists app, In app (Page.applications (loadData p))
                    /\ Application.jobId app = Job.id job).
Proof.
  intros p.
  assert (H1 : Page.user p = Some Scenario.applicant) by reflexivity.
  assert (H2 : User.userType Scenario.applicant = worker) by reflexivity.
  split; [exact H1 | split; [exact H2 | ]].
  exact (proj2 (loadData_worker_page p Scenario.applicant H1 H2)).
Defined.

Lemma step_keeps_stored_jobs_witness :
  Session.Save <> Session.ConfirmDelete
  /\ map keptFields
         (jobStorage.getJobs
            (Page.storage (Session.step WageValidator.fromSpec
                             Scenario.ownerTypesWage Session.Save)))
     = map keptFields (jobStorage.getJobs (Page.storage Scenario.ownerTypesWage)).
Proof.
  assert (H : Session.Save <> Session.ConfirmDelete) by discriminate.
  split; [exact H | ].
  exact (step_keeps_stored_jobs Host.runtime WageValidator.fromSpec
           Scenario.ownerTypesWage Session.Save H).
Defined.

Lemma step_farmer_keeps_applications_witness :
  Page.user Scenario.ownerTypesWage = Some Scenario.owner
  /\ User.userType Scenario.owner = farmer
  /\ Session.Save <> Session.ConfirmDelete
  /\ applicationStorage.getApplications
       (Page.storage (Session.step WageValidator.fromSpec
                        Scenario.ownerTypesWage Session.Save))
     = applicationStorage.getApplications (Page.storage Scenario.ownerTypesWage).
Proof.
  assert (H1 : Page.user Scenario.ownerTypesWage = Some Scenario.owner) by reflexivity.
  assert (H2 : User.userType Scenario.owner = farmer) by reflexivity.
  assert (H3 : Session.Save <> Session.ConfirmDelete) by discriminate.
  split; [exact H1 | split; [exact H2 | split; [exact H3 | ]]].
  exact (step_farmer_keeps_applications Host.runtime WageValidator.fromSpec
           Scenario.owner Scenario.ownerTypesWage Session.Save H1 H2 H3).
Defined.

Lemma handleSaveEdit_touches_only_edited_witness :
  Page.editingJob Scenario.ownerTypesWage = Some "J1"
  /\ reconciled (Page.storage Scenario.ownerTypesWage)
  /\ filter (fun job => negb (Job.id job =? "J1"))
            (jobStorage.getJobs
               (Page.storage (handleSaveEdit WageValidator.fromSpec
                                Scenario.ownerTypesWage)))
     = filter (fun job => negb (Job.id job =? "J1"))
              (jobStorage.getJobs (Page.storage Scenario.ownerTypesWage)).
Proof.
  assert (H1 : Page.editingJob Scenario.ownerTypesWage = Some "J1") by reflexivity.
  assert (H2 : reconciled (Page.storage Scenario.ownerTypesWage))
    by (repeat constructor).
  split; [exact H1 | split; [exact H2 | ]].
  exact (handleSaveEdit_touches_only_edited Host.runtime WageValidator.fromSpec
           Scenario.ownerTypesWage "J1" H1 H2).
Defined.


Lemma edit_form_untouched_witness :
  let p := Scenario.ownerArrives Scenario.storeA in
  let job := Scenario.posting 2 [] open in
  find (fun j => Job.id j =? "J1") (Page.jobs p) = Some job
  /\ "J1" <> ""
  /\ Job.status job <> completed
  /\ parseFloat (numberToString (Job.wage job)) = Job.wage job
  /\ parseInt (numberToString (Job.requiredWorkers job)) = Job.requiredWorkers job
  /\ gt (Job.wage job) (ofZ 0) = true
  /\ gt (Job.requiredWorkers job) (ofZ 0) = true
  /\ lt (Job.requiredWorkers job) (ofNat (getAcceptedApplicationsCount p "J1")) = false
  /\ Page.alerts (handleSaveEdit WageValidator.fromSpec (handleEditJob "J1" p))
     = Page.alerts p.
Proof.
  intros p job.
  assert (H1 : find (fun j => Job.id j =? "J1") (Page.jobs p) = Some job) by reflexivity.
  assert (H2 : "J1" <> "") by discriminate.
  assert (H3 : Job.status job <> completed) by discriminate.
  assert (H4 : parseFloat (numberToString (Job.wage job)) = Job.wage job) by reflexivity.
  assert (H5 : parseInt (numberToString (Job.requiredWorkers job))
               = Job.requiredWorkers job) by reflexivity.
  assert (H6 : gt (Job.wage job) (ofZ 0) = true) by reflexivity.
  assert (H7 : gt (Job.requiredWorkers job) (ofZ 0) = true) by reflexivity.
  assert (H8 : lt (Job.requiredWorkers job)
                  (ofNat (getAcceptedApplicationsCount p "J1")) = false) by reflexivity.
  split; [exact H1 | split; [exact H2 | split; [exact H3 | split; [exact H4 | ]]]].
  split; [exact H5 | split; [exact H6 | split; [exact H7 | split; [exact H8 | ]]]].
  exact (proj1 (edit_form_untouched Host.runtime WageValidator.fromSpec p "J1" job
                  H1 H2 H3 H4 H5 H6 H7 H8)).
Defined.

Lemma canReapply_monotone_witness :
  let p := Scenario.applicantArrives Scenario.storeC in
  let now := (Scenario.rejectionTime + 25 * msPerHour)%Z in
  let later := (Scenario.rejectionTime + 30 * msPerHour)%Z in
  (now <= later)%Z
  /\ canReapply p now "J1" = true
  /\ canReapply p later "J1" = true.
Proof.
  intros p now later.
  assert (H1 : (now <= later)%Z) by (vm_compute; discriminate).
  assert (H2 : canReapply p now "J1" = true) by reflexivity.
  split; [exact H1 | split; [exact H2 | ]].
  exact (canReapply_monotone Host.runtime p now later "J1" H1 H2).
Defined.

Lemma canReapply_iff_no_time_left_witness :
  let p := Scenario.applicantArrives Scenario.storeC in
  let application :=
    Application.mk "A1" "J1" "W1" rejected (Some "2025-05-21T06:00:00.000Z") in
  let now := (Scenario.rejectionTime + 25 * msPerHour)%Z in
  find (fun app => Application.jobId app =? "J1") (Page.applications p)
  = Some application
  /\ Application.status application = rejected
  /\ Application.rejectedAt application = Some "2025-05-21T06:00:00.000Z"
  /\ "2025-05-21T06:00:00.000Z" <> ""
  /\ (canReapply p now "J1" = true <-> getTimeUntilReapply p now "J1" = "").
Proof.
  intros p application now.
  assert (H1 : find (fun app => Application.jobId app =? "J1") (Page.applications p)
               = Some application) by reflexivity.
  assert (H2 : Application.status application = rejected) by reflexivity.
  assert (H3 : Application.rejectedAt application = Some "2025-05-21T06:00:00.000Z")
    by reflexivity.
  assert (H4 : "2025-05-21T06:00:00.000Z" <> "") by discriminate.
  split; [exact H1 | split; [exact H2 | split; [exact H3 | split; [exact H4 | ]]]].
  exact (proj1 (canReapply_iff_no_time_left Host.runtime p now "J1" application
                  "2025-05-21T06:00:00.000Z" H1 H2 H3 H4)).
Defined.

Lemma canReapply_without_date_witness :
  let p := Scenario.applicantArrives Scenario.storeBadDate in
  let application := Application.mk "A1" "J1" "W1" rejected (Some "yesterday") in
  find (fun app => Application.jobId app =? "J1") (Page.applications p)
  = Some application
  /\ Application.status application = rejected
  /\ dateGetTime "yesterday" = NaN
  /\ canReapply p (Scenario.rejectionTime + 1000 * msPerHour) "J1" = false.
Proof.
  intros p application.
  assert (H1 : find (fun app => Application.jobId app =? "J1") (Page.applications p)
               = Some application) by reflexivity.
  assert (H2 : Application.status application = rejected) by reflexivity.
  assert (H3 : dateGetTime "yesterday" = NaN) by reflexivity.
  assert (H4 : "yesterday" <> "") by discriminate.
  split; [exact H1 | split; [exact H2 | split; [exact H3 | ]]].
  exact (proj1 (proj2 (canReapply_without_date Host.runtime p
                         (Scenario.rejectionTime + 1000 * msPerHour) "J1" application
                         H1 H2)
                 "yesterday" eq_refl H4 H3)).
Defined.

Lemma delete_flow_witness :
  let p := Scenario.ownerArrives Scenario.storeA in
  "J1" <> ""
  /\ (forall job, find (fun j => Job.id j =? "J1") (Page.jobs p) = Some job ->
                  Job.status job <> completed)
  /\ Page.showDeleteConfirm (confirmDeleteJob (handleDeleteJob "J1" p)) = None
  /\ (forall job,
        In job (jobStorage.getJobs
                  (Page.storage (confirmDeleteJob (handleDeleteJob "J1" p)))) ->
        Job.id job <> "J1").
Proof.
  intros p.
  assert (H1 : "J1" <> "") by discriminate.
  assert (H2 : forall job, find (fun j => Job.id j =? "J1") (Page.jobs p) = Some job ->
                           Job.status job <> completed).
  { intros job H. vm_compute in H. injection H as <-. discriminate. }
  destruct (delete_flow p "J1" H1 H2) as (Hc & _ & Hj & _).
  split; [exact H1 | split; [exact H2 | split; [exact Hc | exact Hj]]].
Defined.

Lemma passwordError_predicts_refusal_witness :
  truthy (trim (AuthPage.FormData.name Scenario.farmerForm)) = true
  /\ truthy (trim (AuthPage.FormData.contactNumber Scenario.farmerForm)) = true
  /\ snd (AuthPage.handlePasswordChange false "" Scenario.farmerForm) = ""
  /\ AuthPage.submission false
       (fst (AuthPage.handlePasswordChange false "" Scenario.farmerForm))
       Scenario.signupDay
     = AuthPage.Refused
         ("Password requirements not met: "
          ++ String.concat ", " (AuthPage.errors (AuthPage.validatePassword ""))).
Proof.
  assert (H1 : truthy (trim (AuthPage.FormData.name Scenario.farmerForm)) = true)
    by reflexivity.
  assert (H2 : truthy (trim (AuthPage.FormData.contactNumber Scenario.farmerForm)) = true)
    by reflexivity.
  split; [exact H1 | split; [exact H2 | ]].
  exact (proj2 (passwordError_predicts_refusal Host.runtime Host.calendar
                  Scenario.farmerForm Scenario.signupDay "" H1 H2)
               eq_refl).
Defined.


Lemma farmer_session_shows_no_lock_witness :
  User.userType Scenario.owner = farmer
  /\ wageDisabled (Scenario.ownerOpensForm) (Scenario.posting 2 [] open) = false.
Proof.
  assert (H : User.userType Scenario.owner = farmer) by reflexivity.
  split; [exact H | ].
  exact (proj1 (farmer_session_shows_no_lock Host.runtime WageValidator.fromSpec
                  Scenario.owner Scenario.storeA [Session.OpenEdit "J1"]
                  (Scenario.posting 2 [] open) H)).
Defined.
